(** * Mountain Viewer (PySide6 client): a shallow embedding of [main.py]

    The program is a GUI client: every handler reads a network reply, looks at
    the JSON payload and updates widgets, shows a message box, opens a modal
    dialog or issues further requests.  The embedding keeps that shape:

    - Python values produced by [json.loads] are the inductive type [value];
      Python strings are sequences of code points ([pystr]);
    - the widgets the handlers touch are fields of the record [World];
    - a handler is a computation in the monad [M]: it threads the [World],
      appends to a trace of [event]s (message boxes, HTTP requests, modal
      dialogs) and either returns or raises a Python exception;
    - what the user answers in a modal dialog is an argument of the handler;
    - the library functions the program relies on and this file does not
      implement ([bytes.decode], [json.loads], [repr], and the conversions of
      the Qt binding to a C++ [int] and to a [QVariant]) are a [Runtime] the
      handlers are parameterised by.

    The file has four parts: the program, the vocabulary in which its
    properties are stated, a concrete runtime with a few replies to run the
    handlers on, and the properties with their proofs.

    Modelling conventions.
    - JSON numbers are Python ints ([PyInt], unbounded) or floats ([PyFloat],
      binary64); [bool], [int] and [float] compare with each other by value.
    - Python dictionaries are association lists with pairwise distinct keys,
      in insertion order.
    - A Qt call stores what it is given once the binding has converted it,
      and raises when the binding cannot: a text parameter takes a [str] and
      [None] and nothing else ([qstring]); what is taken for a C++ [int] and
      what can be stored as a [QVariant] is decided by the [Runtime].  A
      widget hands back the value it was given ([item.data], [currentData]).
    - Python level failures ([.get] on something that is not a dict,
      iterating or slicing a value that does not support it, [str.join] over
      non-strings, ordering comparisons between unordered types) are
      modelled as raising.
    - [sorted] is a stable sort by [<]; the properties that depend on the
      order it gives are stated for keys that are strings.
    - A modal [exec()] is atomic: no other callback runs while it is open. *)

From Stdlib Require Import List ZArith NArith Bool Lia Floats.
From Stdlib Require Import Strings.String Strings.Ascii Strings.Byte.
From Stdlib Require Import Sorting.Sorted Sorting.Permutation.
From Stdlib Require Import DecimalString.
Import ListNotations.

Local Open Scope Z_scope.

(** ** Python strings *)

(** A Python [str]: a sequence of Unicode code points. *)
Definition pystr := list N.

(** An ASCII literal of the source as a [pystr]. *)
Fixpoint lit (s : string) : pystr :=
  match s with
  | EmptyString => []
  | String c r => N_of_ascii c :: lit r
  end.

(** The two non-ASCII characters the source uses in texts. *)
Definition em_dash : pystr := [8212%N].   (* '—' *)
Definition bullet : pystr := [8226%N].    (* '•' *)

Fixpoint str_eqb (a b : pystr) : bool :=
  match a, b with
  | [], [] => true
  | x :: a', y :: b' => N.eqb x y && str_eqb a' b'
  | _, _ => false
  end.

(** [a < b] on strings: lexicographic on code points. *)
Fixpoint str_ltb (a b : pystr) : bool :=
  match a, b with
  | _, [] => false
  | [], _ :: _ => true
  | x :: a', y :: b' =>
      if N.ltb x y then true
      else if N.eqb x y then str_ltb a' b'
      else false
  end.

(** [a <= b] on strings. *)
Definition str_le (a b : pystr) : Prop := str_ltb b a = false.

(** The characters [str.strip()] removes: Python's Unicode whitespace. *)
Definition is_whitespace (c : N) : bool :=
  ((9 <=? c) && (c <=? 13) || (28 <=? c) && (c <=? 32)
   || (c =? 133) || (c =? 160) || (c =? 5760)
   || (8192 <=? c) && (c <=? 8202)
   || (c =? 8232) || (c =? 8233) || (c =? 8239) || (c =? 8287)
   || (c =? 12288))%N.

Fixpoint lstrip (s : pystr) : pystr :=
  match s with
  | c :: r => if is_whitespace c then lstrip r else s
  | [] => []
  end.

Definition rstrip (s : pystr) : pystr := rev (lstrip (rev s)).

(** [s.strip()] *)
Definition strip (s : pystr) : pystr := rstrip (lstrip s).

(** [sep.join(parts)] over strings. *)
Fixpoint join (sep : pystr) (parts : list pystr) : pystr :=
  match parts with
  | [] => []
  | [p] => p
  | p :: rest => p ++ sep ++ join sep rest
  end.

(** [s.rstrip(c)] for a one-character argument. *)
Definition rstrip_char (c : N) (s : pystr) : pystr :=
  rev ((fix drop (r : pystr) : pystr :=
          match r with
          | x :: r' => if N.eqb x c then drop r' else r
          | [] => []
          end) (rev s)).

(** [s.startswith(c)] for a one-character argument. *)
Definition startswith_char (c : N) (s : pystr) : bool :=
  match s with
  | x :: _ => N.eqb x c
  | [] => false
  end.

(** [s.split(c)[0]]: the part of [s] before the first [c]. *)
Fixpoint before_char (c : N) (s : pystr) : pystr :=
  match s with
  | [] => []
  | x :: r => if N.eqb x c then [] else x :: before_char c r
  end.

(** [str(z)] for a Python [int]. *)
Definition str_of_int (z : Z) : pystr := lit (NilZero.string_of_int (Z.to_int z)).

(** ** Python values *)

(** What [json.loads] returns (and [None]). *)
#[local] Set Warnings "-register-all".
Inductive value : Type :=
| PyNone
| PyBool (b : bool)
| PyInt (z : Z)
| PyFloat (f : float)
| PyStr (s : pystr)
| PyList (l : list value)
| PyDict (d : list (pystr * value)).

(** [bool(v)] *)
Definition truthy (v : value) : bool :=
  match v with
  | PyNone => false
  | PyBool b => b
  | PyInt z => negb (z =? 0)
  | PyFloat f => negb (PrimFloat.eqb f 0)
  | PyStr s => match s with [] => false | _ => true end
  | PyList l => match l with [] => false | _ => true end
  | PyDict d => match d with [] => false | _ => true end
  end.

(** [a or b] *)
Definition py_or (a b : value) : value := if truthy a then a else b.

Definition isinstance_list (v : value) : bool :=
  match v with PyList _ => true | _ => false end.

Definition isinstance_dict (v : value) : bool :=
  match v with PyDict _ => true | _ => false end.

(** Lookup in a dictionary body. *)
Fixpoint lookup (k : pystr) (d : list (pystr * value)) : option value :=
  match d with
  | [] => None
  | (k', v) :: d' => if str_eqb k k' then Some v else lookup k d'
  end.

(** [d.get(k)] and [d.get(k, dflt)] on a dictionary body. *)
Definition dict_get (d : list (pystr * value)) (k : string) : value :=
  match lookup (lit k) d with Some v => v | None => PyNone end.

Definition dict_get_or (d : list (pystr * value)) (k : string) (dflt : value) : value :=
  match lookup (lit k) d with Some v => v | None => dflt end.

(** *** Numbers

    [bool] is a subtype of [int], and an [int] compares with a [float] by
    exact value. *)

Inductive number : Type :=
| Int (z : Z)
| Float (f : float).

Definition as_number (v : value) : option number :=
  match v with
  | PyBool b => Some (Int (if b then 1 else 0))
  | PyInt z => Some (Int z)
  | PyFloat f => Some (Float f)
  | _ => None
  end.

(** An [int] against a [float], exactly; [None] when the float is a NaN. *)
Definition int_float_compare (z : Z) (f : float) : option comparison :=
  match Prim2SF f with
  | S754_nan => None
  | S754_zero _ => Some (z ?= 0)
  | S754_infinity negative => Some (if negative then Gt else Lt)
  | S754_finite negative m e =>
      let n := if negative then Z.neg m else Z.pos m in
      Some (if 0 <=? e then z ?= n * 2 ^ e else z * 2 ^ (- e) ?= n)
  end.

(** Equality as containers and [in] test it: [x is y or x == y].  The NaN
    of [json.loads] is one object, so there it equals itself. *)
Definition num_eq (x y : number) : bool :=
  match x, y with
  | Int a, Int b => a =? b
  | Int a, Float g => match int_float_compare a g with Some Eq => true | _ => false end
  | Float f, Int b => match int_float_compare b f with Some Eq => true | _ => false end
  | Float f, Float g => PrimFloat.eqb f g || (PrimFloat.is_nan f && PrimFloat.is_nan g)
  end.

Definition num_lt (x y : number) : bool :=
  match x, y with
  | Int a, Int b => a <? b
  | Int a, Float g => match int_float_compare a g with Some Lt => true | _ => false end
  | Float f, Int b => match int_float_compare b f with Some Gt => true | _ => false end
  | Float f, Float g => PrimFloat.ltb f g
  end.

(** [a == b] on JSON values. *)
Fixpoint py_eq (a b : value) {struct a} : bool :=
  match a, b with
  | PyNone, PyNone => true
  | PyStr s, PyStr t => str_eqb s t
  | PyList l, PyList m =>
      (fix go (l m : list value) {struct l} : bool :=
         match l, m with
         | [], [] => true
         | x :: l', y :: m' => py_eq x y && go l' m'
         | _, _ => false
         end) l m
  | PyDict d, PyDict e =>
      Nat.eqb (List.length d) (List.length e) &&
      (fix go (d : list (pystr * value)) : bool :=
         match d with
         | [] => true
         | (k, v) :: d' =>
             match lookup k e with
             | Some w => py_eq v w
             | None => false
             end && go d'
         end) d
  | _, _ =>
      match as_number a, as_number b with
      | Some x, Some y => num_eq x y
      | _, _ => false
      end
  end.

(** [a < b] on JSON values; [None] when Python raises [TypeError]. *)
Fixpoint py_lt (a b : value) {struct a} : option bool :=
  match a, b with
  | PyStr s, PyStr t => Some (str_ltb s t)
  | PyList l, PyList m =>
      (fix go (l m : list value) {struct l} : option bool :=
         match l, m with
         | [], [] => Some false
         | [], _ :: _ => Some true
         | _ :: _, [] => Some false
         | x :: l', y :: m' => if py_eq x y then go l' m' else py_lt x y
         end) l m
  | _, _ =>
      match as_number a, as_number b with
      | Some x, Some y => Some (num_lt x y)
      | _, _ => None
      end
  end.

(** [x in l] *)
Definition py_in (x : value) (l : list value) : bool := existsb (py_eq x) l.

(** ** Widgets, events and the handler monad *)

(** A finished [QNetworkReply]: [error] is [None] for [NoError] and otherwise
    carries [errorString()]; [readAll] is the raw body. *)
Record QNetworkReply : Type := {
  error : option pystr;
  readAll : list byte
}.

(** [GroupCard]: the three labels of a card. *)
Record GroupCardW : Type := {
  card_title : value;
  card_meta : pystr;
  card_desc : value
}.

(** An item of [groups_list]: its [Qt.UserRole] data and its card. *)
Record GroupItem : Type := {
  item_data : value;
  item_widget : GroupCardW
}.

Record MountainsPage : Type := {
  current_mountain : value;
  name_lbl : pystr;
  height_lbl : pystr;
  country_lbl : pystr;
  region_lbl : pystr;
  desc : value;
  groups_list : list GroupItem
}.

(** A [QComboBox]: (text, userData) entries, the current index ([-1] when
    there is none) and the [blockSignals] flag. *)
Record QComboBox : Type := {
  combo_items : list (pystr * value);
  currentIndex : Z;
  signalsBlocked : bool
}.

(** Everything the handlers read or write.  [in_main_window] says whether
    [self.window()] of the Mountains page has [load_mountain_combo]. *)
Record World : Type := {
  page_mountains : MountainsPage;
  climbers_list : list pystr;
  groups_page_list : list pystr;
  ascents_list : list pystr;
  stats_text : pystr;
  mountain_combo : QComboBox;
  title_label : value;
  in_main_window : bool
}.

(** The completion callbacks handed to [APIClient]. *)
Inductive callback : Type :=
| Cb_mountain_detail
| Cb_groups
| Cb_refresh_fetched
| Cb_added
| Cb_check_groups_before_edit
| Cb_updated
| Cb_members_fetched
| Cb_climbers_fetched
| Cb_groups_fetched
| Cb_prep_add
| Cb_group_created
| Cb_ascents_fetched
| Cb_stats_fetched
| Cb_combo_loaded.

Inductive method : Type := GET | POST | PUT.

(** Modal dialogs, with what they show when they open: the rows of the
    members list, the prefilled fields of the edit form, the entries of the
    group form's mountain selector. *)
Inductive dialog : Type :=
| MembersDialog (names : list pystr)
| AddMountainDialog
| EditMountainDialog (name : pystr) (height : Z) (country region description : pystr)
| AddGroupDialog (mountains : list (pystr * value)).

(** What a handler does to the outside. *)
Inductive event : Type :=
| Warning (title text : pystr)
| Information (title text : pystr)
| Request (m : method) (url : pystr) (payload : option value) (cb : callback)
| Exec (d : dialog).

(** How a modal form dialog was closed. *)
Inductive DialogCode (A : Type) : Type :=
| Rejected
| Accepted (form : A).
Arguments Rejected {A}.
Arguments Accepted {A} form.

(** The fields of the mountain form when it is accepted. *)
Record MountainForm : Type := {
  form_name : pystr;
  form_height : Z;
  form_country : pystr;
  form_region : pystr;
  form_description : pystr
}.

(** The fields of the group form when it is accepted; [form_mountain] is the
    current index of its mountain selector, [form_start] the date as
    [yyyy-MM-dd]. *)
Record GroupForm : Type := {
  gform_name : pystr;
  gform_description : pystr;
  gform_leader : Z;
  gform_mountain : nat;
  gform_start : pystr
}.

(** The answers of the user to the modal dialogs a handler may open. *)
Record UserInput : Type := {
  mountain_form : DialogCode MountainForm;
  group_form : DialogCode GroupForm
}.

(** A handler either returns or raises. *)
Inductive result (A : Type) : Type :=
| Returned (a : A)
| Raised.
Arguments Returned {A} a.
Arguments Raised {A}.

Record outcome (A : Type) : Type := Out {
  world : World;
  events : list event;
  status : result A
}.
Arguments Out {A}.
Arguments world {A}.
Arguments events {A}.
Arguments status {A}.

Definition M (A : Type) : Type := World -> outcome A.

Definition ret {A} (a : A) : M A := fun w => Out w [] (Returned a).

Definition bind {A B} (m : M A) (f : A -> M B) : M B :=
  fun w =>
    match m w with
    | Out w1 e1 (Returned a) =>
        match f a w1 with
        | Out w2 e2 r => Out w2 (e1 ++ e2) r
        end
    | Out w1 e1 Raised => Out w1 e1 Raised
    end.

Definition raise {A} : M A := fun w => Out w [] Raised.

Definition emit (e : event) : M unit := fun w => Out w [e] (Returned tt).

Definition get_world : M World := fun w => Out w [] (Returned w).

Definition modify (f : World -> World) : M unit := fun w => Out (f w) [] (Returned tt).

(** A pure operation that may raise. *)
Definition lift {A} (o : option A) : M A :=
  match o with
  | Some a => ret a
  | None => raise
  end.

Declare Scope monad_scope.
Delimit Scope monad_scope with monad.
Notation "x <- m ;; k" := (bind m (fun x => k))
  (at level 61, m at next level, right associativity) : monad_scope.
Notation "m ;; k" := (bind m (fun _ => k))
  (at level 61, right associativity) : monad_scope.
Local Open Scope monad_scope.

(** [for x in xs: body(x)] *)
Fixpoint for_each {A} (xs : list A) (body : A -> M unit) : M unit :=
  match xs with
  | [] => ret tt
  | x :: rest => body x ;; for_each rest body
  end.

(** A list comprehension whose element expression may raise. *)
Fixpoint traverse {A B} (f : A -> option B) (xs : list A) : option (list B) :=
  match xs with
  | [] => Some []
  | x :: rest =>
      match f x with
      | Some y =>
          match traverse f rest with
          | Some ys => Some (y :: ys)
          | None => None
          end
      | None => None
      end
  end.

(** ** Configuration and utilities *)

Definition BASE_URL : pystr := lit "http://localhost:8180".
Definition API_PREFIX : pystr := lit "/api/v1".

Definition slash : N := 47%N.

Definition qurl (path : pystr) : pystr :=
  let path := if negb (startswith_char slash path) then slash :: path else path in
  rstrip_char slash BASE_URL ++ path.

(** [x.get(k)] on an arbitrary value: [AttributeError] unless [x] is a dict. *)
Definition get (x : value) (k : string) : option value :=
  match x with
  | PyDict d => Some (dict_get d k)
  | _ => None
  end.

(** [v[:180]] *)
Definition slice_180 (v : value) : option value :=
  match v with
  | PyStr s => Some (PyStr (firstn 180 s))
  | PyList l => Some (PyList (firstn 180 l))
  | _ => None
  end.

(** [for x in v]: the elements Python iterates over. *)
Definition iterate (v : value) : option (list value) :=
  match v with
  | PyList l => Some l
  | PyDict d => Some (map (fun kv => PyStr (fst kv)) d)
  | PyStr s => Some (map (fun c => PyStr [c]) s)
  | _ => None
  end.

(** The items of [' '.join(...)] must all be strings. *)
Definition as_str (v : value) : option pystr :=
  match v with
  | PyStr s => Some s
  | _ => None
  end.

(** [def human_name_from_climber(c)]; [None] when it raises. *)
Definition human_name_from_climber (c : value) : option value :=
  match c with
  | PyDict d =>
      let parts := [py_or (dict_get d "first_name") (PyStr []);
                    py_or (dict_get d "middle_name") (PyStr []);
                    py_or (dict_get d "last_name") (PyStr [])] in
      match traverse as_str (filter truthy parts) with
      | Some ps =>
          Some (py_or (py_or (PyStr (strip (join (lit " ") ps))) (dict_get d "email"))
                      (PyStr (lit "Unknown")))
      | None => None
      end
  | _ => None
  end.

(** *** [sorted(data, key=lambda x: x.get('ascent_start_date') or '')]

    A stable insertion sort using only [<] on the keys, as [list.sort] does.
    On keys that are pairwise comparable and totally ordered (strings,
    numbers without NaN) a stable sort has one possible result, which this
    computes; on other keys the comparisons CPython happens to make are not
    modelled. *)

Definition sort_key (x : value) : option value :=
  match x with
  | PyDict d => Some (py_or (dict_get d "ascent_start_date") (PyStr []))
  | _ => None
  end.

Fixpoint insert_keyed (kx : value * value) (l : list (value * value))
  : option (list (value * value)) :=
  match l with
  | [] => Some [kx]
  | ky :: l' =>
      match py_lt (fst ky) (fst kx) with
      | Some true =>
          match insert_keyed kx l' with
          | Some r => Some (ky :: r)
          | None => None
          end
      | Some false => Some (kx :: ky :: l')
      | None => None
      end
  end.

Fixpoint sort_keyed (l : list (value * value)) : option (list (value * value)) :=
  match l with
  | [] => Some []
  | kx :: l' =>
      match sort_keyed l' with
      | Some r => insert_keyed kx r
      | None => None
      end
  end.

(** The whole [sorted(...)] call; [None] when it raises. *)
Definition sorted_by_start_date (data : list value) : option (list value) :=
  match traverse sort_key data with
  | Some keys =>
      match sort_keyed (combine keys data) with
      | Some r => Some (map snd r)
      | None => None
      end
  | None => None
  end.

(** *** Arguments of Qt calls

    The binding converts the Python object a Qt call is given to the C++
    type of the parameter, and raises when it cannot. *)

(** An object passed for a [QString] ([QLabel(text)], [setText],
    [setPlainText], [QLineEdit(text)], [addItem(text)]): a [str] is taken as
    it is and [None] as the empty string; anything else is a [TypeError]. *)
Definition qstring (v : value) : option pystr :=
  match v with
  | PyStr s => Some s
  | PyNone => Some []
  | _ => None
  end.

(** [QSpinBox.setValue] after [setRange(0, 100000)]: the value is brought
    into the range. *)
Definition spin_value (z : Z) : Z := Z.max 0 (Z.min 100000 z).

(** Library functions the program calls and this development does not
    implement: [bytes.decode('utf-8')] and [json.loads] ([None] when they
    raise), [repr] of floats, lists and dicts as used by f-strings, and two
    conversions of the Qt binding: of an object passed for a C++ [int]
    ([None] when the binding raises, as it does on a [str]), and of an object
    stored as a [QVariant] by [setData] or as the user data of [addItem]
    ([false] when the binding raises, as it does with [OverflowError] on an
    integer that is too large). *)
Record Runtime : Type := {
  utf8_decode : list byte -> option pystr;
  json_loads : pystr -> option value;
  py_repr : value -> pystr;
  qt_int : value -> option Z;
  qt_variant : value -> bool
}.

Section Program.

Variable py : Runtime.

(** [def parse_reply_json(reply)] *)
Definition parse_reply_json (reply : QNetworkReply) : value :=
  match utf8_decode py (readAll reply) with
  | Some text =>
      match json_loads py text with
      | Some v => v
      | None => PyNone
      end
  | None => PyNone
  end.

(** [f"{v}"] *)
Definition fmt (v : value) : pystr :=
  match v with
  | PyNone => lit "None"
  | PyBool true => lit "True"
  | PyBool false => lit "False"
  | PyInt z => str_of_int z
  | PyStr s => s
  | PyFloat _ | PyList _ | PyDict _ => py_repr py v
  end.

(** *** [class GroupCard]

    The three labels of the card; [None] when building it raises: on a title
    that is not a string, on a description that cannot be sliced, and on a
    sliced description that is not a string. *)

Definition GroupCard (g : value) : option GroupCardW :=
  match g with
  | PyDict d =>
      let title := py_or (py_or (dict_get d "group_name") (dict_get d "name"))
                         (PyStr (lit "Group")) in
      let meta := lit "Leader: " ++ fmt (dict_get_or d "leader_name" (PyStr em_dash))
                  ++ lit "  " ++ bullet ++ lit "  Start: "
                  ++ fmt (dict_get_or d "ascent_start_date" (PyStr em_dash)) in
      match qstring title, slice_180 (py_or (dict_get d "description") (PyStr [])) with
      | Some t, Some dsc =>
          match qstring dsc with
          | Some s => Some {| card_title := PyStr t; card_meta := meta; card_desc := PyStr s |}
          | None => None
          end
      | _, _ => None
      end
  | _ => None
  end.

(** *** [class APIClient] *)

Definition api_get (endpoint : pystr) (cb : callback) : M unit :=
  emit (Request GET (qurl (API_PREFIX ++ endpoint)) None cb).

Definition api_post (endpoint : pystr) (payload : value) (cb : callback) : M unit :=
  emit (Request POST (qurl (API_PREFIX ++ endpoint)) (Some payload) cb).

Definition api_put (endpoint : pystr) (payload : value) (cb : callback) : M unit :=
  emit (Request PUT (qurl (API_PREFIX ++ endpoint)) (Some payload) cb).

(** *** [class MountainsPage] *)

(** An update of the Mountains page inside the world. *)
Definition with_page (f : MountainsPage -> MountainsPage) (w : World) : World :=
  {| page_mountains := f (page_mountains w);
     climbers_list := climbers_list w;
     groups_page_list := groups_page_list w;
     ascents_list := ascents_list w;
     stats_text := stats_text w;
     mountain_combo := mountain_combo w;
     title_label := title_label w;
     in_main_window := in_main_window w |}.

Definition modify_page (f : MountainsPage -> MountainsPage) : M unit :=
  modify (with_page f).

(** [self.groups_list.clear()] *)
Definition groups_list_clear (p : MountainsPage) : MountainsPage :=
  {| current_mountain := current_mountain p;
     name_lbl := name_lbl p; height_lbl := height_lbl p;
     country_lbl := country_lbl p; region_lbl := region_lbl p;
     desc := desc p;
     groups_list := [] |}.

(** [self.groups_list.addItem(item)] *)
Definition groups_list_addItem (it : GroupItem) (p : MountainsPage) : MountainsPage :=
  {| current_mountain := current_mountain p;
     name_lbl := name_lbl p; height_lbl := height_lbl p;
     country_lbl := country_lbl p; region_lbl := region_lbl p;
     desc := desc p;
     groups_list := groups_list p ++ [it] |}.

(** [self.current_mountain = data] and the four [setText] calls of
    [_on_mountain_detail]. *)
Definition show_labels (d : list (pystr * value)) (p : MountainsPage) : MountainsPage :=
  {| current_mountain := PyDict d;
     name_lbl := lit "Name: " ++ fmt (dict_get_or d "name" (PyStr em_dash));
     height_lbl := lit "Height: " ++ fmt (dict_get_or d "height" (PyStr em_dash));
     country_lbl := lit "Country: " ++ fmt (dict_get_or d "country" (PyStr em_dash));
     region_lbl := lit "Region: " ++ fmt (dict_get_or d "region" (PyStr em_dash));
     desc := desc p;
     groups_list := groups_list p |}.

(** [self.desc.setPlainText(text)] *)
Definition desc_setPlainText (text : pystr) (p : MountainsPage) : MountainsPage :=
  {| current_mountain := current_mountain p;
     name_lbl := name_lbl p; height_lbl := height_lbl p;
     country_lbl := country_lbl p; region_lbl := region_lbl p;
     desc := PyStr text;
     groups_list := groups_list p |}.

(** The detail half of the page as [_on_mountain_detail] leaves it: the
    labels are written first, so they show the record also when the
    description is refused and the box keeps its text. *)
Definition show_detail (d : list (pystr * value)) (p : MountainsPage) : MountainsPage :=
  match qstring (dict_get_or d "description" (PyStr [])) with
  | Some text => desc_setPlainText text (show_labels d p)
  | None => show_labels d p
  end.

(** The page as [setup_ui] builds it and as an empty refresh resets it. *)
Definition blank_page : MountainsPage :=
  {| current_mountain := PyNone;
     name_lbl := lit "Name: " ++ em_dash;
     height_lbl := lit "Height: " ++ em_dash;
     country_lbl := lit "Country: " ++ em_dash;
     region_lbl := lit "Region: " ++ em_dash;
     desc := PyStr [];
     groups_list := [] |}.

Definition load_mountain (mountain_id : value) : M unit :=
  if negb (truthy mountain_id) then ret tt
  else
    api_get (lit "/mountains/" ++ fmt mountain_id) Cb_mountain_detail ;;
    api_get (lit "/mountains/" ++ fmt mountain_id ++ lit "/groups") Cb_groups.

Definition _on_mountain_detail (reply : QNetworkReply) : M unit :=
  match error reply with
  | Some msg => emit (Warning (lit "Error") (lit "Failed to load mountain: " ++ msg))
  | None =>
      match parse_reply_json reply with
      | PyDict d =>
          modify_page (show_labels d) ;;
          text <- lift (qstring (dict_get_or d "description" (PyStr []))) ;;
          modify_page (desc_setPlainText text)
      | _ => ret tt
      end
  end.

(** One turn of the loop of [_on_groups]: the card is built, the record is
    stored as the data of the item ([setData], which may raise), and only
    then is the item added to the list. *)
Definition render_group (g : value) : M unit :=
  title0 <- lift (get g "group_name") ;;
  title1 <- lift (get g "name") ;;
  leader <- lift (get g "leader_name") ;;
  start <- lift (get g "ascent_start_date") ;;
  description <- lift (match g with
                       | PyDict d => Some (dict_get_or d "description" (PyStr []))
                       | _ => None
                       end) ;;
  widget <- lift (GroupCard (PyDict
              [(lit "group_name", py_or (py_or title0 title1) (PyStr (lit "Group")));
               (lit "leader_name", py_or leader (PyStr em_dash));
               (lit "ascent_start_date", py_or start (PyStr em_dash));
               (lit "description", description)])) ;;
  lift (if qt_variant py g then Some tt else None) ;;
  modify_page (groups_list_addItem {| item_data := g; item_widget := widget |}).

Definition _on_groups (reply : QNetworkReply) : M unit :=
  match error reply with
  | Some msg => emit (Warning (lit "Error") (lit "Failed to load groups: " ++ msg))
  | None =>
      let data := parse_reply_json reply in
      modify_page groups_list_clear ;;
      match data with
      | PyList l =>
          let data_sorted := match sorted_by_start_date l with
                             | Some r => r
                             | None => l
                             end in
          for_each data_sorted render_group
      | _ => ret tt
      end
  end.

(** [MainWindow.load_mountain_combo] *)
Definition load_mountain_combo : M unit :=
  api_get (lit "/mountains/") Cb_combo_loaded.

(** [on_refresh]: delegate to the main window when the page lives in one
    (the call cannot raise, so the [except] branch is never taken), otherwise
    fetch the mountain list for [_on_refresh_fetched]. *)
Definition on_refresh : M unit :=
  w <- get_world ;;
  if in_main_window w then load_mountain_combo
  else api_get (lit "/mountains/") Cb_refresh_fetched.

(** [current_id] as [_on_refresh_fetched] computes it. *)
Definition current_id_of (p : MountainsPage) : value :=
  match current_mountain p with
  | PyDict d => dict_get d "id"
  | _ => PyNone
  end.

Definition _on_refresh_fetched (reply : QNetworkReply) : M unit :=
  match error reply with
  | Some msg => emit (Warning (lit "Error") (lit "Failed to refresh mountains: " ++ msg))
  | None =>
      let data := parse_reply_json reply in
      let mountains := match data with PyList l => l | _ => [] end in
      match mountains with
      | [] => modify_page (fun _ => blank_page)
      | first :: _ =>
          w <- get_world ;;
          let current_id := current_id_of (page_mountains w) in
          ids <- lift (traverse (fun m => get m "id") mountains) ;;
          if truthy current_id && py_in current_id ids then load_mountain current_id
          else
            first_mid <- lift (get first "id") ;;
            if truthy first_mid then load_mountain first_mid else ret tt
      end
  end.

Definition _on_added (reply : QNetworkReply) : M unit :=
  match error reply with
  | Some msg => emit (Warning (lit "Error") (lit "Create failed: " ++ msg))
  | None =>
      emit (Information (lit "Success") (lit "Mountain created")) ;;
      on_refresh
  end.

Definition _on_updated (reply : QNetworkReply) : M unit :=
  match error reply with
  | Some msg => emit (Warning (lit "Error") (lit "Update failed: " ++ msg))
  | None =>
      emit (Information (lit "Success") (lit "Mountain updated")) ;;
      on_refresh
  end.

(** The payload of the mountain form. *)
Definition mountain_payload (f : MountainForm) : value :=
  PyDict [(lit "name", PyStr (form_name f));
          (lit "height", PyInt (form_height f));
          (lit "country", PyStr (form_country f));
          (lit "region", PyStr (form_region f));
          (lit "description", PyStr (form_description f))].

Definition on_add (ui : UserInput) : M unit :=
  emit (Exec AddMountainDialog) ;;
  match mountain_form ui with
  | Accepted f => api_post (lit "/mountains/") (mountain_payload f) Cb_added
  | Rejected => ret tt
  end.

Definition on_edit : M unit :=
  w <- get_world ;;
  let m := current_mountain (page_mountains w) in
  if negb (truthy m) then emit (Information (lit "Info") (lit "No mountain selected"))
  else
    mid <- lift (get m "id") ;;
    api_get (lit "/mountains/" ++ fmt mid ++ lit "/groups") Cb_check_groups_before_edit.

Definition _on_check_groups_before_edit (reply : QNetworkReply) (ui : UserInput) : M unit :=
  match error reply with
  | Some msg => emit (Warning (lit "Error") (lit "Failed: " ++ msg))
  | None =>
      let data := parse_reply_json reply in
      if isinstance_list data && truthy data then
        emit (Information (lit "Info")
                (lit "Cannot edit mountain: ascents exist for this mountain"))
      else
        w <- get_world ;;
        match current_mountain (page_mountains w) with
        | PyDict m =>
            name <- lift (qstring (dict_get_or m "name" (PyStr []))) ;;
            height <- lift (qt_int py (py_or (dict_get m "height") (PyInt 0))) ;;
            country <- lift (qstring (dict_get_or m "country" (PyStr []))) ;;
            region <- lift (qstring (dict_get_or m "region" (PyStr []))) ;;
            description <- lift (qstring (dict_get_or m "description" (PyStr []))) ;;
            emit (Exec (EditMountainDialog name (spin_value height) country region
                          description)) ;;
            match mountain_form ui with
            | Accepted f =>
                api_put (lit "/mountains/" ++ fmt (dict_get m "id"))
                        (mountain_payload f) Cb_updated
            | Rejected => ret tt
            end
        | _ => raise
        end
  end.

(** *** [class GroupDialog] *)

Definition on_view_members (group : value) : M unit :=
  gid0 <- lift (get group "group_id") ;;
  gid1 <- lift (get group "id") ;;
  let gid := py_or gid0 gid1 in
  if negb (truthy gid) then emit (Information (lit "Info") (lit "Group id not available"))
  else
    emit (Request GET (qurl (API_PREFIX ++ lit "/groups/" ++ fmt gid ++ lit "/members"))
                  None Cb_members_fetched).

(** [lw.addItem(human_name_from_climber(m))] *)
Definition members_row (m : value) : option pystr :=
  match human_name_from_climber m with
  | Some name => qstring name
  | None => None
  end.

Definition _on_members_fetched (reply : QNetworkReply) : M unit :=
  match error reply with
  | Some msg => emit (Warning (lit "Error") (lit "Failed to fetch members: " ++ msg))
  | None =>
      let data := parse_reply_json reply in
      let members := match data with
                     | PyDict d => match lookup (lit "members") d with
                                   | Some v => v
                                   | None => data
                                   end
                     | _ => data
                     end in
      names <- lift (match members with
                     | PyList l => traverse members_row l
                     | _ => Some []
                     end) ;;
      emit (Exec (MembersDialog names))
  end.

(** *** [class ClimbersPage] *)

Definition set_climbers_list (l : list pystr) : M unit :=
  modify (fun w =>
    {| page_mountains := page_mountains w;
       climbers_list := l;
       groups_page_list := groups_page_list w;
       ascents_list := ascents_list w;
       stats_text := stats_text w;
       mountain_combo := mountain_combo w;
       title_label := title_label w;
       in_main_window := in_main_window w |}).

Definition ClimbersPage_refresh : M unit :=
  api_get (lit "/climbers/") Cb_climbers_fetched.

Definition ClimbersPage_on_fetched (r : QNetworkReply) : M unit :=
  match error r with
  | Some msg => emit (Warning (lit "Error") msg)
  | None =>
      let data := parse_reply_json r in
      set_climbers_list [] ;;
      match data with
      | PyList l =>
          for_each l (fun c =>
            name <- lift (human_name_from_climber c) ;;
            email <- lift (match c with
                           | PyDict d => Some (dict_get_or d "email" (PyStr []))
                           | _ => None
                           end) ;;
            w <- get_world ;;
            set_climbers_list
              (climbers_list w ++ [fmt name ++ lit " " ++ em_dash ++ lit " " ++ fmt email]))
      | _ => ret tt
      end
  end.

(** *** [class GroupsPage] *)

Definition set_groups_page_list (l : list pystr) : M unit :=
  modify (fun w =>
    {| page_mountains := page_mountains w;
       climbers_list := climbers_list w;
       groups_page_list := l;
       ascents_list := ascents_list w;
       stats_text := stats_text w;
       mountain_combo := mountain_combo w;
       title_label := title_label w;
       in_main_window := in_main_window w |}).

Definition GroupsPage_refresh : M unit :=
  api_get (lit "/groups/") Cb_groups_fetched.

Definition GroupsPage_on_fetched (r : QNetworkReply) : M unit :=
  match error r with
  | Some msg => emit (Warning (lit "Error") msg)
  | None =>
      let data := parse_reply_json r in
      set_groups_page_list [] ;;
      match data with
      | PyList l =>
          for_each l (fun g =>
            name <- lift (get g "name") ;;
            leader <- lift (get g "leader_id") ;;
            w <- get_world ;;
            set_groups_page_list
              (groups_page_list w
               ++ [fmt name ++ lit " " ++ em_dash ++ lit " leader:" ++ fmt leader]))
      | _ => ret tt
      end
  end.

Definition GroupsPage_add : M unit :=
  api_get (lit "/mountains/") Cb_prep_add.

(** [mc.currentData()] for the index the user left selected. *)
Definition itemData (items : list (pystr * value)) (i : nat) : value :=
  match nth_error items i with
  | Some it => snd it
  | None => PyNone
  end.

(** The (text, userData) pair a mountain contributes to a selector by
    [addItem(text, m.get('id'))]; [None] when the turn raises: on an element
    that is not a dict, and on an id the binding cannot store. *)
Definition combo_entry (m : value) : option (pystr * value) :=
  match m with
  | PyDict d =>
      if qt_variant py (dict_get d "id")
      then Some (fmt (dict_get d "name") ++ lit " (" ++ fmt (dict_get d "country") ++ lit ")",
                 dict_get d "id")
      else None
  | _ => None
  end.

(** The selector [mc] of the group form: the sentinel entry, then one entry
    per mountain; [None] when filling it raises. *)
Definition group_form_selector (mountains : value) : option (list (pystr * value)) :=
  match iterate mountains with
  | Some ms =>
      match traverse combo_entry ms with
      | Some entries => Some ((lit "Select", PyInt (-1)) :: entries)
      | None => None
      end
  | None => None
  end.

Definition _prep_add (r : QNetworkReply) (ui : UserInput) : M unit :=
  match error r with
  | Some msg => emit (Warning (lit "Error") msg)
  | None =>
      let mountains := py_or (parse_reply_json r) (PyList []) in
      mc <- lift (group_form_selector mountains) ;;
      emit (Exec (AddGroupDialog mc)) ;;
      match group_form ui with
      | Accepted f =>
          let mid := itemData mc (gform_mountain f) in
          if py_eq mid (PyInt (-1)) then
            emit (Information (lit "Info") (lit "Select mountain"))
          else
            api_post (lit "/groups/")
              (PyDict [(lit "name", PyStr (gform_name f));
                       (lit "description", PyStr (gform_description f));
                       (lit "leader_id", PyInt (gform_leader f));
                       (lit "mountain_id", mid);
                       (lit "start_date", PyStr (gform_start f))])
              Cb_group_created
      | Rejected => ret tt
      end
  end.

(** The completion lambda of the group [POST]. *)
Definition _on_group_created (rr : QNetworkReply) : M unit :=
  match error rr with
  | None => emit (Information (lit "Success") (lit "Group created"))
  | Some msg => emit (Warning (lit "Error") msg)
  end ;;
  GroupsPage_refresh.

(** *** [class AscentsPage] *)

Definition set_ascents_list (l : list pystr) : M unit :=
  modify (fun w =>
    {| page_mountains := page_mountains w;
       climbers_list := climbers_list w;
       groups_page_list := groups_page_list w;
       ascents_list := l;
       stats_text := stats_text w;
       mountain_combo := mountain_combo w;
       title_label := title_label w;
       in_main_window := in_main_window w |}).

Definition AscentsPage_upcoming : M unit :=
  api_get (lit "/ascents/upcoming") Cb_ascents_fetched.

(** [a.get(flat) or (a.get(obj) or {}).get('name') or '—'], left to right. *)
Definition name_or_nested (a : value) (flat obj : string) : option value :=
  match get a flat with
  | Some v =>
      if truthy v then Some v
      else
        match get a obj with
        | Some o =>
            match get (py_or o (PyDict [])) "name" with
            | Some n => Some (py_or n (PyStr em_dash))
            | None => None
            end
        | None => None
        end
  | None => None
  end.

Definition AscentsPage_on_fetched (r : QNetworkReply) : M unit :=
  match error r with
  | Some msg => emit (Warning (lit "Error") msg)
  | None =>
      let data := parse_reply_json r in
      set_ascents_list [] ;;
      match data with
      | PyList l =>
          for_each l (fun a =>
            mountain <- lift (name_or_nested a "mountain_name" "mountain") ;;
            group <- lift (name_or_nested a "group_name" "group") ;;
            start_date <- lift (get a "start_date") ;;
            end_date <- lift (get a "end_date") ;;
            st <- lift (get a "status") ;;
            w <- get_world ;;
            set_ascents_list
              (ascents_list w
               ++ [fmt mountain ++ lit " " ++ em_dash ++ lit " " ++ fmt group
                   ++ lit " " ++ em_dash ++ lit " " ++ fmt start_date ++ lit " -> "
                   ++ fmt end_date ++ lit " " ++ em_dash ++ lit " " ++ fmt st]))
      | _ => ret tt
      end
  end.

(** *** [class StatsPage] *)

Definition set_stats_text (t : pystr) : M unit :=
  modify (fun w =>
    {| page_mountains := page_mountains w;
       climbers_list := climbers_list w;
       groups_page_list := groups_page_list w;
       ascents_list := ascents_list w;
       stats_text := t;
       mountain_combo := mountain_combo w;
       title_label := title_label w;
       in_main_window := in_main_window w |}).

Definition StatsPage_refresh : M unit :=
  api_get (lit "/mountains/stats") Cb_stats_fetched.

Definition stats_line (m : value) : option pystr :=
  match m with
  | PyDict d =>
      Some (fmt (dict_get d "name") ++ lit " (" ++ fmt (dict_get d "height") ++ lit ") "
            ++ em_dash ++ lit " ascents: " ++ fmt (dict_get d "ascents_count") ++ lit " "
            ++ em_dash ++ lit " unique groups/visitors: "
            ++ fmt (dict_get d "unique_groups_count"))
  | _ => None
  end.

Definition StatsPage_on_fetched (r : QNetworkReply) : M unit :=
  match error r with
  | Some msg => emit (Warning (lit "Error") msg)
  | None =>
      match parse_reply_json r with
      | PyList l =>
          lines <- lift (traverse stats_line l) ;;
          set_stats_text (join [10%N] lines)
      | _ => set_stats_text (lit "No stats")
      end
  end.

(** *** [class MainWindow] *)

Definition modify_combo (f : QComboBox -> QComboBox) : M unit :=
  modify (fun w =>
    {| page_mountains := page_mountains w;
       climbers_list := climbers_list w;
       groups_page_list := groups_page_list w;
       ascents_list := ascents_list w;
       stats_text := stats_text w;
       mountain_combo := f (mountain_combo w);
       title_label := title_label w;
       in_main_window := in_main_window w |}).

Definition set_title_label (v : value) : M unit :=
  modify (fun w =>
    {| page_mountains := page_mountains w;
       climbers_list := climbers_list w;
       groups_page_list := groups_page_list w;
       ascents_list := ascents_list w;
       stats_text := stats_text w;
       mountain_combo := mountain_combo w;
       title_label := v;
       in_main_window := in_main_window w |}).

Definition blockSignals (b : bool) (c : QComboBox) : QComboBox :=
  {| combo_items := combo_items c; currentIndex := currentIndex c; signalsBlocked := b |}.

(** [clear()] and [addItem(text, data)]; the program calls them only while
    the signals of the combo are blocked, so nothing is emitted. *)
Definition combo_clear (c : QComboBox) : QComboBox :=
  {| combo_items := []; currentIndex := -1; signalsBlocked := signalsBlocked c |}.

Definition combo_addItem (text : pystr) (data : value) (c : QComboBox) : QComboBox :=
  {| combo_items := combo_items c ++ [(text, data)];
     currentIndex := match combo_items c with [] => 0 | _ => currentIndex c end;
     signalsBlocked := signalsBlocked c |}.

Definition currentData (c : QComboBox) : value :=
  if currentIndex c <? 0 then PyNone
  else itemData (combo_items c) (Z.to_nat (currentIndex c)).

Definition currentText (c : QComboBox) : pystr :=
  if currentIndex c <? 0 then []
  else match nth_error (combo_items c) (Z.to_nat (currentIndex c)) with
       | Some it => fst it
       | None => []
       end.

(** The slot of [currentIndexChanged]. *)
Definition on_combo_change : M unit :=
  w <- get_world ;;
  let mid := currentData (mountain_combo w) in
  match mid with
  | PyNone => ret tt
  | _ =>
      if py_eq mid (PyInt (-1)) then ret tt
      else
        let name := strip (before_char 40%N (currentText (mountain_combo w))) in
        set_title_label (PyStr name) ;;
        load_mountain mid
  end.

(** [setCurrentIndex(i)]: an index out of range selects nothing; the slot
    runs when the index changes and the signals are not blocked. *)
Definition setCurrentIndex (i : Z) : M unit :=
  w <- get_world ;;
  let c := mountain_combo w in
  let i' := if (0 <=? i) && (i <? Z.of_nat (List.length (combo_items c))) then i else -1 in
  if i' =? currentIndex c then ret tt
  else
    modify_combo (fun c => {| combo_items := combo_items c; currentIndex := i';
                              signalsBlocked := signalsBlocked c |}) ;;
    if signalsBlocked c then ret tt else on_combo_change.

Definition _on_combo_loaded (reply : QNetworkReply) : M unit :=
  match error reply with
  | Some _ => ret tt
  | None =>
      let data := parse_reply_json reply in
      let items := match data with PyList l => l | _ => [] end in
      modify_combo (blockSignals true) ;;
      modify_combo combo_clear ;;
      modify_combo (combo_addItem (lit "Select mountain") (PyInt (-1))) ;;
      for_each items (fun m =>
        name <- lift (get m "name") ;;
        country <- lift (get m "country") ;;
        mid <- lift (get m "id") ;;
        lift (if qt_variant py mid then Some tt else None) ;;
        modify_combo (combo_addItem (fmt name ++ lit " (" ++ fmt country ++ lit ")") mid)) ;;
      modify_combo (blockSignals false) ;;
      match items with
      | [] => ret tt
      | first :: _ =>
          setCurrentIndex 1 ;;
          name <- lift (get first "name") ;;
          title <- lift (qstring (py_or name (PyStr em_dash))) ;;
          set_title_label (PyStr title) ;;
          mid <- lift (get first "id") ;;
          if truthy mid then load_mountain mid else ret tt
      end
  end.

(** *** [class GroupDialog]: the dialog itself *)

(** The labels of an open [GroupDialog] and the record it keeps. *)
Record GroupDialogW : Type := {
  dialog_group : value;
  dialog_title : value;
  dialog_meta : pystr;
  dialog_desc : value
}.

(** [GroupDialog(parent, group, nm)]: [__init__] and [setup_ui]; [None] when
    it raises: on a record that is not a dict, on a title that is not a
    string, and on a description [setPlainText] refuses. *)
Definition GroupDialog (group : value) : option GroupDialogW :=
  let self_group := py_or group (PyDict []) in
  match self_group with
  | PyDict d =>
      match qstring (py_or (py_or (dict_get d "group_name") (dict_get d "name"))
                           (PyStr (lit "Group"))),
            qstring (dict_get_or d "description" (PyStr [])) with
      | Some title, Some text =>
          Some {| dialog_group := self_group;
                  dialog_title := PyStr title;
                  dialog_meta := lit "Leader: "
                                 ++ fmt (dict_get_or d "leader_name" (PyStr em_dash))
                                 ++ lit "  " ++ bullet ++ lit "  Start: "
                                 ++ fmt (dict_get_or d "ascent_start_date" (PyStr em_dash));
                  dialog_desc := PyStr text |}
      | _, _ => None
      end
  | _ => None
  end.

(** [MountainsPage.on_group_click]: the dialog opened on the clicked item. *)
Definition on_group_click (item : GroupItem) : option GroupDialogW :=
  GroupDialog (item_data item).

(** *** The date-range filters

    The two dates the user leaves in the dialog arrive as [yyyy-MM-dd]
    strings. *)

Definition ClimbersPage_by_range (dlg : DialogCode (pystr * pystr)) : M unit :=
  match dlg with
  | Accepted (ss, ee) =>
      api_get (lit "/climbers/by-date-range?start=" ++ ss ++ lit "&end=" ++ ee)
              Cb_climbers_fetched
  | Rejected => ret tt
  end.

Definition AscentsPage_filter (dlg : DialogCode (pystr * pystr)) : M unit :=
  match dlg with
  | Accepted (ss, ee) =>
      api_get (lit "/ascents/by-date-range?start=" ++ ss ++ lit "&end=" ++ ee)
              Cb_ascents_fetched
  | Rejected => ret tt
  end.

(** *** Delivery of a finished reply to its callback *)

Definition handle (cb : callback) (reply : QNetworkReply) (ui : UserInput) : M unit :=
  match cb with
  | Cb_mountain_detail => _on_mountain_detail reply
  | Cb_groups => _on_groups reply
  | Cb_refresh_fetched => _on_refresh_fetched reply
  | Cb_added => _on_added reply
  | Cb_check_groups_before_edit => _on_check_groups_before_edit reply ui
  | Cb_updated => _on_updated reply
  | Cb_members_fetched => _on_members_fetched reply
  | Cb_climbers_fetched => ClimbersPage_on_fetched reply
  | Cb_groups_fetched => GroupsPage_on_fetched reply
  | Cb_prep_add => _prep_add reply ui
  | Cb_group_created => _on_group_created reply
  | Cb_ascents_fetched => AscentsPage_on_fetched reply
  | Cb_stats_fetched => StatsPage_on_fetched reply
  | Cb_combo_loaded => _on_combo_loaded reply
  end.

End Program.

(** The callbacks that complete a [GET]: the fetches of the program.  The
    other three complete the [POST] and [PUT] requests. *)
Definition is_fetch (cb : callback) : bool :=
  match cb with
  | Cb_added | Cb_updated | Cb_group_created => false
  | _ => true
  end.

(** ** The navigation shell of [MainWindow] *)

Definition SIDEBAR_EXPANDED_WIDTH : Z := 220.
Definition SIDEBAR_COLLAPSED_WIDTH : Z := 64.

(** The two signs of the toggle button. *)
Definition left_angle : pystr := [10216%N].    (* '⟨' *)
Definition right_angle : pystr := [10217%N].   (* '⟩' *)

(** An [IconButton] of the sidebar: whether its text label is visible, and
    its style sheet. *)
Record IconButton : Type := {
  text_label_visible : bool;
  styleSheet : pystr
}.

(** [IconButton.set_collapsed] *)
Definition set_collapsed (collapsed : bool) (b : IconButton) : IconButton :=
  {| text_label_visible := negb collapsed; styleSheet := styleSheet b |}.

Definition setStyleSheet (style : pystr) (b : IconButton) : IconButton :=
  {| text_label_visible := text_label_visible b; styleSheet := style |}.

(** The pages of the stack, in the order [setup_ui] adds them. *)
Inductive page : Type :=
| page_mountains_w
| page_climbers_w
| page_groups_w
| page_ascents_w
| page_stats_w.

(** The part of [MainWindow] that is not a page: the sidebar flag, the sign
    on the toggle button, the nav buttons in insertion order, the start and
    end value of the last width animation, and the index the stack shows. *)
Record Shell : Type := {
  sidebar_expanded : bool;
  toggle_btn : pystr;
  nav_buttons : list (pystr * IconButton);
  _sidebar_anim : option (Z * Z);
  stack_index : Z
}.

Definition toggle_sidebar (sh : Shell) : Shell :=
  let start := if sidebar_expanded sh then SIDEBAR_EXPANDED_WIDTH
               else SIDEBAR_COLLAPSED_WIDTH in
  let end_ := if sidebar_expanded sh then SIDEBAR_COLLAPSED_WIDTH
              else SIDEBAR_EXPANDED_WIDTH in
  {| sidebar_expanded := negb (sidebar_expanded sh);
     toggle_btn := if sidebar_expanded sh then right_angle else left_angle;
     nav_buttons := map (fun kb => (fst kb, set_collapsed (sidebar_expanded sh) (snd kb)))
                        (nav_buttons sh);
     _sidebar_anim := Some (start, end_);
     stack_index := stack_index sh |}.

(** [mapping.get(key, 0)] *)
Definition mapping : list (pystr * Z) :=
  [(lit "mountains", 0); (lit "climbers", 1); (lit "groups", 2); (lit "ascents", 3);
   (lit "stats", 4)].

Fixpoint mapping_get (key : pystr) (m : list (pystr * Z)) (dflt : Z) : Z :=
  match m with
  | [] => dflt
  | (k, i) :: m' => if str_eqb key k then i else mapping_get key m' dflt
  end.

(** [stack.currentWidget()] for the indices of [mapping]. *)
Definition currentWidget (idx : Z) : page :=
  if idx =? 1 then page_climbers_w
  else if idx =? 2 then page_groups_w
  else if idx =? 3 then page_ascents_w
  else if idx =? 4 then page_stats_w
  else page_mountains_w.

(** [page.refresh] where the page class defines it ([hasattr(page, 'refresh')]):
    [MountainsPage] and [AscentsPage] do not. *)
Definition page_refresh (p : page) : option (M unit) :=
  match p with
  | page_climbers_w => Some ClimbersPage_refresh
  | page_groups_w => Some GroupsPage_refresh
  | page_stats_w => Some StatsPage_refresh
  | page_mountains_w | page_ascents_w => None
  end.

Definition active_style : pystr := lit "background: rgba(255,255,255,0.05);".
Definition idle_style : pystr := lit "background: transparent;".

(** [MainWindow.switch]: the shell afterwards and what the refresh of the
    shown page does (no [refresh] raises, so the [except] is never taken). *)
Definition switch (key : pystr) (sh : Shell) : Shell * M unit :=
  let idx := mapping_get key mapping 0 in
  ({| sidebar_expanded := sidebar_expanded sh;
      toggle_btn := toggle_btn sh;
      nav_buttons := map (fun kb =>
                            (fst kb,
                             setStyleSheet (if str_eqb (fst kb) key then active_style
                                            else idle_style) (snd kb)))
                         (nav_buttons sh);
      _sidebar_anim := _sidebar_anim sh;
      stack_index := idx |},
   match page_refresh (currentWidget idx) with
   | Some refresh => refresh
   | None => ret tt
   end).

(** The shell as [setup_ui] has built it before its last two lines. *)
Definition built_shell : Shell :=
  {| sidebar_expanded := true;
     toggle_btn := left_angle;
     nav_buttons := map (fun k => (lit k, {| text_label_visible := true; styleSheet := [] |}))
                        ["mountains"; "climbers"; "groups"; "ascents"; "stats"]%string;
     _sidebar_anim := None;
     stack_index := 0 |}.

(** The last two lines of [MainWindow.setup_ui]:
    [self.switch('mountains'); self.load_mountain_combo()]. *)
Definition setup_ui_default : Shell * M unit :=
  let '(sh, refresh) := switch (lit "mountains") built_shell in
  (sh, bind refresh (fun _ => load_mountain_combo)).

(** * Vocabulary of the properties *)

(** The detail half of the Mountains page: the selected record, the four
    labels and the description box. *)
Definition detail_half (p : MountainsPage)
  : value * pystr * pystr * pystr * pystr * value :=
  (current_mountain p, name_lbl p, height_lbl p, country_lbl p, region_lbl p, desc p).

(** The body of a reply fails to decode or to parse. *)
Definition malformed (py : Runtime) (reply : QNetworkReply) : Prop :=
  utf8_decode py (readAll reply) = None
  \/ exists text, utf8_decode py (readAll reply) = Some text /\ json_loads py text = None.

Definition is_put (e : event) : bool :=
  match e with Request PUT _ _ _ => true | _ => false end.

Definition is_post (e : event) : bool :=
  match e with Request POST _ _ _ => true | _ => false end.

Definition is_warning (e : event) : bool :=
  match e with Warning _ _ => true | _ => false end.

(** Everything in the world but the group list of the Mountains page. *)
Definition outside_groups_list (w : World) :=
  (detail_half (page_mountains w), climbers_list w, groups_page_list w, ascents_list w,
   stats_text w, mountain_combo w, title_label w, in_main_window w).

(** Everything in the world but the detail half of the Mountains page. *)
Definition outside_detail (w : World) :=
  (groups_list (page_mountains w), climbers_list w, groups_page_list w, ascents_list w,
   stats_text w, mountain_combo w, title_label w, in_main_window w).

(** The two requests of [load_mountain]: the detail, then the groups. *)
Definition mountain_requests (py : Runtime) (mountain_id : value) : list event :=
  [Request GET (qurl (API_PREFIX ++ lit "/mountains/" ++ fmt py mountain_id))
           None Cb_mountain_detail;
   Request GET (qurl (API_PREFIX ++ lit "/mountains/" ++ fmt py mountain_id ++ lit "/groups"))
           None Cb_groups].

(** What a page shows when it has nothing to show, per fetch. *)
Definition empty_view (cb : callback) (w : World) : Prop :=
  match cb with
  | Cb_groups => groups_list (page_mountains w) = []
  | Cb_refresh_fetched => page_mountains w = blank_page
  | Cb_climbers_fetched => climbers_list w = []
  | Cb_groups_fetched => groups_page_list w = []
  | Cb_ascents_fetched => ascents_list w = []
  | Cb_stats_fetched => stats_text w = lit "No stats"
  | Cb_combo_loaded =>
      combo_items (mountain_combo w) = [(lit "Select mountain", PyInt (-1))]
  | _ => True
  end.

(** *** The display name as the specification words it *)

(** A name part read as a string: absent and null count as empty. *)
Definition str_or_empty (v : value) : pystr :=
  match v with
  | PyStr s => s
  | _ => []
  end.

Definition name_part (d : list (pystr * value)) (k : string) : pystr :=
  str_or_empty (dict_get d k).

Definition nonempty (s : pystr) : bool :=
  match s with [] => false | _ => true end.

(** The non-empty name parts: first, middle, last. *)
Definition name_parts (d : list (pystr * value)) : list pystr :=
  filter nonempty [name_part d "first_name"; name_part d "middle_name";
                   name_part d "last_name"].

(** The space-joined non-empty parts; the email when there is none; the
    string "Unknown" when the email is empty or absent too. *)
Definition display_name_spec (d : list (pystr * value)) : value :=
  match name_parts d with
  | [] => py_or (dict_get d "email") (PyStr (lit "Unknown"))
  | ps => PyStr (join (lit " ") ps)
  end.

(** A name field the function can join: a string, or a falsy value. *)
Definition joinable (v : value) : Prop :=
  (exists s, v = PyStr s) \/ truthy v = false.

(** *** Group records and their start dates *)

(** A group record: a dict whose [ascent_start_date] is a string, null or
    absent. *)
Definition group_record (g : value) : Prop :=
  exists d, g = PyDict d
            /\ (dict_get d "ascent_start_date" = PyNone
                \/ exists s, dict_get d "ascent_start_date" = PyStr s).

(** The start date of a record as a string, the empty string when the field
    is absent or null. *)
Definition start_date_key (g : value) : pystr :=
  match g with
  | PyDict d => str_or_empty (dict_get d "ascent_start_date")
  | _ => []
  end.

(** [a] does not start later than [b]. *)
Definition date_le (a b : value) : Prop := str_le (start_date_key a) (start_date_key b).

(** The records shown in the group list, top to bottom. *)
Definition rendered_groups (w : World) : list value :=
  map item_data (groups_list (page_mountains w)).

(** A pair of the decorated list carries the start date of its record. *)
Definition keyed (kx : value * value) : Prop :=
  fst kx = PyStr (start_date_key (snd kx)).

(** *** Loops read as maps *)

(** The results of [f] up to its first failure. *)
Fixpoint prefix_map {A B} (f : A -> option B) (l : list A) : list B :=
  match l with
  | [] => []
  | x :: rest =>
      match f x with
      | Some y => y :: prefix_map f rest
      | None => []
      end
  end.

(** [f] fails nowhere on [l]. *)
Definition all_some {A B} (f : A -> option B) (l : list A) : bool :=
  forallb (fun x => match f x with Some _ => true | None => false end) l.

(** The status of a loop that raises at the first failure of [f]. *)
Definition loop_status {A B} (f : A -> option B) (l : list A) : result unit :=
  if all_some f l then Returned tt else Raised.

(** The item [_on_groups] adds for one record; [None] when the turn raises. *)
Definition render_item (py : Runtime) (g : value) : option GroupItem :=
  match g with
  | PyDict d =>
      match GroupCard py (PyDict
              [(lit "group_name",
                py_or (py_or (dict_get d "group_name") (dict_get d "name"))
                      (PyStr (lit "Group")));
               (lit "leader_name", py_or (dict_get d "leader_name") (PyStr em_dash));
               (lit "ascent_start_date",
                py_or (dict_get d "ascent_start_date") (PyStr em_dash));
               (lit "description", dict_get_or d "description" (PyStr []))]) with
      | Some widget =>
          if qt_variant py g then Some {| item_data := g; item_widget := widget |}
          else None
      | None => None
      end
  | _ => None
  end.

(** The group list replaced by [l]. *)
Definition set_groups_list (l : list GroupItem) (p : MountainsPage) : MountainsPage :=
  {| current_mountain := current_mountain p;
     name_lbl := name_lbl p; height_lbl := height_lbl p;
     country_lbl := country_lbl p; region_lbl := region_lbl p;
     desc := desc p;
     groups_list := l |}.

(** The order in which [_on_groups] walks a list payload. *)
Definition data_sorted (l : list value) : list value :=
  match sorted_by_start_date l with
  | Some r => r
  | None => l
  end.

(** The row of the Climbers list for one record; [None] when the turn raises. *)
Definition climber_row (py : Runtime) (c : value) : option pystr :=
  match human_name_from_climber c, c with
  | Some name, PyDict d =>
      Some (fmt py name ++ lit " " ++ em_dash ++ lit " "
            ++ fmt py (dict_get_or d "email" (PyStr [])))
  | _, _ => None
  end.

(** The row of the Groups list for one record. *)
Definition group_row (py : Runtime) (g : value) : option pystr :=
  match g with
  | PyDict d =>
      Some (fmt py (dict_get d "name") ++ lit " " ++ em_dash ++ lit " leader:"
            ++ fmt py (dict_get d "leader_id"))
  | _ => None
  end.

(** The row of the Ascents list for one record. *)
Definition ascent_row (py : Runtime) (a : value) : option pystr :=
  match name_or_nested a "mountain_name" "mountain",
        name_or_nested a "group_name" "group", a with
  | Some mountain, Some group, PyDict d =>
      Some (fmt py mountain ++ lit " " ++ em_dash ++ lit " " ++ fmt py group
            ++ lit " " ++ em_dash ++ lit " " ++ fmt py (dict_get d "start_date")
            ++ lit " -> " ++ fmt py (dict_get d "end_date") ++ lit " " ++ em_dash
            ++ lit " " ++ fmt py (dict_get d "status"))
  | _, _, _ => None
  end.

(** [current_mountain] holds [None] or a dict. *)
Definition none_or_dict (v : value) : bool :=
  match v with
  | PyNone | PyDict _ => true
  | _ => false
  end.

(** A request to the API: its URL is the base URL, the prefix, an endpoint. *)
Definition api_request (e : event) : Prop :=
  match e with
  | Request _ url _ _ => exists endpoint, url = BASE_URL ++ API_PREFIX ++ endpoint
  | _ => True
  end.

Definition is_request (e : event) : bool :=
  match e with Request _ _ _ _ => true | _ => false end.

(** The title [_on_groups] gives a record: [group_name], else [name], else
    the word "Group". *)
Definition group_title (d : list (pystr * value)) : value :=
  py_or (py_or (dict_get d "group_name") (dict_get d "name")) (PyStr (lit "Group")).

(** A record [_on_groups] can show: a dict whose title is a string, whose
    description is a string or falsy (absent and null included), and which
    the binding can store as the data of its item. *)
Definition displayable (py : Runtime) (g : value) : Prop :=
  exists d, g = PyDict d
            /\ (exists t, group_title d = PyStr t)
            /\ (truthy (dict_get d "description") = false
                \/ exists s, dict_get d "description" = PyStr s)
            /\ qt_variant py g = true.

(** What every card in the group list satisfies: its record is a dict, its
    title is not empty, its description holds at most 180 characters (or
    elements). *)
Definition card_ok (it : GroupItem) : Prop :=
  isinstance_dict (item_data it) = true
  /\ truthy (card_title (item_widget it)) = true
  /\ match card_desc (item_widget it) with
     | PyStr s => (List.length s <= 180)%nat
     | PyList l => (List.length l <= 180)%nat
     | _ => False
     end.

(** The record starts on [s] (the empty string for no date). *)
Definition starts_on (s : pystr) (g : value) : bool := str_eqb (start_date_key g) s.

(** The mountain selector and the title replaced. *)
Definition set_combo (c : QComboBox) (t : value) (w : World) : World :=
  {| page_mountains := page_mountains w;
     climbers_list := climbers_list w;
     groups_page_list := groups_page_list w;
     ascents_list := ascents_list w;
     stats_text := stats_text w;
     mountain_combo := c;
     title_label := t;
     in_main_window := in_main_window w |}.

(** The selector after [_on_combo_loaded] has put the sentinel and [entries]
    into it. *)
Definition filled_combo (entries : list (pystr * value)) (index : Z) (blocked : bool)
  : QComboBox :=
  {| combo_items := (lit "Select mountain", PyInt (-1)) :: entries;
     currentIndex := index;
     signalsBlocked := blocked |}.

(** The world with the widgets a callback writes wiped: what is left is what
    the callback must leave alone.  The detail callback writes the detail
    half of the Mountains page, the groups callback its group list, the
    standalone refresh the whole page, each list page its list, the stats
    page its text box, the selector's callback the selector and the title;
    the other callbacks write nothing. *)
Definition outside_view (cb : callback) (w : World) : World :=
  match cb with
  | Cb_mountain_detail =>
      with_page (fun p => {| current_mountain := PyNone;
                             name_lbl := []; height_lbl := []; country_lbl := [];
                             region_lbl := []; desc := PyNone;
                             groups_list := groups_list p |}) w
  | Cb_groups => with_page (set_groups_list []) w
  | Cb_refresh_fetched => with_page (fun _ => blank_page) w
  | Cb_climbers_fetched => world (set_climbers_list [] w)
  | Cb_groups_fetched => world (set_groups_page_list [] w)
  | Cb_ascents_fetched => world (set_ascents_list [] w)
  | Cb_stats_fetched => world (set_stats_text [] w)
  | Cb_combo_loaded => set_combo (filled_combo [] 0 false) PyNone w
  | _ => w
  end.

(** The callbacks that fill a list widget. *)
Definition fills_a_list (cb : callback) : bool :=
  match cb with
  | Cb_groups | Cb_climbers_fetched | Cb_groups_fetched | Cb_ascents_fetched => true
  | _ => false
  end.

(** What delivering a reply to a callback does to the widgets, written
    without loops, events or user input. *)
Definition update (py : Runtime) (cb : callback) (reply : QNetworkReply) (w : World) : World :=
  match error reply with
  | Some _ => w
  | None =>
      let data := parse_reply_json py reply in
      let items := match data with PyList l => l | _ => [] end in
      match cb with
      | Cb_mountain_detail =>
          match data with
          | PyDict d => with_page (show_detail py d) w
          | _ => w
          end
      | Cb_groups =>
          with_page (set_groups_list (prefix_map (render_item py) (data_sorted items))) w
      | Cb_refresh_fetched =>
          match items with
          | [] => with_page (fun _ => blank_page) w
          | _ :: _ => w
          end
      | Cb_climbers_fetched =>
          world (set_climbers_list (prefix_map (climber_row py) items) w)
      | Cb_groups_fetched =>
          world (set_groups_page_list (prefix_map (group_row py) items) w)
      | Cb_ascents_fetched =>
          world (set_ascents_list (prefix_map (ascent_row py) items) w)
      | Cb_stats_fetched =>
          match data with
          | PyList l =>
              match traverse (stats_line py) l with
              | Some lines => world (set_stats_text (join [10%N] lines) w)
              | None => w
              end
          | _ => world (set_stats_text (lit "No stats") w)
          end
      | Cb_combo_loaded =>
          let entries := prefix_map (combo_entry py) items in
          if all_some (combo_entry py) items then
            match items with
            | PyDict d :: _ =>
                let selected := set_combo (filled_combo entries 1 false) (title_label w) w in
                match qstring (py_or (dict_get d "name") (PyStr em_dash)) with
                | Some title => set_combo (filled_combo entries 1 false) (PyStr title) w
                | None => world (on_combo_change py selected)
                end
            | _ => set_combo (filled_combo entries 0 false) (title_label w) w
            end
          else set_combo (filled_combo entries 0 true) (title_label w) w
      | _ => w
      end
  end.


(** The edit form can be filled from the record [m]: its text fields are
    strings or null ([name] and the others are what the line edits then
    show), and the binding takes its height, 0 when that is absent or
    falsy, for the int [height]. *)
Definition edit_fields (py : Runtime) (m : list (pystr * value))
  (name : pystr) (height : Z) (country region description : pystr) : Prop :=
  qstring (dict_get_or m "name" (PyStr [])) = Some name
  /\ qt_int py (py_or (dict_get m "height") (PyInt 0)) = Some height
  /\ qstring (dict_get_or m "country" (PyStr [])) = Some country
  /\ qstring (dict_get_or m "region" (PyStr [])) = Some region
  /\ qstring (dict_get_or m "description" (PyStr [])) = Some description.

(** The payload of the group form for the mountain data [mid]. *)
Definition group_payload (f : GroupForm) (mid : value) : value :=
  PyDict [(lit "name", PyStr (gform_name f));
          (lit "description", PyStr (gform_description f));
          (lit "leader_id", PyInt (gform_leader f));
          (lit "mountain_id", mid);
          (lit "start_date", PyStr (gform_start f))].

(** The labels of the nav buttons follow the sidebar flag, and so does the
    sign on the toggle button. *)
Definition shell_consistent (sh : Shell) : Prop :=
  Forall (fun kb => text_label_visible (snd kb) = sidebar_expanded sh) (nav_buttons sh)
  /\ toggle_btn sh = if sidebar_expanded sh then left_angle else right_angle.

(** The width the sidebar has when the flag is [expanded]. *)
Definition sidebar_width (expanded : bool) : Z :=
  if expanded then SIDEBAR_EXPANDED_WIDTH else SIDEBAR_COLLAPSED_WIDTH.

(** The string has no ['(']. *)
Definition no_paren (s : pystr) : bool := forallb (fun c => negb (N.eqb c 40)) s.

(** How many rows the list of a callback shows. *)
Definition rows_shown (cb : callback) (w : World) : nat :=
  match cb with
  | Cb_groups => List.length (groups_list (page_mountains w))
  | Cb_climbers_fetched => List.length (climbers_list w)
  | Cb_groups_fetched => List.length (groups_page_list w)
  | Cb_ascents_fetched => List.length (ascents_list w)
  | _ => 0
  end.

(** Whether the slot of the selector acts on the data of the chosen entry. *)
Definition slot_acts (mid : value) : bool :=
  match mid with
  | PyNone => false
  | _ => negb (py_eq mid (PyInt (-1)))
  end.

(** What the slot and the rest of the handler request for the first id. *)
Definition first_load_requests (py : Runtime) (mid : value) : list event :=
  (if slot_acts mid && truthy mid then mountain_requests py mid else [])
  ++ (if truthy mid then mountain_requests py mid else []).

(** * Concrete runs

    The examples below run the handlers on concrete replies.  They use a
    runtime that decodes UTF-8 for real and knows [json.loads] on the few
    documents the examples send; every other text counts as malformed. *)

(** Strict UTF-8 decoding (no overlong forms, no surrogates, at most
    U+10FFFF), as [bytes.decode('utf-8')] does. *)
Definition continuation (b : N) : bool := ((128 <=? b) && (b <=? 191))%N.

Fixpoint utf8_strict (raw : list N) : option pystr :=
  match raw with
  | [] => Some []
  | b0 :: r0 =>
      if (b0 <? 128)%N then option_map (cons b0) (utf8_strict r0)
      else if ((194 <=? b0) && (b0 <=? 223))%N then
        match r0 with
        | b1 :: r1 =>
            if continuation b1
            then option_map (cons ((b0 - 192) * 64 + (b1 - 128))%N) (utf8_strict r1)
            else None
        | _ => None
        end
      else if ((224 <=? b0) && (b0 <=? 239))%N then
        match r0 with
        | b1 :: b2 :: r2 =>
            if continuation b1 && continuation b2
               && (negb (b0 =? 224) || (160 <=? b1))%N
               && (negb (b0 =? 237) || (b1 <=? 159))%N
            then option_map
                   (cons ((b0 - 224) * 4096 + (b1 - 128) * 64 + (b2 - 128))%N)
                   (utf8_strict r2)
            else None
        | _ => None
        end
      else if ((240 <=? b0) && (b0 <=? 244))%N then
        match r0 with
        | b1 :: b2 :: b3 :: r3 =>
            if continuation b1 && continuation b2 && continuation b3
               && (negb (b0 =? 240) || (144 <=? b1))%N
               && (negb (b0 =? 244) || (b1 <=? 143))%N
            then option_map
                   (cons ((b0 - 240) * 262144 + (b1 - 128) * 4096
                          + (b2 - 128) * 64 + (b3 - 128))%N)
                   (utf8_strict r3)
            else None
        | _ => None
        end
      else None
  end.

(** A body written with ['] where JSON has the double quote. *)
Definition body (s : string) : list byte :=
  map (fun b => if Byte.eqb b x27 then x22 else b) (list_byte_of_string s).

(** The bodies the examples send. *)
Definition one_mountain : string := "[{'id': 1, 'name': 'Everest', 'country': 'Nepal'}]".

Definition two_groups : string :=
  "[{'name': 'B', 'ascent_start_date': '2024-05-01'}, {'name': 'A'}]".

(** [json.loads] on the documents of the examples. *)
Definition doc (text : string) (v : value) : string * value := (text, v).

Definition documents : list (string * value) :=
  [ doc "[]" (PyList []);
    doc "null" PyNone;
    doc "[{'id': 3, 'name': 'Elbrus'}]"
      (PyList [PyDict [(lit "id", PyInt 3); (lit "name", PyStr (lit "Elbrus"))]]);
    doc "[{'name': 'Everest'}]"
      (PyList [PyDict [(lit "name", PyStr (lit "Everest"))]]);
    doc one_mountain
      (PyList [PyDict [(lit "id", PyInt 1); (lit "name", PyStr (lit "Everest"));
                       (lit "country", PyStr (lit "Nepal"))]]);
    doc two_groups
      (PyList [PyDict [(lit "name", PyStr (lit "B"));
                       (lit "ascent_start_date", PyStr (lit "2024-05-01"))];
               PyDict [(lit "name", PyStr (lit "A"))]]) ].

Definition demo_loads (text : pystr) : option value :=
  option_map snd
    (find (fun doc => str_eqb text (map Byte.to_N (body (fst doc)))) documents).

(** The binding of the examples takes an [int] of 32 bits (a [bool] as 0 or
    1) for a C++ [int], and stores every object whose integers have 64
    bits. *)
Definition demo_int (v : value) : option Z :=
  match v with
  | PyInt z => if (- 2 ^ 31 <=? z) && (z <? 2 ^ 31) then Some z else None
  | PyBool b => Some (if b then 1 else 0)
  | _ => None
  end.

Fixpoint demo_variant (v : value) : bool :=
  match v with
  | PyInt z => (- 2 ^ 63 <=? z) && (z <? 2 ^ 63)
  | PyList l => forallb demo_variant l
  | PyDict d => forallb (fun kv => demo_variant (snd kv)) d
  | _ => true
  end.

(** No example formats a float, a list or a dict. *)
Definition demo : Runtime :=
  {| utf8_decode := fun raw => utf8_strict (map Byte.to_N raw);
     json_loads := demo_loads;
     py_repr := fun _ => [];
     qt_int := demo_int;
     qt_variant := demo_variant |}.

Definition ok (s : string) : QNetworkReply := {| error := None; readAll := body s |}.

Definition failed (msg : string) : QNetworkReply :=
  {| error := Some (lit msg); readAll := [] |}.

Definition no_input : UserInput := {| mountain_form := Rejected; group_form := Rejected |}.

(** The window right after [setup_ui], before any reply arrived. *)
Definition fresh_world (hosted : bool) : World :=
  {| page_mountains := blank_page;
     climbers_list := []; groups_page_list := []; ascents_list := [];
     stats_text := [];
     mountain_combo := {| combo_items := []; currentIndex := -1; signalsBlocked := false |};
     title_label := PyStr em_dash;
     in_main_window := hosted |}.

(** A page showing Everest with one rendered group. *)
Definition everest : list (pystr * value) :=
  [(lit "id", PyInt 1); (lit "name", PyStr (lit "Everest")); (lit "height", PyInt 8849)].

Definition everest_world : World :=
  with_page (fun p => groups_list_addItem
                        {| item_data := PyDict [(lit "name", PyStr (lit "Spring team"))];
                           item_widget := {| card_title := PyStr (lit "Spring team");
                                             card_meta := []; card_desc := PyStr [] |} |}
                        (show_detail demo everest p))
            (fresh_world false).

(** A climber whose first name starts with a space. *)
Definition ann : list (pystr * value) :=
  [(lit "first_name", PyStr (lit " Ann")); (lit "last_name", PyStr (lit "Lee"));
   (lit "email", PyStr (lit "ann@example.org"))].

(** A body cut off in the middle of a document. *)
Definition truncated : QNetworkReply := ok "[{'id': 3,".

(** The group form accepted with the selector left on its first entry. *)
Definition unselected : UserInput :=
  {| mountain_form := Rejected;
     group_form := Accepted {| gform_name := lit "Spring team"; gform_description := [];
                               gform_leader := 4; gform_mountain := 0;
                               gform_start := lit "2024-05-01" |} |}.

(** The mountain form accepted with a new height. *)
Definition new_height : UserInput :=
  {| mountain_form := Accepted {| form_name := lit "Everest"; form_height := 8848;
                                  form_country := lit "Nepal"; form_region := [];
                                  form_description := [] |};
     group_form := Rejected |}.

(** A main window whose selector lists one mountain, with id 0. *)
Definition zero_id_world : World :=
  {| page_mountains := blank_page;
     climbers_list := []; groups_page_list := []; ascents_list := [];
     stats_text := [];
     mountain_combo := {| combo_items := [(lit "Select mountain", PyInt (-1));
                                          (lit "Base camp (Nepal)", PyInt 0)];
                          currentIndex := 0; signalsBlocked := false |};
     title_label := PyStr em_dash;
     in_main_window := true |}.

(** Further bodies: a mountain list holding a number after its first record,
    and the members of a group, bare and wrapped in a dict. *)
Definition mountain_then_number : string :=
  "[{'id': 1, 'name': 'Everest', 'country': 'Nepal'}, 7]".

Definition members_bare : string := "[{'email': 'ann@example.org'}]".

Definition members_wrapped : string := "{'members': [{'email': 'ann@example.org'}]}".

(** Mountain lists whose only record has an id of more than 64 bits, and a
    number as its name. *)
Definition huge_id : string := "[{'id': 1180591620717411303424, 'name': 'Everest'}]".

Definition number_as_name : string := "[{'id': 1, 'name': 7}]".

Definition more_documents : list (string * value) :=
  [ doc mountain_then_number
      (PyList [PyDict [(lit "id", PyInt 1); (lit "name", PyStr (lit "Everest"));
                       (lit "country", PyStr (lit "Nepal"))];
               PyInt 7]);
    doc members_bare
      (PyList [PyDict [(lit "email", PyStr (lit "ann@example.org"))]]);
    doc members_wrapped
      (PyDict [(lit "members",
                PyList [PyDict [(lit "email", PyStr (lit "ann@example.org"))]])]);
    doc huge_id
      (PyList [PyDict [(lit "id", PyInt (2 ^ 70)); (lit "name", PyStr (lit "Everest"))]]);
    doc number_as_name
      (PyList [PyDict [(lit "id", PyInt 1); (lit "name", PyInt 7)]]) ].

(** The runtime of the examples, knowing these documents too. *)
Definition demo_more : Runtime :=
  {| utf8_decode := utf8_decode demo;
     json_loads := fun text =>
       option_map snd
         (find (fun doc => str_eqb text (map Byte.to_N (body (fst doc))))
               (documents ++ more_documents));
     py_repr := py_repr demo;
     qt_int := qt_int demo;
     qt_variant := qt_variant demo |}.

(** The two records of [two_groups]. *)
Definition group_b : value :=
  PyDict [(lit "name", PyStr (lit "B")); (lit "ascent_start_date", PyStr (lit "2024-05-01"))].

Definition group_a : value := PyDict [(lit "name", PyStr (lit "A"))].

(** The record of [one_mountain]. *)
Definition everest_record : list (pystr * value) :=
  [(lit "id", PyInt 1); (lit "name", PyStr (lit "Everest"));
   (lit "country", PyStr (lit "Nepal"))].

(** The group form accepted with the first mountain selected. *)
Definition first_selected : GroupForm :=
  {| gform_name := lit "Spring team"; gform_description := [];
     gform_leader := 4; gform_mountain := 1;
     gform_start := lit "2024-05-01" |}.

Definition selected : UserInput :=
  {| mountain_form := Rejected; group_form := Accepted first_selected |}.

(** A main window whose selector stands on the entry of a mountain with
    id 0. *)
Definition base_camp : list (pystr * value) :=
  [(lit "id", PyInt 0); (lit "name", PyStr (lit "Base camp"));
   (lit "country", PyStr (lit "Nepal"))].

Definition base_camp_world : World :=
  set_combo {| combo_items := combo_items (mountain_combo zero_id_world);
               currentIndex := 1; signalsBlocked := false |}
            (title_label zero_id_world) zero_id_world.

(** An undated record after the two of [two_groups]. *)
Definition group_c : value := PyDict [(lit "name", PyStr (lit "C"))].

(** The item the group list shows for [group_a]. *)
Definition listed_group_a : GroupItem :=
  {| item_data := group_a;
     item_widget := {| card_title := PyStr (lit "A");
                       card_meta := lit "Leader: " ++ em_dash ++ lit "  " ++ bullet
                                    ++ lit "  Start: " ++ em_dash;
                       card_desc := PyStr [] |} |}.

(** The climber of [members_bare]. *)
Definition ann_by_email : value := PyDict [(lit "email", PyStr (lit "ann@example.org"))].

(** * Properties *)

(** ** The embedding on small inputs *)

Example str_of_int_neg : str_of_int (-42) = lit "-42".
Proof. reflexivity. Qed.

Example strip_both_ends : strip (lit "  a b ") = lit "a b".
Proof. reflexivity. Qed.

Example bool_is_number : py_eq (PyBool true) (PyInt 1) = true.
Proof. reflexivity. Qed.

Example int_equals_float : py_eq (PyInt 1) (PyFloat 1%float) = true.
Proof. reflexivity. Qed.

Example int_float_comparison_is_exact :
  py_eq (PyInt 9007199254740993) (PyFloat 9007199254740992%float) = false
  /\ py_lt (PyFloat 9007199254740992%float) (PyInt 9007199254740993) = Some true.
Proof. split; reflexivity. Qed.

Example negative_zero_is_falsy : truthy (PyFloat (-0)%float) = false.
Proof. reflexivity. Qed.

Example utf8_em_dash : utf8_strict [226; 128; 148]%N = Some em_dash.
Proof. reflexivity. Qed.

Example utf8_rejects_lone_ff : utf8_strict [255%N] = None.
Proof. reflexivity. Qed.

Example utf8_rejects_surrogates_and_overlong_forms :
  utf8_strict [237; 160; 128]%N = None /\ utf8_strict [192; 128]%N = None
  /\ utf8_strict [224; 128; 128]%N = None /\ utf8_strict [240; 143; 191; 191]%N = None
  /\ utf8_strict [244; 144; 128; 128]%N = None.
Proof. repeat split. Qed.

Example utf8_largest_code_point : utf8_strict [244; 143; 191; 191]%N = Some [1114111%N].
Proof. reflexivity. Qed.

(** Records without a date, with a null date and with an empty date keep
    their order and come before the dated one. *)
Example sorted_is_stable :
  let a := PyDict [(lit "n", PyStr (lit "A"))] in
  let b := PyDict [(lit "n", PyStr (lit "B"));
                   (lit "ascent_start_date", PyStr (lit "2024-05-01"))] in
  let c := PyDict [(lit "n", PyStr (lit "C")); (lit "ascent_start_date", PyNone)] in
  let d := PyDict [(lit "n", PyStr (lit "D")); (lit "ascent_start_date", PyStr [])] in
  sorted_by_start_date [b; a; c; d] = Some [a; c; d; b].
Proof. reflexivity. Qed.

(** Dates of different types do not compare: [sorted] raises. *)
Example sorted_raises_on_mixed_dates :
  sorted_by_start_date [PyDict [(lit "ascent_start_date", PyInt 1)];
                        PyDict [(lit "ascent_start_date", PyStr (lit "a"))]] = None.
Proof. reflexivity. Qed.

(** The selector after the mountain list of the specification's example. *)
Example selector_lists_the_mountains :
  let w := world (_on_combo_loaded demo (ok one_mountain) (fresh_world true)) in
  combo_items (mountain_combo w)
  = [(lit "Select mountain", PyInt (-1)); (lit "Everest (Nepal)", PyInt 1)]
  /\ currentIndex (mountain_combo w) = 1
  /\ title_label w = PyStr (lit "Everest").
Proof. repeat split. Qed.

Example parse_everest_list :
  parse_reply_json demo (ok "[{'name': 'Everest'}]")
  = PyList [PyDict [(lit "name", PyStr (lit "Everest"))]].
Proof. reflexivity. Qed.

Example parse_truncated_document : parse_reply_json demo (ok "[{'id': 3,") = PyNone.
Proof. reflexivity. Qed.

(** The laws of the handler monad used to step through a handler. *)
Create Rewrite HintDb handler.

Section Properties.

Variable py : Runtime.

(** ** Stepping through a handler *)

Lemma bind_ret {A B} (a : A) (f : A -> M B) (w : World) :
  bind (ret a) f w = f a w.
Proof. unfold bind, ret. destruct (f a w); reflexivity. Qed.

Lemma bind_get_world {B} (f : World -> M B) (w : World) :
  bind get_world f w = f w w.
Proof. unfold bind, get_world. destruct (f w w); reflexivity. Qed.

Lemma bind_raise {A B} (f : A -> M B) (w : World) :
  bind raise f w = Out w [] Raised.
Proof. reflexivity. Qed.

Lemma bind_lift_some {A B} (a : A) (f : A -> M B) (w : World) :
  bind (lift (Some a)) f w = f a w.
Proof. apply bind_ret. Qed.

Lemma bind_modify_page {B} (g : MountainsPage -> MountainsPage) (f : unit -> M B)
  (w : World) :
  bind (modify_page g) f w = f tt (with_page g w).
Proof.
  unfold bind, modify_page, modify.
  destruct (f tt (with_page g w)); reflexivity.
Qed.

#[local] Hint Rewrite @bind_ret @bind_get_world @bind_lift_some @bind_modify_page : handler.

(** Open the callback a reply is delivered to. *)
Ltac open_handler :=
  cbn [handle];
  unfold _on_mountain_detail, _on_groups, _on_refresh_fetched,
    _on_check_groups_before_edit, _on_members_fetched, ClimbersPage_on_fetched,
    GroupsPage_on_fetched, _prep_add, AscentsPage_on_fetched, StatsPage_on_fetched,
    _on_combo_loaded.

Lemma parse_malformed (reply : QNetworkReply) :
  malformed py reply -> parse_reply_json py reply = PyNone.
Proof.
  unfold parse_reply_json. intros [H | [text [H1 H2]]].
  - rewrite H. reflexivity.
  - rewrite H1, H2. reflexivity.
Qed.

(** ** The guard of the edit button *)

(** C3: when the pre-edit groups fetch succeeds with a non-empty list, the
    handler shows the informational message and does nothing else: the world
    is unchanged, no dialog opens and no PUT is sent. *)
Theorem edit_refused_when_groups_exist
  (w : World) (reply : QNetworkReply) (ui : UserInput) (g : value) (gs : list value) :
  error reply = None ->
  parse_reply_json py reply = PyList (g :: gs) ->
  _on_check_groups_before_edit py reply ui w
  = Out w [Information (lit "Info")
             (lit "Cannot edit mountain: ascents exist for this mountain")]
        (Returned tt)
  /\ filter is_put (events (_on_check_groups_before_edit py reply ui w)) = [].
Proof.
  intros Herr Hdata. unfold _on_check_groups_before_edit.
  rewrite Herr, Hdata. cbn. split; reflexivity.
Qed.


(** Past the guard, with a record selected whose fields the widgets of the
    form take, the dialog opens and accepting it sends the PUT. *)
Lemma edit_check_opens
  (w : World) (reply : QNetworkReply) (ui : UserInput) (m : list (pystr * value))
  (name : pystr) (height : Z) (country region description : pystr) :
  error reply = None ->
  isinstance_list (parse_reply_json py reply) && truthy (parse_reply_json py reply) = false ->
  current_mountain (page_mountains w) = PyDict m ->
  edit_fields py m name height country region description ->
  _on_check_groups_before_edit py reply ui w
  = Out w
      (Exec (EditMountainDialog name (spin_value height) country region description)
       :: match mountain_form ui with
          | Accepted f =>
              [Request PUT (qurl (API_PREFIX ++ lit "/mountains/" ++ fmt py (dict_get m "id")))
                       (Some (mountain_payload f)) Cb_updated]
          | Rejected => []
          end)
      (Returned tt).
Proof.
  intros Herr Hguard Hcur (Hn & Hh & Hc & Hr & Hd). unfold _on_check_groups_before_edit.
  rewrite Herr, Hguard, bind_get_world, Hcur, Hn, Hh, Hc, Hr, Hd.
  rewrite !bind_lift_some. destruct (mountain_form ui); reflexivity.
Qed.

(** Past the guard, a selected record with a field that a widget of the form
    refuses makes the handler raise before the dialog opens. *)
Lemma edit_check_raises
  (w : World) (reply : QNetworkReply) (ui : UserInput) (m : list (pystr * value)) :
  error reply = None ->
  isinstance_list (parse_reply_json py reply) && truthy (parse_reply_json py reply) = false ->
  current_mountain (page_mountains w) = PyDict m ->
  (forall name height country region description,
      ~ edit_fields py m name height country region description) ->
  _on_check_groups_before_edit py reply ui w = Out w [] Raised.
Proof.
  intros Herr Hguard Hcur Hno. unfold _on_check_groups_before_edit.
  rewrite Herr, Hguard, bind_get_world, Hcur.
  destruct (qstring (dict_get_or m "name" (PyStr []))) as [n|] eqn:Hn; [|reflexivity].
  rewrite bind_lift_some.
  destruct (qt_int py (py_or (dict_get m "height") (PyInt 0))) as [h|] eqn:Hh; [|reflexivity].
  rewrite bind_lift_some.
  destruct (qstring (dict_get_or m "country" (PyStr []))) as [c|] eqn:Hc; [|reflexivity].
  rewrite bind_lift_some.
  destruct (qstring (dict_get_or m "region" (PyStr []))) as [r|] eqn:Hr; [|reflexivity].
  rewrite bind_lift_some.
  destruct (qstring (dict_get_or m "description" (PyStr []))) as [d|] eqn:Hd; [|reflexivity].
  exfalso. apply (Hno n h c r d). repeat split; assumption.
Qed.


(** ** Payloads of the wrong shape on the Mountains page *)

(** C10: a successful groups fetch whose payload is not a list leaves the
    group list empty, whatever it showed before; a successful detail fetch
    whose payload is not a dict leaves the whole page as it was. *)
Theorem non_list_groups_clears_non_dict_detail_keeps
  (w : World) (groups_reply detail_reply : QNetworkReply) :
  error groups_reply = None ->
  isinstance_list (parse_reply_json py groups_reply) = false ->
  error detail_reply = None ->
  isinstance_dict (parse_reply_json py detail_reply) = false ->
  (_on_groups py groups_reply w = Out (with_page groups_list_clear w) [] (Returned tt)
   /\ groups_list (page_mountains (world (_on_groups py groups_reply w))) = []
   /\ detail_half (page_mountains (world (_on_groups py groups_reply w)))
      = detail_half (page_mountains w))
  /\ _on_mountain_detail py detail_reply w = Out w [] (Returned tt).
Proof.
  intros Hg Hgl Hd Hdd. split.
  - assert (E : _on_groups py groups_reply w
                = Out (with_page groups_list_clear w) [] (Returned tt)).
    { unfold _on_groups. rewrite Hg.
      destruct (parse_reply_json py groups_reply); try discriminate; reflexivity. }
    rewrite E. repeat split.
  - unfold _on_mountain_detail. rewrite Hd.
    destruct (parse_reply_json py detail_reply); try discriminate; reflexivity.
Qed.

(** ** Loading a mountain and starting fetches *)

Lemma load_mountain_truthy (mountain_id : value) (w : World) :
  truthy mountain_id = true ->
  load_mountain py mountain_id w = Out w (mountain_requests py mountain_id) (Returned tt).
Proof. intros H. unfold load_mountain. rewrite H. reflexivity. Qed.

Lemma load_mountain_falsy (mountain_id : value) (w : World) :
  truthy mountain_id = false ->
  load_mountain py mountain_id w = Out w [] (Returned tt).
Proof. intros H. unfold load_mountain. rewrite H. reflexivity. Qed.

(** What starts the fetches the properties below are about. *)
Lemma on_edit_checks_groups (w : World) (m : list (pystr * value)) :
  current_mountain (page_mountains w) = PyDict m ->
  truthy (PyDict m) = true ->
  on_edit py w
  = Out w [Request GET
             (qurl (API_PREFIX ++ lit "/mountains/" ++ fmt py (dict_get m "id")
                    ++ lit "/groups"))
             None Cb_check_groups_before_edit]
        (Returned tt).
Proof.
  intros Hcur Ht. unfold on_edit. rewrite bind_get_world, Hcur, Ht. reflexivity.
Qed.

(** The pre-edit check is only ever started with a record selected. *)
Lemma on_edit_requires_selection (w : World) (url : pystr) (payload : option value) :
  In (Request GET url payload Cb_check_groups_before_edit) (events (on_edit py w)) ->
  exists m, current_mountain (page_mountains w) = PyDict m /\ m <> [].
Proof.
  unfold on_edit. rewrite bind_get_world.
  destruct (current_mountain (page_mountains w)) as [|b|z|f|s|l|m].
  7: { destruct m as [|kv m'].
       - cbn. intros [H|H]; [discriminate H|contradiction H].
       - intros _. exists (kv :: m'). split; [reflexivity|discriminate]. }
  all: destruct (negb (truthy _)); cbn;
    intros H; repeat (destruct H as [H|H]; try discriminate H); contradiction H.
Qed.

Lemma on_edit_without_selection (w : World) :
  truthy (current_mountain (page_mountains w)) = false ->
  on_edit py w = Out w [Information (lit "Info") (lit "No mountain selected")] (Returned tt).
Proof.
  intros Ht. unfold on_edit. rewrite bind_get_world, Ht. reflexivity.
Qed.

Lemma on_refresh_standalone (w : World) :
  in_main_window w = false ->
  on_refresh w
  = Out w [Request GET (qurl (API_PREFIX ++ lit "/mountains/")) None Cb_refresh_fetched]
        (Returned tt).
Proof.
  intros H. unfold on_refresh. rewrite bind_get_world, H. reflexivity.
Qed.

Lemma on_refresh_delegates (w : World) :
  in_main_window w = true ->
  on_refresh w
  = Out w [Request GET (qurl (API_PREFIX ++ lit "/mountains/")) None Cb_combo_loaded]
        (Returned tt).
Proof.
  intros H. unfold on_refresh. rewrite bind_get_world, H. reflexivity.
Qed.

(** ** What a callback leaves alone *)

(** A loop whose turns all leave some view [P] of the world alone leaves it
    alone, also when a turn raises. *)
Lemma for_each_frame {A T} (P : World -> T) (body : A -> M unit) :
  (forall x w, P (world (body x w)) = P w) ->
  forall l w, P (world (for_each l body w)) = P w.
Proof.
  intros Hbody. induction l as [|x rest IH]; intros w.
  - reflexivity.
  - simpl. unfold bind. specialize (Hbody x w).
    destruct (body x w) as [w1 e1 [[]|]]; simpl in Hbody.
    + specialize (IH w1). destruct (for_each rest body w1) as [w2 e2 r2].
      simpl in *. congruence.
    + exact Hbody.
Qed.

(** One turn of the loop of [_on_groups] adds the item of the record, or
    raises and adds nothing. *)
Lemma render_group_item (g : value) (w : World) :
  render_group py g w
  = match render_item py g with
    | Some it => Out (with_page (groups_list_addItem it) w) [] (Returned tt)
    | None => Out w [] Raised
    end.
Proof.
  unfold render_group, render_item. destruct g; try reflexivity.
  cbn [get lift]. rewrite !bind_ret.
  match goal with
  | |- context [GroupCard py ?c] => destruct (GroupCard py c) as [widget|]
  end; [|reflexivity].
  rewrite bind_lift_some. destruct (qt_variant py (PyDict d)); reflexivity.
Qed.

Lemma render_group_frame (g : value) (w : World) :
  outside_groups_list (world (render_group py g w)) = outside_groups_list w.
Proof.
  rewrite render_group_item. destruct (render_item py g); reflexivity.
Qed.

Lemma _on_groups_frame (reply : QNetworkReply) (w : World) :
  outside_groups_list (world (_on_groups py reply w)) = outside_groups_list w.
Proof.
  unfold _on_groups. destruct (error reply); [reflexivity|].
  unfold bind at 1. cbn -[for_each].
  destruct (parse_reply_json py reply) as [| | | | |l|]; try reflexivity.
  match goal with
  | |- context [for_each ?xs ?f ?w0] =>
      pose proof (for_each_frame outside_groups_list f (render_group_frame) xs w0) as H;
      destruct (for_each xs f w0) as [w2 e2 r2]
  end.
  simpl in *. exact H.
Qed.

(** On a record the detail callback writes the labels and then the
    description; it raises, with the labels written, when the description is
    refused. *)
Lemma _on_mountain_detail_dict (reply : QNetworkReply) (d : list (pystr * value))
  (w : World) :
  error reply = None ->
  parse_reply_json py reply = PyDict d ->
  _on_mountain_detail py reply w
  = Out (with_page (show_detail py d) w) []
        (match qstring (dict_get_or d "description" (PyStr [])) with
         | Some _ => Returned tt
         | None => Raised
         end).
Proof.
  intros Herr Hdata. unfold _on_mountain_detail. rewrite Herr, Hdata, bind_modify_page.
  unfold show_detail. destruct (qstring _); reflexivity.
Qed.

Lemma _on_mountain_detail_frame (reply : QNetworkReply) (w : World) :
  outside_detail (world (_on_mountain_detail py reply w)) = outside_detail w.
Proof.
  destruct (error reply) as [msg|] eqn:Herr.
  - unfold _on_mountain_detail. rewrite Herr. reflexivity.
  - destruct (parse_reply_json py reply) as [| | | | | |d] eqn:Hdata.
    7: { rewrite (_on_mountain_detail_dict reply d w Herr Hdata).
         unfold show_detail. destruct (qstring _); reflexivity. }
    all: unfold _on_mountain_detail; rewrite Herr, Hdata; reflexivity.
Qed.

(** ** The group form *)

(** C6: when the group form is accepted with its mountain selector on the
    entry whose data is the sentinel [-1], the handler shows the
    informational message and sends no POST; the world is unchanged. *)
Theorem group_creation_refused_at_sentinel
  (w : World) (r : QNetworkReply) (ui : UserInput) (f : GroupForm)
  (mc : list (pystr * value)) :
  error r = None ->
  group_form_selector py (py_or (parse_reply_json py r) (PyList [])) = Some mc ->
  group_form ui = Accepted f ->
  itemData mc (gform_mountain f) = PyInt (-1) ->
  _prep_add py r ui w
  = Out w [Exec (AddGroupDialog mc); Information (lit "Info") (lit "Select mountain")]
        (Returned tt)
  /\ filter is_post (events (_prep_add py r ui w)) = [].
Proof.
  intros Herr Hmc Hui Hsel.
  assert (E : _prep_add py r ui w
              = Out w [Exec (AddGroupDialog mc);
                       Information (lit "Info") (lit "Select mountain")] (Returned tt)).
  { unfold _prep_add. rewrite Herr, Hmc. cbn. rewrite Hui, Hsel. reflexivity. }
  rewrite E. split; reflexivity.
Qed.

(** ** The two halves of the Mountains page *)

(** C8 (amended): for a truthy mountain id [load_mountain] issues exactly the
    detail request and the groups request, neither depending on the other,
    and for a falsy id it issues neither; the detail callback touches nothing
    outside the detail half of the page and the groups callback nothing
    outside the group list, whatever the reply. *)
Theorem load_mountain_fires_both_halves_independent
  (mountain_id : value) (w : World) :
  truthy mountain_id = true ->
  load_mountain py mountain_id w = Out w (mountain_requests py mountain_id) (Returned tt)
  /\ (forall falsy_id w0,
        truthy falsy_id = false -> load_mountain py falsy_id w0 = Out w0 [] (Returned tt))
  /\ (forall reply w0,
        outside_detail (world (_on_mountain_detail py reply w0)) = outside_detail w0)
  /\ (forall reply w0,
        outside_groups_list (world (_on_groups py reply w0)) = outside_groups_list w0).
Proof.
  intros H. repeat split.
  - apply load_mountain_truthy; exact H.
  - intros falsy_id w0. apply load_mountain_falsy.
  - apply _on_mountain_detail_frame.
  - apply _on_groups_frame.
Qed.

(** ** The standalone refresh *)

(** C7 (amended): on a successful standalone refresh whose payload is a list
    of records, an empty list resets the page to its placeholders; otherwise
    the displayed mountain is reloaded when its id is truthy and among the
    fetched ids, else the first mountain is loaded when its id is truthy,
    else no request is issued and the page stays as it is. *)
Theorem refresh_reloads_current_or_first
  (w : World) (reply : QNetworkReply) (l ids : list value) :
  error reply = None ->
  parse_reply_json py reply = PyList l ->
  traverse (fun m => get m "id") l = Some ids ->
  let current_id := current_id_of (page_mountains w) in
  let out := _on_refresh_fetched py reply w in
  match ids with
  | [] => out = Out (with_page (fun _ => blank_page) w) [] (Returned tt)
  | first_mid :: _ =>
      (truthy current_id = true -> py_in current_id ids = true ->
       out = Out w (mountain_requests py current_id) (Returned tt))
      /\ (truthy current_id && py_in current_id ids = false -> truthy first_mid = true ->
          out = Out w (mountain_requests py first_mid) (Returned tt))
      /\ (truthy current_id && py_in current_id ids = false -> truthy first_mid = false ->
          out = Out w [] (Returned tt))
  end.
Proof.
  intros Herr Hdata Hids. cbv zeta. unfold _on_refresh_fetched.
  rewrite Herr, Hdata.
  destruct l as [|first rest].
  - simpl in Hids. injection Hids as <-. reflexivity.
  - destruct ids as [|first_mid ids'].
    { simpl in Hids. destruct (get first "id"); [|discriminate].
      destruct (traverse _ rest); discriminate. }
    assert (Hfirst : get first "id" = Some first_mid).
    { simpl in Hids. destruct (get first "id"); [|discriminate].
      destruct (traverse _ rest); [|discriminate]. congruence. }
    rewrite bind_get_world, Hids. autorewrite with handler.
    repeat split.
    + intros Ht Hin. rewrite Ht, Hin. apply load_mountain_truthy; exact Ht.
    + intros Hc Hf. rewrite Hc, Hfirst. autorewrite with handler. rewrite Hf.
      apply load_mountain_truthy; exact Hf.
    + intros Hc Hf. rewrite Hc, Hfirst. autorewrite with handler. rewrite Hf.
      reflexivity.
Qed.

(** ** Transport errors and malformed bodies *)

(** C4 (amended): a fetch that ends in a transport error leaves the whole
    world unchanged and returns; every fetch callback other than the one of
    the main window's mountain selector shows exactly one warning, titled
    "Error", and does nothing else. *)
Theorem transport_error_leaves_view
  (cb : callback) (reply : QNetworkReply) (ui : UserInput) (w : World) (msg : pystr) :
  is_fetch cb = true ->
  error reply = Some msg ->
  world (handle py cb reply ui w) = w
  /\ status (handle py cb reply ui w) = Returned tt
  /\ (cb <> Cb_combo_loaded ->
      exists text, events (handle py cb reply ui w) = [Warning (lit "Error") text]).
Proof.
  intros Hf Herr.
  destruct cb; try discriminate Hf; open_handler;
    rewrite Herr; cbn; repeat split; try (intros _; eexists; reflexivity).
  intros H. contradiction H. reflexivity.
Qed.

(** C5 (amended): when a fetch succeeds but its body fails to decode or to
    parse, [parse_reply_json] yields [None] and the handler returns without
    raising: list views end up empty, the stats box shows "No stats", a
    standalone refresh resets the page to its placeholders, the mountain
    selector keeps only its sentinel entry, the members dialog and the group
    form open with nothing to choose from, the pre-edit check opens the edit
    dialog on the selected mountain, showing its fields, when the widgets of
    the form take them; the detail fetch alone leaves the page exactly as it
    was, previous values included. *)
Theorem malformed_body_is_null_payload
  (cb : callback) (reply : QNetworkReply) (ui : UserInput) (w : World) :
  is_fetch cb = true ->
  error reply = None ->
  malformed py reply ->
  parse_reply_json py reply = PyNone
  /\ let out := handle py cb reply ui w in
     match cb with
     | Cb_mountain_detail => out = Out w [] (Returned tt)
     | Cb_check_groups_before_edit =>
         forall m name height country region description,
           current_mountain (page_mountains w) = PyDict m ->
           edit_fields py m name height country region description ->
           out = Out w
                   (Exec (EditMountainDialog name (spin_value height) country region
                            description)
                    :: match mountain_form ui with
                       | Accepted f =>
                           [Request PUT
                              (qurl (API_PREFIX ++ lit "/mountains/"
                                     ++ fmt py (dict_get m "id")))
                              (Some (PyDict
                                       [(lit "name", PyStr (form_name f));
                                        (lit "height", PyInt (form_height f));
                                        (lit "country", PyStr (form_country f));
                                        (lit "region", PyStr (form_region f));
                                        (lit "description", PyStr (form_description f))]))
                              Cb_updated]
                       | Rejected => []
                       end)
                   (Returned tt)
     | Cb_members_fetched => out = Out w [Exec (MembersDialog [])] (Returned tt)
     | Cb_prep_add =>
         status out = Returned tt /\ world out = w
         /\ exists rest,
              events out = Exec (AddGroupDialog [(lit "Select", PyInt (-1))]) :: rest
     | _ => status out = Returned tt /\ events out = [] /\ empty_view cb (world out)
     end.
Proof.
  intros Hf Herr Hbad. pose proof (parse_malformed reply Hbad) as Hnull.
  split; [exact Hnull|]. cbv zeta.
  destruct cb; try discriminate Hf;
    try (cbn [handle]; intros m name height country region description Hcur Hfields;
         apply (edit_check_opens w reply ui m name height country region description);
         [exact Herr | rewrite Hnull; reflexivity | exact Hcur | exact Hfields]);
    open_handler; rewrite Herr, Hnull; try (repeat split; fail).
  - cbn. destruct (group_form ui) as [|f]; [repeat split; eexists; reflexivity|].
    destruct (py_eq _ _); repeat split; eexists; reflexivity.
Qed.

(** ** The display name of a climber *)

Lemma py_or_joinable (v : value) :
  joinable v ->
  py_or v (PyStr []) = PyStr (str_or_empty v).
Proof.
  unfold py_or. intros [[s ->] | H].
  - destruct s; reflexivity.
  - rewrite H. destruct v; try reflexivity. destruct s; [reflexivity|discriminate].
Qed.

Lemma kept_parts (a b c : pystr) :
  traverse as_str (filter truthy [PyStr a; PyStr b; PyStr c])
  = Some (filter nonempty [a; b; c]).
Proof. destruct a, b, c; reflexivity. Qed.

(** The function on a record whose name fields can be joined, in terms of
    the name parts. *)
Lemma human_name_from_name_parts (d : list (pystr * value)) :
  joinable (dict_get d "first_name") ->
  joinable (dict_get d "middle_name") ->
  joinable (dict_get d "last_name") ->
  human_name_from_climber (PyDict d)
  = Some (py_or (py_or (PyStr (strip (join (lit " ") (name_parts d)))) (dict_get d "email"))
                (PyStr (lit "Unknown"))).
Proof.
  intros H1 H2 H3. unfold human_name_from_climber, name_parts, name_part.
  rewrite (py_or_joinable _ H1), (py_or_joinable _ H2), (py_or_joinable _ H3).
  rewrite kept_parts. reflexivity.
Qed.

Lemma join_nonempty_parts (ps : list pystr) :
  Forall (fun p => nonempty p = true) ps -> join (lit " ") ps = [] -> ps = [].
Proof.
  intros Hall Hj. destruct ps as [|p ps']; [reflexivity|].
  inversion Hall as [|? ? Hp _]; subst.
  destruct p; [discriminate|]. destruct ps'; discriminate.
Qed.

(** C2 (amended): for a climber record whose name fields are strings (or
    absent, null or otherwise falsy), the display name is the space-joined
    non-empty name parts with leading and trailing whitespace stripped; when
    that is empty it is the email if the email is truthy, and "Unknown"
    otherwise. *)
Theorem human_name_is_stripped_join_or_email_or_unknown (d : list (pystr * value)) :
  joinable (dict_get d "first_name") ->
  joinable (dict_get d "middle_name") ->
  joinable (dict_get d "last_name") ->
  let name := strip (join (lit " ") (name_parts d)) in
  let email := dict_get d "email" in
  (name <> [] -> human_name_from_climber (PyDict d) = Some (PyStr name))
  /\ (name = [] -> truthy email = true ->
      human_name_from_climber (PyDict d) = Some email)
  /\ (name = [] -> truthy email = false ->
      human_name_from_climber (PyDict d) = Some (PyStr (lit "Unknown"))).
Proof.
  intros H1 H2 H3 name email.
  rewrite (human_name_from_name_parts d H1 H2 H3). fold name email.
  unfold py_or. repeat split.
  - intros Hname. destruct name; [contradiction Hname; reflexivity|reflexivity].
  - intros -> Hemail. cbn [truthy]. rewrite Hemail. reflexivity.
  - intros -> Hemail. cbn [truthy]. rewrite Hemail. reflexivity.
Qed.

(** Where stripping changes nothing, the function is the specification's
    display name. *)
Lemma human_name_meets_spec_without_outer_whitespace (d : list (pystr * value)) :
  joinable (dict_get d "first_name") ->
  joinable (dict_get d "middle_name") ->
  joinable (dict_get d "last_name") ->
  strip (join (lit " ") (name_parts d)) = join (lit " ") (name_parts d) ->
  human_name_from_climber (PyDict d) = Some (display_name_spec d).
Proof.
  intros H1 H2 H3 Hs.
  rewrite (human_name_from_name_parts d H1 H2 H3), Hs.
  unfold display_name_spec, py_or.
  assert (Hall : Forall (fun p => nonempty p = true) (name_parts d)).
  { apply Forall_forall. intros p Hin. unfold name_parts in Hin.
    apply filter_In in Hin. tauto. }
  destruct (join (lit " ") (name_parts d)) eqn:Ej.
  - rewrite (join_nonempty_parts _ Hall Ej). reflexivity.
  - destruct (name_parts d); [discriminate|]. rewrite Ej. reflexivity.
Qed.

(** ** The order of the group list *)

(** *** The order of strings *)

Lemma str_ltb_irrefl (a : pystr) : str_ltb a a = false.
Proof.
  induction a as [|x a IH]; [reflexivity|]. simpl.
  rewrite N.ltb_irrefl, N.eqb_refl. exact IH.
Qed.

Lemma str_ltb_asym (a b : pystr) : str_ltb a b = true -> str_ltb b a = false.
Proof.
  revert b. induction a as [|x a IH]; intros [|y b] H; simpl in *; try congruence.
  destruct (N.ltb_spec x y), (N.ltb_spec y x), (N.eqb_spec x y), (N.eqb_spec y x);
    try lia; try congruence; auto.
Qed.

Lemma str_le_refl (a : pystr) : str_le a a.
Proof. apply str_ltb_irrefl. Qed.

Lemma str_le_trans (a b c : pystr) : str_le a b -> str_le b c -> str_le a c.
Proof.
  unfold str_le. revert b c.
  induction a as [|x a IH]; intros [|y b] [|z c] H1 H2; simpl in *; try congruence.
  destruct (N.ltb_spec z x), (N.ltb_spec y x), (N.ltb_spec z y),
    (N.eqb_spec z x), (N.eqb_spec y x), (N.eqb_spec z y);
    try lia; try congruence; eauto.
Qed.

Lemma str_le_total (a b : pystr) : str_le a b \/ str_le b a.
Proof.
  unfold str_le. destruct (str_ltb b a) eqn:E; [right|left; reflexivity].
  apply str_ltb_asym; exact E.
Qed.

Lemma date_le_trans (a b c : value) : date_le a b -> date_le b c -> date_le a c.
Proof. apply str_le_trans. Qed.

(** *** [sorted] on group records *)

Lemma sort_key_group_record (g : value) :
  group_record g -> sort_key g = Some (PyStr (start_date_key g)).
Proof.
  intros [d [-> [H | [s H]]]]; unfold sort_key, start_date_key; rewrite H.
  - reflexivity.
  - destruct s; reflexivity.
Qed.

Lemma traverse_sort_key (l : list value) :
  Forall group_record l ->
  exists keys, traverse sort_key l = Some keys
               /\ Forall keyed (combine keys l)
               /\ map snd (combine keys l) = l.
Proof.
  induction 1 as [|g l Hg _ [keys [E [Hk Hs]]]].
  - exists []. repeat split. constructor.
  - exists (PyStr (start_date_key g) :: keys). simpl.
    rewrite (sort_key_group_record g Hg), E. repeat split.
    + constructor; [reflexivity|exact Hk].
    + f_equal. exact Hs.
Qed.

Lemma insert_keyed_sorted (kx : value * value) (l : list (value * value)) :
  keyed kx -> Forall keyed l -> Sorted date_le (map snd l) ->
  exists r, insert_keyed kx l = Some r
            /\ Forall keyed r
            /\ Permutation (kx :: l) r
            /\ Sorted date_le (map snd r)
            /\ (forall a, date_le a (snd kx) -> HdRel date_le a (map snd l) ->
                          HdRel date_le a (map snd r)).
Proof.
  intros Hkx. induction l as [|ky l IH]; intros Hl Hs.
  - exists [kx]. simpl. repeat split; auto; repeat constructor.
  - inversion Hl as [|? ? Hky Hl']; subst.
    simpl in Hs. apply Sorted_inv in Hs. destruct Hs as [Hs Hhd].
    simpl. rewrite Hky, Hkx. cbn [py_lt].
    destruct (str_ltb (start_date_key (snd ky)) (start_date_key (snd kx))) eqn:E.
    + destruct (IH Hl' Hs) as [r [Er [Hr [Hp [Hsr Hh]]]]]. rewrite Er.
      exists (ky :: r). repeat split.
      * constructor; assumption.
      * apply perm_trans with (ky :: kx :: l); [apply perm_swap|].
        apply perm_skip. exact Hp.
      * simpl. constructor; [exact Hsr|]. apply Hh; [|exact Hhd].
        apply str_ltb_asym. exact E.
      * intros a _ Ha. simpl in *. apply HdRel_inv in Ha. constructor. exact Ha.
    + exists (kx :: ky :: l). repeat split.
      * constructor; [exact Hkx|exact Hl].
      * apply Permutation_refl.
      * simpl. constructor; [constructor; assumption|]. constructor. exact E.
      * intros a Ha _. simpl. constructor. exact Ha.
Qed.

Lemma sort_keyed_sorted (l : list (value * value)) :
  Forall keyed l ->
  exists r, sort_keyed l = Some r
            /\ Forall keyed r
            /\ Permutation l r
            /\ Sorted date_le (map snd r).
Proof.
  induction 1 as [|kx l Hkx Hl [r [Er [Hr [Hp Hs]]]]].
  - exists []. repeat split; constructor.
  - simpl. rewrite Er.
    destruct (insert_keyed_sorted kx r Hkx Hr Hs) as [r' [Er' [Hr' [Hp' [Hs' _]]]]].
    exists r'. repeat split; auto.
    apply perm_trans with (kx :: r); [apply perm_skip; exact Hp|exact Hp'].
Qed.

Lemma sorted_group_records (l : list value) :
  Forall group_record l ->
  exists r, sorted_by_start_date l = Some r
            /\ Permutation l r
            /\ Sorted date_le r.
Proof.
  intros Hl. unfold sorted_by_start_date.
  destruct (traverse_sort_key l Hl) as [keys [E [Hk Hsnd]]]. rewrite E.
  destruct (sort_keyed_sorted _ Hk) as [r [Er [_ [Hp Hs]]]]. rewrite Er.
  exists (map snd r). repeat split; [|exact Hs].
  rewrite <- Hsnd at 1. apply Permutation_map. exact Hp.
Qed.

Lemma Sorted_firstn {A} (R : A -> A -> Prop) (k : nat) (l : list A) :
  Sorted R l -> Sorted R (firstn k l).
Proof.
  revert l. induction k as [|k IH]; intros l Hs; [constructor|].
  destruct l as [|x l]; [constructor|]. simpl.
  apply Sorted_inv in Hs. destruct Hs as [Hs Hhd].
  constructor; [apply IH; exact Hs|].
  destruct k; [constructor|]. destruct l; [constructor|].
  simpl. apply HdRel_inv in Hhd. constructor. exact Hhd.
Qed.

End Properties.

(** * Further properties of the handlers *)

Section Coverage.

Variable py : Runtime.

(** ** Loops as maps *)

(** A loop whose turn appends [row x] to an accumulated view, or raises when
    [row x] fails, fills the view with the rows up to the first failure. *)
Lemma for_each_fill {A R} (row : A -> option R) (S : list R -> World -> World)
  (body : A -> M unit) (w : World) :
  (forall x acc,
      body x (S acc w)
      = match row x with
        | Some r => Out (S (acc ++ [r]) w) [] (Returned tt)
        | None => Out (S acc w) [] Raised
        end) ->
  forall l acc,
    for_each l body (S acc w)
    = Out (S (acc ++ prefix_map row l) w) [] (loop_status row l).
Proof.
  intros Hbody. induction l as [|x rest IH]; intros acc.
  - simpl. rewrite app_nil_r. reflexivity.
  - simpl. unfold bind. rewrite Hbody. unfold loop_status. simpl.
    destruct (row x) as [r|].
    + rewrite IH. rewrite <- app_assoc. reflexivity.
    + rewrite app_nil_r. reflexivity.
Qed.




(** ** The group list as a function of the reply *)

Lemma render_groups_fill (l : list value) (acc : list GroupItem) (w : World) :
  for_each l (render_group py) (with_page (set_groups_list acc) w)
  = Out (with_page (set_groups_list (acc ++ prefix_map (render_item py) l)) w) []
        (loop_status (render_item py) l).
Proof.
  apply (for_each_fill (render_item py) (fun acc w => with_page (set_groups_list acc) w)).
  intros x acc0. rewrite render_group_item. destruct (render_item py x); reflexivity.
Qed.

(** [_on_groups] on a list payload, in one step. *)
Lemma _on_groups_list (reply : QNetworkReply) (l : list value) (w : World) :
  error reply = None ->
  parse_reply_json py reply = PyList l ->
  _on_groups py reply w
  = Out (with_page (set_groups_list (prefix_map (render_item py) (data_sorted l))) w) []
        (loop_status (render_item py) (data_sorted l)).
Proof.
  intros Herr Hdata. unfold _on_groups. rewrite Herr, Hdata, bind_modify_page.
  change (with_page groups_list_clear w) with (with_page (set_groups_list []) w).
  fold (data_sorted l). apply render_groups_fill.
Qed.

(** [_on_groups] on a payload that is not a list. *)
Lemma _on_groups_not_list (reply : QNetworkReply) (w : World) :
  error reply = None ->
  isinstance_list (parse_reply_json py reply) = false ->
  _on_groups py reply w = Out (with_page (set_groups_list []) w) [] (Returned tt).
Proof.
  intros Herr Hl. unfold _on_groups. rewrite Herr.
  destruct (parse_reply_json py reply); try discriminate Hl; reflexivity.
Qed.

(** ** The two callbacks of [load_mountain] *)

(** X1: the detail callback and the groups callback of [load_mountain] can
    arrive in either order: the page ends up the same, and what each one
    shows and returns does not depend on whether the other was applied. *)
Theorem detail_and_groups_commute (detail_reply groups_reply : QNetworkReply) (w : World) :
  world (_on_groups py groups_reply (world (_on_mountain_detail py detail_reply w)))
  = world (_on_mountain_detail py detail_reply (world (_on_groups py groups_reply w)))
  /\ events (_on_groups py groups_reply (world (_on_mountain_detail py detail_reply w)))
     = events (_on_groups py groups_reply w)
  /\ status (_on_groups py groups_reply (world (_on_mountain_detail py detail_reply w)))
     = status (_on_groups py groups_reply w)
  /\ events (_on_mountain_detail py detail_reply (world (_on_groups py groups_reply w)))
     = events (_on_mountain_detail py detail_reply w)
  /\ status (_on_mountain_detail py detail_reply (world (_on_groups py groups_reply w)))
     = status (_on_mountain_detail py detail_reply w).
Proof.
  assert (Hg : exists G evs st,
             (forall w0, _on_groups py groups_reply w0 = Out (with_page G w0) evs st)
             /\ (G = (fun p => p) \/ exists L, G = set_groups_list L)).
  { destruct (error groups_reply) as [msg|] eqn:Herr.
    - exists (fun p => p), [Warning (lit "Error") (lit "Failed to load groups: " ++ msg)],
        (Returned tt).
      split; [|left; reflexivity].
      intros w0. unfold _on_groups. rewrite Herr. destruct w0; reflexivity.
    - destruct (parse_reply_json py groups_reply) as [| | | | |l|] eqn:Hdata.
      6: { eexists _, _, _. split;
             [intros w0; apply (_on_groups_list groups_reply l w0 Herr Hdata)
             |right; eexists; reflexivity]. }
      all: eexists _, _, _; (split;
             [intros w0; apply (_on_groups_not_list groups_reply w0 Herr);
              rewrite Hdata; reflexivity
             |right; eexists; reflexivity]). }
  assert (Hd : exists D evs st,
             (forall w0, _on_mountain_detail py detail_reply w0 = Out (with_page D w0) evs st)
             /\ forall L p, D (set_groups_list L p) = set_groups_list L (D p)).
  { destruct (error detail_reply) as [msg|] eqn:Herr.
    - exists (fun p => p),
        [Warning (lit "Error") (lit "Failed to load mountain: " ++ msg)], (Returned tt).
      split; [|reflexivity].
      intros w0. unfold _on_mountain_detail. rewrite Herr. destruct w0; reflexivity.
    - destruct (parse_reply_json py detail_reply) as [| | | | | |d] eqn:Hdata.
      7: { eexists _, _, _. split;
             [intros w0; apply (_on_mountain_detail_dict py detail_reply d w0 Herr Hdata)|].
           intros L p. unfold show_detail. destruct (qstring _); reflexivity. }
      all: exists (fun p => p), [], (Returned tt); (split; [|reflexivity]);
        intros w0; unfold _on_mountain_detail; rewrite Herr, Hdata;
        destruct w0; reflexivity. }
  destruct Hg as (G & ge & gs & Hg & HG). destruct Hd as (D & de & ds & Hd & HD).
  rewrite (Hg w), (Hd w). cbn [world events status].
  rewrite (Hg (with_page D w)), (Hd (with_page G w)). cbn [world events status].
  repeat split.
  unfold with_page. cbn. destruct HG as [-> | [L ->]]; [reflexivity|].
  rewrite HD. reflexivity.
Qed.

(** ** Which records the group list shows *)

Lemma str_eqb_eq (a b : pystr) : str_eqb a b = true -> a = b.
Proof.
  revert b. induction a as [|x a IH]; intros [|y b] H; simpl in H; try discriminate.
  - reflexivity.
  - apply andb_prop in H. destruct H as [Hx Hr].
    apply N.eqb_eq in Hx. subst. f_equal. apply IH. exact Hr.
Qed.

Lemma insert_keyed_permutation (kx : value * value) (l r : list (value * value)) :
  insert_keyed kx l = Some r -> Permutation (kx :: l) r.
Proof.
  revert r. induction l as [|ky l IH]; simpl; intros r E.
  - injection E as <-. apply Permutation_refl.
  - destruct (py_lt (fst ky) (fst kx)) as [[]|]; try discriminate.
    + destruct (insert_keyed kx l) as [r'|]; [|discriminate].
      injection E as <-.
      apply perm_trans with (ky :: kx :: l); [apply perm_swap|].
      apply perm_skip. apply IH. reflexivity.
    + injection E as <-. apply Permutation_refl.
Qed.

Lemma sort_keyed_permutation (l r : list (value * value)) :
  sort_keyed l = Some r -> Permutation l r.
Proof.
  revert r. induction l as [|kx l IH]; simpl; intros r E.
  - injection E as <-. constructor.
  - destruct (sort_keyed l) as [r'|]; [|discriminate].
    apply perm_trans with (kx :: r'); [apply perm_skip; apply IH; reflexivity|].
    apply insert_keyed_permutation. exact E.
Qed.

Lemma traverse_combine {A B} (f : A -> option B) (l : list A) (ys : list B) :
  traverse f l = Some ys -> map snd (combine ys l) = l.
Proof.
  revert ys. induction l as [|x l IH]; simpl; intros ys E.
  - injection E as <-. reflexivity.
  - destruct (f x); [|discriminate]. destruct (traverse f l) as [ys'|]; [|discriminate].
    injection E as <-. simpl. f_equal. apply IH. reflexivity.
Qed.

(** Whatever the records are, [sorted] only reorders them, and so does the
    fallback to the payload order. *)
Lemma data_sorted_permutation (l : list value) : Permutation l (data_sorted l).
Proof.
  unfold data_sorted, sorted_by_start_date.
  destruct (traverse sort_key l) as [keys|] eqn:Ek; [|apply Permutation_refl].
  destruct (sort_keyed (combine keys l)) as [r|] eqn:Er; [|apply Permutation_refl].
  rewrite <- (traverse_combine _ _ _ Ek) at 1.
  apply Permutation_map. apply sort_keyed_permutation. exact Er.
Qed.

Lemma truthy_py_or_r (a b : value) : truthy b = true -> truthy (py_or a b) = true.
Proof. intros H. unfold py_or. destruct (truthy a) eqn:E; assumption. Qed.

Lemma firstn_length_180 {A} (l : list A) : (List.length (firstn 180 l) <= 180)%nat.
Proof. rewrite length_firstn. apply Nat.le_min_l. Qed.

Lemma group_title_truthy (d : list (pystr * value)) : truthy (group_title d) = true.
Proof. apply truthy_py_or_r. reflexivity. Qed.

(** The card [_on_groups] asks for: [GroupCard] reads back the four fields
    it is given. *)
Lemma GroupCard_of_fields (title leader start description : value) :
  GroupCard py (PyDict [(lit "group_name", title); (lit "leader_name", leader);
                        (lit "ascent_start_date", start); (lit "description", description)])
  = match qstring (py_or (py_or title PyNone) (PyStr (lit "Group"))),
          slice_180 (py_or description (PyStr [])) with
    | Some t, Some dsc =>
        match qstring dsc with
        | Some s =>
            Some {| card_title := PyStr t;
                    card_meta := lit "Leader: " ++ fmt py leader ++ lit "  " ++ bullet
                                 ++ lit "  Start: " ++ fmt py start;
                    card_desc := PyStr s |}
        | None => None
        end
    | _, _ => None
    end.
Proof. reflexivity. Qed.

Lemma py_or_truthy (a b : value) : truthy a = true -> py_or a b = a.
Proof. intros H. unfold py_or. rewrite H. reflexivity. Qed.

(** What a record must be for [_on_groups] to add its item, and the item. *)
Lemma render_item_inv (d : list (pystr * value)) (it : GroupItem) :
  render_item py (PyDict d) = Some it ->
  exists t s,
    group_title d = PyStr t
    /\ py_or (dict_get_or d "description" (PyStr [])) (PyStr []) = PyStr s
    /\ qt_variant py (PyDict d) = true
    /\ item_data it = PyDict d
    /\ card_title (item_widget it) = PyStr t
    /\ card_desc (item_widget it) = PyStr (firstn 180 s).
Proof.
  unfold render_item. rewrite GroupCard_of_fields. fold (group_title d).
  rewrite !(py_or_truthy (group_title d)) by apply group_title_truthy.
  pose proof (group_title_truthy d) as Ht.
  destruct (group_title d) as [| | | |t| |]; try discriminate. cbn [qstring].
  destruct (py_or (dict_get_or d "description" (PyStr [])) (PyStr [])) as [| | | |s|l|];
    try discriminate.
  cbn [slice_180 qstring].
  destruct (qt_variant py (PyDict d)); [|discriminate].
  intros E. injection E as <-. exists t, s. repeat split.
Qed.

Lemma description_shown (d : list (pystr * value)) :
  truthy (dict_get d "description") = false
  \/ (exists s, dict_get d "description" = PyStr s) ->
  exists s, py_or (dict_get_or d "description" (PyStr [])) (PyStr []) = PyStr s.
Proof.
  unfold dict_get, dict_get_or.
  destruct (lookup (lit "description") d) as [v|]; [|intros _; exists []; reflexivity].
  intros [H | [s ->]].
  - unfold py_or. rewrite H. exists []. reflexivity.
  - exists s. destruct s; reflexivity.
Qed.

Lemma render_item_displayable (g : value) :
  displayable py g -> exists it, render_item py g = Some it.
Proof.
  intros (d & -> & [t Ht] & Hdesc & Hq).
  destruct (description_shown d Hdesc) as [s Hs].
  unfold render_item. rewrite GroupCard_of_fields. fold (group_title d).
  rewrite !(py_or_truthy (group_title d)) by apply group_title_truthy.
  rewrite Ht, Hs, Hq. cbn [qstring slice_180]. eexists. reflexivity.
Qed.

Lemma displayable_all_some (l : list value) :
  Forall (displayable py) l -> all_some (render_item py) l = true.
Proof.
  intros Hl. apply forallb_forall. intros g Hin.
  rewrite Forall_forall in Hl.
  destruct (render_item_displayable g (Hl g Hin)) as [it ->]. reflexivity.
Qed.

Lemma render_item_keeps_record (g : value) (it : GroupItem) :
  render_item py g = Some it -> item_data it = g.
Proof.
  destruct g as [| | | | | |d]; try discriminate.
  intros E. destruct (render_item_inv d it E) as (t & s & _ & _ & _ & H & _). exact H.
Qed.

Lemma render_item_card_ok (g : value) (it : GroupItem) :
  render_item py g = Some it -> card_ok it.
Proof.
  destruct g as [| | | | | |d]; try discriminate.
  intros E. destruct (render_item_inv d it E) as (t & s & Ht & _ & _ & Hd & Hc & Hs).
  unfold card_ok. rewrite Hd, Hc, Hs. repeat split.
  - rewrite <- Ht. apply group_title_truthy.
  - apply firstn_length_180.
Qed.

Lemma prefix_map_all_data (l : list value) :
  all_some (render_item py) l = true ->
  map item_data (prefix_map (render_item py) l) = l.
Proof.
  induction l as [|g l IH]; simpl; [reflexivity|].
  destruct (render_item py g) as [it|] eqn:E; simpl; [|discriminate].
  intros H. rewrite (render_item_keeps_record g it E). f_equal. apply IH. exact H.
Qed.

(** The records shown are the first ones of the list the loop walks. *)
Lemma prefix_map_data_firstn (l : list value) :
  exists k, map item_data (prefix_map (render_item py) l) = firstn k l.
Proof.
  induction l as [|g l [k IH]]; [exists 0%nat; reflexivity|]. simpl.
  destruct (render_item py g) as [it|] eqn:E; [|exists 0%nat; reflexivity].
  exists (S k). simpl. rewrite (render_item_keeps_record g it E), IH. reflexivity.
Qed.

Lemma prefix_map_Forall {A B} (f : A -> option B) (P : B -> Prop) (l : list A) :
  (forall x y, f x = Some y -> P y) -> Forall P (prefix_map f l).
Proof.
  intros H. induction l as [|x l IH]; simpl; [constructor|].
  destruct (f x) as [y|] eqn:E; constructor; [apply (H x y E)|exact IH].
Qed.

Lemma data_sorted_group_records (l r : list value) :
  sorted_by_start_date l = Some r -> data_sorted l = r.
Proof. intros E. unfold data_sorted. rewrite E. reflexivity. Qed.

(** C1: after a successful groups fetch whose payload is a list of group
    records, the records shown in the group list are in non-decreasing order
    of [ascent_start_date] compared as strings, an absent or null date
    counting as the empty string; any two shown records are in that order,
    not only neighbours; when the handler returns the list shows exactly the
    fetched records, and it does return, showing them all, when every record
    can be shown (a title that is a string, a description that is a string
    or falsy, a record the binding can store). *)
Theorem groups_rendered_in_start_date_order
  (w : World) (reply : QNetworkReply) (l : list value) :
  error reply = None ->
  parse_reply_json py reply = PyList l ->
  Forall group_record l ->
  let out := _on_groups py reply w in
  Sorted date_le (rendered_groups (world out))
  /\ StronglySorted date_le (rendered_groups (world out))
  /\ (status out = Returned tt -> Permutation l (rendered_groups (world out)))
  /\ (Forall (displayable py) l ->
      status out = Returned tt /\ Permutation l (rendered_groups (world out))).
Proof.
  intros Herr Hdata Hl. cbv zeta.
  destruct (sorted_group_records l Hl) as [r [Er [Hp Hs]]].
  rewrite (_on_groups_list reply l w Herr Hdata), (data_sorted_group_records l r Er).
  cbn [world status]. unfold rendered_groups. cbn [page_mountains with_page groups_list
    set_groups_list].
  assert (Hreturned : loop_status (render_item py) r = Returned tt ->
                      Permutation l (map item_data (prefix_map (render_item py) r))).
  { unfold loop_status. destruct (all_some (render_item py) r) eqn:Hall; [|discriminate].
    intros _. rewrite (prefix_map_all_data r Hall). exact Hp. }
  assert (Hsorted : Sorted date_le (map item_data (prefix_map (render_item py) r))).
  { destruct (prefix_map_data_firstn r) as [k ->]. apply Sorted_firstn. exact Hs. }
  split; [exact Hsorted|]. split; [|split].
  - apply Sorted_StronglySorted; [|exact Hsorted].
    intros a b c. apply date_le_trans.
  - exact Hreturned.
  - intros Hshow.
    assert (Hall : all_some (render_item py) r = true).
    { apply displayable_all_some. apply (Permutation_Forall Hp). exact Hshow. }
    assert (Hst : loop_status (render_item py) r = Returned tt).
    { unfold loop_status. rewrite Hall. reflexivity. }
    split; [exact Hst|]. apply Hreturned. exact Hst.
Qed.

(** X2: when every record of a successful groups payload is a group record
    that can be shown (a dict whose date is a string or null, whose title is
    a string, whose description is a string or falsy, and which the binding
    can store), the handler returns without a message and the list shows
    every record exactly once, in the order of the stable sort by date, each
    record as the data of the item drawn for it. *)
Theorem groups_all_shown (w : World) (reply : QNetworkReply) (l : list value) :
  error reply = None ->
  parse_reply_json py reply = PyList l ->
  Forall group_record l ->
  Forall (displayable py) l ->
  let out := _on_groups py reply w in
  status out = Returned tt
  /\ events out = []
  /\ sorted_by_start_date l = Some (rendered_groups (world out))
  /\ Permutation l (rendered_groups (world out))
  /\ Forall (fun it => render_item py (item_data it) = Some it)
            (groups_list (page_mountains (world out))).
Proof.
  intros Herr Hdata Hrec Hl. cbv zeta.
  destruct (sorted_group_records l Hrec) as [r [Er [Hp _]]].
  rewrite (_on_groups_list reply l w Herr Hdata), (data_sorted_group_records l r Er).
  cbn [status events world].
  assert (Hall : all_some (render_item py) r = true).
  { apply displayable_all_some. apply (Permutation_Forall Hp). exact Hl. }
  unfold loop_status. rewrite Hall. unfold rendered_groups.
  cbn [page_mountains with_page groups_list set_groups_list].
  rewrite (prefix_map_all_data _ Hall).
  repeat split; [exact Er|exact Hp|].
  apply prefix_map_Forall. intros g it E.
  rewrite (render_item_keeps_record g it E). exact E.
Qed.

(** X3: after a groups fetch without transport error, every item of the
    group list carries a dict, a title that is not empty and a description
    cut to at most 180 characters. *)
Theorem group_cards_are_bounded (w : World) (reply : QNetworkReply) :
  error reply = None ->
  Forall card_ok (groups_list (page_mountains (world (_on_groups py reply w)))).
Proof.
  intros Herr.
  destruct (parse_reply_json py reply) as [| | | | |l|] eqn:Hdata.
  6: { rewrite (_on_groups_list reply l w Herr Hdata). cbn.
       apply prefix_map_Forall. apply render_item_card_ok. }
  all: rewrite (_on_groups_not_list reply w Herr) by (rewrite Hdata; reflexivity);
    constructor.
Qed.

(** ** Stability of the date order *)

Lemma insert_keyed_stable (s : pystr) (kx : value * value) (l r : list (value * value)) :
  keyed kx -> Forall keyed l ->
  insert_keyed kx l = Some r ->
  filter (fun p => starts_on s (snd p)) r
  = filter (fun p => starts_on s (snd p)) (kx :: l).
Proof.
  intros Hkx. revert r. induction l as [|ky l IH]; intros r Hl E.
  - simpl in E. injection E as <-. reflexivity.
  - inversion Hl as [|? ? Hky Hl']; subst.
    simpl in E. rewrite Hky, Hkx in E. cbn [py_lt] in E.
    destruct (str_ltb (start_date_key (snd ky)) (start_date_key (snd kx))) eqn:Hlt.
    + destruct (insert_keyed kx l) as [r'|] eqn:Er; [|discriminate].
      injection E as <-. simpl. rewrite (IH r' Hl' eq_refl). simpl.
      unfold starts_on.
      destruct (str_eqb (start_date_key (snd ky)) s) eqn:Ey;
        destruct (str_eqb (start_date_key (snd kx)) s) eqn:Ex; try reflexivity.
      apply str_eqb_eq in Ey. apply str_eqb_eq in Ex. rewrite Ey, Ex in Hlt.
      rewrite str_ltb_irrefl in Hlt. discriminate.
    + injection E as <-. reflexivity.
Qed.

Lemma sort_keyed_stable (s : pystr) (l : list (value * value)) :
  Forall keyed l ->
  exists r, sort_keyed l = Some r
            /\ Forall keyed r
            /\ filter (fun p => starts_on s (snd p)) r
               = filter (fun p => starts_on s (snd p)) l.
Proof.
  induction 1 as [|kx l Hkx Hl [r [Er [Hr Hf]]]].
  - exists []. repeat split. constructor.
  - simpl. rewrite Er.
    destruct (sort_keyed_sorted (kx :: l)) as [r' [Er' [Hr' _]]];
      [constructor; assumption|].
    simpl in Er'. rewrite Er in Er'.
    exists r'. repeat split; [exact Er'|exact Hr'|].
    rewrite (insert_keyed_stable s kx r r' Hkx Hr Er'). simpl. rewrite Hf. reflexivity.
Qed.

Lemma filter_map_snd {A B} (p : B -> bool) (l : list (A * B)) :
  filter p (map snd l) = map snd (filter (fun x => p (snd x)) l).
Proof.
  induction l as [|x l IH]; simpl; [reflexivity|].
  destruct (p (snd x)); simpl; rewrite IH; reflexivity.
Qed.

(** X4: on group records the sort is stable: the records that start on a
    given date (or have none) come out in the order the payload had them. *)
Theorem sorted_by_start_date_is_stable (l : list value) (s : pystr) :
  Forall group_record l ->
  exists r, sorted_by_start_date l = Some r
            /\ filter (starts_on s) r = filter (starts_on s) l.
Proof.
  intros Hl. unfold sorted_by_start_date.
  destruct (traverse_sort_key l Hl) as [keys [E [Hk Hsnd]]]. rewrite E.
  destruct (sort_keyed_stable s _ Hk) as [r [Er [_ Hf]]]. rewrite Er.
  exists (map snd r). split; [reflexivity|].
  rewrite filter_map_snd, Hf, <- filter_map_snd, Hsnd. reflexivity.
Qed.

(** ** The list pages as functions of the reply *)

Lemma ClimbersPage_fill (l : list value) (acc : list pystr) (w : World) :
  for_each l (fun c =>
      name <- lift (human_name_from_climber c) ;;
      email <- lift (match c with
                     | PyDict d => Some (dict_get_or d "email" (PyStr []))
                     | _ => None
                     end) ;;
      w0 <- get_world ;;
      set_climbers_list
        (climbers_list w0 ++ [fmt py name ++ lit " " ++ em_dash ++ lit " " ++ fmt py email]))
    (world (set_climbers_list acc w))
  = Out (world (set_climbers_list (acc ++ prefix_map (climber_row py) l) w)) []
        (loop_status (climber_row py) l).
Proof.
  apply (for_each_fill (climber_row py) (fun acc w => world (set_climbers_list acc w))).
  intros c acc0. unfold climber_row.
  destruct c; try reflexivity.
  destruct (human_name_from_climber (PyDict d)); reflexivity.
Qed.

Lemma ClimbersPage_on_fetched_list (r : QNetworkReply) (l : list value) (w : World) :
  error r = None ->
  parse_reply_json py r = PyList l ->
  ClimbersPage_on_fetched py r w
  = Out (world (set_climbers_list (prefix_map (climber_row py) l) w)) []
        (loop_status (climber_row py) l).
Proof.
  intros Herr Hdata. unfold ClimbersPage_on_fetched. rewrite Herr, Hdata.
  unfold bind at 1.
  change (set_climbers_list [] w)
    with (Out (world (set_climbers_list [] w)) [] (Returned tt)).
  cbv iota. rewrite (ClimbersPage_fill l [] w). reflexivity.
Qed.

Lemma GroupsPage_fill (l : list value) (acc : list pystr) (w : World) :
  for_each l (fun g =>
      name <- lift (get g "name") ;;
      leader <- lift (get g "leader_id") ;;
      w0 <- get_world ;;
      set_groups_page_list
        (groups_page_list w0
         ++ [fmt py name ++ lit " " ++ em_dash ++ lit " leader:" ++ fmt py leader]))
    (world (set_groups_page_list acc w))
  = Out (world (set_groups_page_list (acc ++ prefix_map (group_row py) l) w)) []
        (loop_status (group_row py) l).
Proof.
  apply (for_each_fill (group_row py) (fun acc w => world (set_groups_page_list acc w))).
  intros g acc0. destruct g; reflexivity.
Qed.

Lemma GroupsPage_on_fetched_list (r : QNetworkReply) (l : list value) (w : World) :
  error r = None ->
  parse_reply_json py r = PyList l ->
  GroupsPage_on_fetched py r w
  = Out (world (set_groups_page_list (prefix_map (group_row py) l) w)) []
        (loop_status (group_row py) l).
Proof.
  intros Herr Hdata. unfold GroupsPage_on_fetched. rewrite Herr, Hdata.
  unfold bind at 1.
  change (set_groups_page_list [] w)
    with (Out (world (set_groups_page_list [] w)) [] (Returned tt)).
  cbv iota. rewrite (GroupsPage_fill l [] w). reflexivity.
Qed.

Lemma AscentsPage_fill (l : list value) (acc : list pystr) (w : World) :
  for_each l (fun a =>
      mountain <- lift (name_or_nested a "mountain_name" "mountain") ;;
      group <- lift (name_or_nested a "group_name" "group") ;;
      start_date <- lift (get a "start_date") ;;
      end_date <- lift (get a "end_date") ;;
      st <- lift (get a "status") ;;
      w0 <- get_world ;;
      set_ascents_list
        (ascents_list w0
         ++ [fmt py mountain ++ lit " " ++ em_dash ++ lit " " ++ fmt py group
             ++ lit " " ++ em_dash ++ lit " " ++ fmt py start_date ++ lit " -> "
             ++ fmt py end_date ++ lit " " ++ em_dash ++ lit " " ++ fmt py st]))
    (world (set_ascents_list acc w))
  = Out (world (set_ascents_list (acc ++ prefix_map (ascent_row py) l) w)) []
        (loop_status (ascent_row py) l).
Proof.
  apply (for_each_fill (ascent_row py) (fun acc w => world (set_ascents_list acc w))).
  intros a acc0. unfold ascent_row.
  destruct a; try reflexivity.
  destruct (name_or_nested (PyDict d) "mountain_name" "mountain"); [|reflexivity].
  destruct (name_or_nested (PyDict d) "group_name" "group"); reflexivity.
Qed.

Lemma AscentsPage_on_fetched_list (r : QNetworkReply) (l : list value) (w : World) :
  error r = None ->
  parse_reply_json py r = PyList l ->
  AscentsPage_on_fetched py r w
  = Out (world (set_ascents_list (prefix_map (ascent_row py) l) w)) []
        (loop_status (ascent_row py) l).
Proof.
  intros Herr Hdata. unfold AscentsPage_on_fetched. rewrite Herr, Hdata.
  unfold bind at 1.
  change (set_ascents_list [] w)
    with (Out (world (set_ascents_list [] w)) [] (Returned tt)).
  cbv iota. rewrite (AscentsPage_fill l [] w). reflexivity.
Qed.

(** ** The mountain selector as a function of the reply *)

Lemma load_mountain_world (mountain_id : value) (w : World) :
  world (load_mountain py mountain_id w) = w
  /\ status (load_mountain py mountain_id w) = Returned tt
  /\ events (load_mountain py mountain_id w)
     = if truthy mountain_id then mountain_requests py mountain_id else [].
Proof.
  unfold load_mountain. destruct (truthy mountain_id); repeat split.
Qed.

Lemma combo_fill (l : list value) (acc : list (pystr * value)) (w : World) :
  for_each l (fun m =>
      name <- lift (get m "name") ;;
      country <- lift (get m "country") ;;
      mid <- lift (get m "id") ;;
      lift (if qt_variant py mid then Some tt else None) ;;
      modify_combo (combo_addItem (fmt py name ++ lit " (" ++ fmt py country ++ lit ")") mid))
    (set_combo (filled_combo acc 0 true) (title_label w) w)
  = Out (set_combo (filled_combo (acc ++ prefix_map (combo_entry py) l) 0 true)
                   (title_label w) w) []
        (loop_status (combo_entry py) l).
Proof.
  apply (for_each_fill (combo_entry py)
           (fun acc w => set_combo (filled_combo acc 0 true) (title_label w) w)).
  intros m acc0. destruct m as [| | | | | |d]; try reflexivity.
  cbn [get lift combo_entry]. rewrite !bind_ret.
  destruct (qt_variant py (dict_get d "id")); reflexivity.
Qed.

Lemma bind_modify_combo {B} (f : QComboBox -> QComboBox) (k : unit -> M B) (w : World) :
  bind (modify_combo f) k w = k tt (set_combo (f (mountain_combo w)) (title_label w) w).
Proof.
  unfold bind, modify_combo, modify.
  change (k tt _) with (k tt (set_combo (f (mountain_combo w)) (title_label w) w)).
  destruct (k tt _); reflexivity.
Qed.

Lemma bind_set_title_label {B} (v : value) (k : unit -> M B) (w : World) :
  bind (set_title_label v) k w = k tt (set_combo (mountain_combo w) v w).
Proof.
  unfold bind, set_title_label, modify.
  change (k tt _) with (k tt (set_combo (mountain_combo w) v w)).
  destruct (k tt _); reflexivity.
Qed.

(** A computation whose outcome is known, followed by another. *)
Lemma bind_outcome {A B} (m : M A) (k : A -> M B) (w w1 : World) (e1 : list event)
  (r : result A) :
  m w = Out w1 e1 r ->
  bind m k w
  = match r with
    | Returned a => Out (world (k a w1)) (e1 ++ events (k a w1)) (status (k a w1))
    | Raised => Out w1 e1 Raised
    end.
Proof.
  intros E. unfold bind. rewrite E. destruct r; [|reflexivity].
  destruct (k a w1); reflexivity.
Qed.

(** [_on_combo_loaded] from its first line to the end of its loop. *)
Lemma _on_combo_loaded_loop (reply : QNetworkReply) (w : World) (k : unit -> M unit) :
  let items := match parse_reply_json py reply with PyList l => l | _ => [] end in
  let filled b := set_combo (filled_combo (prefix_map (combo_entry py) items) 0 b)
                            (title_label w) w in
  (modify_combo (blockSignals true) ;;
   modify_combo combo_clear ;;
   modify_combo (combo_addItem (lit "Select mountain") (PyInt (-1))) ;;
   for_each items (fun m =>
      name <- lift (get m "name") ;;
      country <- lift (get m "country") ;;
      mid <- lift (get m "id") ;;
      lift (if qt_variant py mid then Some tt else None) ;;
      modify_combo (combo_addItem (fmt py name ++ lit " (" ++ fmt py country ++ lit ")") mid)) ;;
   modify_combo (blockSignals false) ;;
   k tt) w
  = if all_some (combo_entry py) items then k tt (filled false)
    else Out (filled true) [] Raised.
Proof.
  intros items filled.
  rewrite !bind_modify_combo.
  match goal with
  | |- bind _ _ ?w0 = _ =>
      change w0 with (set_combo (filled_combo [] 0 true) (title_label w) w)
  end.
  rewrite (bind_outcome _ _ _ _ _ _ (combo_fill items [] w)).
  unfold loop_status. cbn [app].
  destruct (all_some (combo_entry py) items); [|reflexivity].
  rewrite bind_modify_combo. cbn [app].
  change (set_combo _ _ _) with (filled false).
  destruct (k tt (filled false)); reflexivity.
Qed.

(** A list with something that is not a record in it: the loop raises, the
    selector keeps the entries added so far and its signals stay blocked. *)
Lemma _on_combo_loaded_raises (reply : QNetworkReply) (l : list value) (w : World) :
  error reply = None ->
  parse_reply_json py reply = PyList l ->
  all_some (combo_entry py) l = false ->
  _on_combo_loaded py reply w
  = Out (set_combo (filled_combo (prefix_map (combo_entry py) l) 0 true) (title_label w) w)
        [] Raised.
Proof.
  intros Herr Hdata Hall. unfold _on_combo_loaded. rewrite Herr.
  rewrite (_on_combo_loaded_loop reply w (fun _ => _)). rewrite Hdata, Hall. reflexivity.
Qed.

(** Nothing to list: the selector keeps its sentinel alone. *)
Lemma _on_combo_loaded_empty (reply : QNetworkReply) (w : World) :
  error reply = None ->
  match parse_reply_json py reply with PyList (_ :: _) => False | _ => True end ->
  _on_combo_loaded py reply w
  = Out (set_combo (filled_combo [] 0 false) (title_label w) w) [] (Returned tt).
Proof.
  intros Herr Hdata. unfold _on_combo_loaded. rewrite Herr.
  rewrite (_on_combo_loaded_loop reply w (fun _ => _)).
  destruct (parse_reply_json py reply) as [| | | | |[|x l]|]; try reflexivity.
  contradiction Hdata.
Qed.

Lemma load_mountain_outcome (mountain_id : value) (w : World) :
  load_mountain py mountain_id w
  = Out w (if truthy mountain_id then mountain_requests py mountain_id else [])
        (Returned tt).
Proof. unfold load_mountain. destruct (truthy mountain_id); reflexivity. Qed.

Lemma on_combo_change_outcome (w : World) :
  on_combo_change py w
  = let mid := currentData (mountain_combo w) in
    if slot_acts mid
    then Out (set_combo (mountain_combo w)
                        (PyStr (strip (before_char 40%N (currentText (mountain_combo w)))))
                        w)
             (if truthy mid then mountain_requests py mid else [])
             (Returned tt)
    else Out w [] (Returned tt).
Proof.
  unfold on_combo_change. rewrite bind_get_world. cbv zeta. unfold slot_acts.
  destruct (currentData (mountain_combo w)) eqn:E; try reflexivity;
    destruct (py_eq _ (PyInt (-1))); try reflexivity;
    rewrite bind_set_title_label, load_mountain_outcome; reflexivity.
Qed.

(** A list of records the selector can hold: all are listed, the first one
    is selected and the slot runs; then the title shows the name of the
    first record and the handler loads its id, or the title refuses the name
    and the handler raises with what the slot did. *)
Lemma _on_combo_loaded_list (reply : QNetworkReply) (d : list (pystr * value))
  (rest : list value) (w : World) :
  error reply = None ->
  parse_reply_json py reply = PyList (PyDict d :: rest) ->
  all_some (combo_entry py) (PyDict d :: rest) = true ->
  _on_combo_loaded py reply w
  = let selected := set_combo (filled_combo (prefix_map (combo_entry py) (PyDict d :: rest))
                                            1 false) (title_label w) w in
    match qstring (py_or (dict_get d "name") (PyStr em_dash)) with
    | Some title =>
        Out (set_combo (mountain_combo selected) (PyStr title) w)
            (first_load_requests py (dict_get d "id"))
            (Returned tt)
    | None =>
        Out (world (on_combo_change py selected)) (events (on_combo_change py selected))
            Raised
    end.
Proof.
  intros Herr Hdata Hall. unfold _on_combo_loaded. rewrite Herr.
  rewrite (_on_combo_loaded_loop reply w (fun _ => _)). rewrite Hdata, Hall.
  cbn [all_some forallb combo_entry] in Hall.
  destruct (qt_variant py (dict_get d "id")) eqn:Hq; [|discriminate Hall].
  cbn [prefix_map combo_entry]. rewrite Hq.
  set (entry := (fmt py (dict_get d "name") ++ lit " (" ++ fmt py (dict_get d "country")
                 ++ lit ")", dict_get d "id")).
  set (entries := prefix_map (combo_entry py) rest).
  assert (Hset : setCurrentIndex py 1
                   (set_combo (filled_combo (entry :: entries) 0 false) (title_label w) w)
                 = on_combo_change py
                     (set_combo (filled_combo (entry :: entries) 1 false) (title_label w) w)).
  { unfold setCurrentIndex. rewrite bind_get_world.
    cbn [mountain_combo set_combo filled_combo combo_items currentIndex signalsBlocked
         List.length].
    assert (Hin : (0 <=? 1) && (1 <? Z.of_nat (S (S (List.length entries)))) = true).
    { apply andb_true_intro. split; [reflexivity|]. apply Z.ltb_lt. lia. }
    rewrite Hin. cbn [Z.eqb]. rewrite bind_modify_combo. reflexivity. }
  cbv zeta.
  destruct (qstring (py_or (dict_get d "name") (PyStr em_dash))) as [title|] eqn:Hname.
  - rewrite on_combo_change_outcome in Hset. cbv zeta in Hset.
    assert (Hcur : currentData (mountain_combo
                      (set_combo (filled_combo (entry :: entries) 1 false) (title_label w) w))
                   = dict_get d "id") by reflexivity.
    rewrite Hcur in Hset. unfold first_load_requests.
    destruct (slot_acts (dict_get d "id"));
      rewrite (bind_outcome _ _ _ _ _ _ Hset);
      cbn [get lift]; rewrite bind_ret, Hname; cbn [lift];
      rewrite bind_ret, bind_set_title_label, bind_ret;
      (destruct (truthy (dict_get d "id")) eqn:Ht;
       [rewrite (load_mountain_truthy py _ _ Ht)|]; reflexivity).
  - match type of Hset with
    | _ = ?slot =>
        assert (Hslot : setCurrentIndex py 1
                          (set_combo (filled_combo (entry :: entries) 0 false)
                                     (title_label w) w)
                        = Out (world slot) (events slot) (status slot))
          by (rewrite Hset; destruct slot; reflexivity)
    end.
    rewrite (bind_outcome _ _ _ _ _ _ Hslot).
    destruct (status (on_combo_change py _)) as [[]|]; [|reflexivity].
    cbn [get lift]. rewrite bind_ret, Hname. cbn [lift]. rewrite bind_raise.
    cbn [world events status]. rewrite app_nil_r. reflexivity.
Qed.

(** ** Every callback as an update of the world *)

Lemma on_refresh_outcome (w : World) :
  on_refresh w
  = Out w [Request GET (qurl (API_PREFIX ++ lit "/mountains/")) None
             (if in_main_window w then Cb_combo_loaded else Cb_refresh_fetched)]
        (Returned tt).
Proof.
  unfold on_refresh. rewrite bind_get_world. destruct (in_main_window w); reflexivity.
Qed.

Lemma _on_refresh_fetched_keeps_world (reply : QNetworkReply) (first : value)
  (rest : list value) (w : World) :
  error reply = None ->
  parse_reply_json py reply = PyList (first :: rest) ->
  world (_on_refresh_fetched py reply w) = w.
Proof.
  intros Herr Hdata. unfold _on_refresh_fetched. rewrite Herr, Hdata, bind_get_world.
  destruct (traverse (fun m => get m "id") (first :: rest)) as [ids|] eqn:E.
  - rewrite bind_lift_some.
    destruct (truthy _ && py_in _ ids).
    + rewrite load_mountain_outcome. reflexivity.
    + simpl in E. destruct (get first "id") as [mid|]; [|discriminate].
      rewrite bind_lift_some. destruct (truthy mid); [|reflexivity].
      rewrite load_mountain_outcome. reflexivity.
  - reflexivity.
Qed.

(** The six callbacks that write no widget. *)
Lemma silent_callbacks_keep_world (cb : callback) (reply : QNetworkReply) (ui : UserInput)
  (w : World) :
  match cb with
  | Cb_added | Cb_updated | Cb_check_groups_before_edit | Cb_members_fetched
  | Cb_prep_add | Cb_group_created => world (handle py cb reply ui w) = w
  | _ => True
  end.
Proof.
  destruct cb; try exact I; cbn [handle].
  - unfold _on_added. destruct (error reply); [reflexivity|].
    rewrite (bind_outcome _ _ _ _ _ _ (eq_refl : emit _ w = _)), on_refresh_outcome.
    reflexivity.
  - unfold _on_check_groups_before_edit. destruct (error reply); [reflexivity|].
    destruct (isinstance_list _ && truthy _); [reflexivity|].
    rewrite bind_get_world.
    destruct (current_mountain (page_mountains w)) as [| | | | | |m]; try reflexivity.
    destruct (qstring (dict_get_or m "name" (PyStr []))); [|reflexivity].
    rewrite bind_lift_some.
    destruct (qt_int py _); [|reflexivity]. rewrite bind_lift_some.
    destruct (qstring (dict_get_or m "country" (PyStr []))); [|reflexivity].
    rewrite bind_lift_some.
    destruct (qstring (dict_get_or m "region" (PyStr []))); [|reflexivity].
    rewrite bind_lift_some.
    destruct (qstring (dict_get_or m "description" (PyStr []))); [|reflexivity].
    rewrite bind_lift_some.
    destruct (mountain_form ui); reflexivity.
  - unfold _on_updated. destruct (error reply); [reflexivity|].
    rewrite (bind_outcome _ _ _ _ _ _ (eq_refl : emit _ w = _)), on_refresh_outcome.
    reflexivity.
  - unfold _on_members_fetched. destruct (error reply); [reflexivity|].
    match goal with
    | |- context [lift ?o] => destruct o; reflexivity
    end.
  - unfold _prep_add. destruct (error reply); [reflexivity|].
    destruct (group_form_selector py _); [|reflexivity].
    rewrite bind_lift_some.
    destruct (group_form ui); [reflexivity|]. cbn.
    destruct (py_eq _ _); reflexivity.
  - unfold _on_group_created. destruct (error reply); reflexivity.
Qed.

Lemma all_some_head_dict (m : value) (rest : list value) :
  all_some (combo_entry py) (m :: rest) = true ->
  exists d, m = PyDict d /\ all_some (combo_entry py) rest = true.
Proof.
  destruct m as [| | | | | |d]; try discriminate. simpl. intros H.
  destruct (qt_variant py (dict_get d "id")); [|discriminate H].
  eexists. split; [reflexivity|exact H].
Qed.

(** The widgets after a callback are [update] of the widgets before. *)
Lemma world_handle (cb : callback) (reply : QNetworkReply) (ui : UserInput) (w : World) :
  world (handle py cb reply ui w) = update py cb reply w.
Proof.
  unfold update.
  destruct (error reply) as [msg|] eqn:Herr.
  { destruct cb;
      try (match goal with
           | |- world (handle py ?c _ _ _) = _ =>
               exact (silent_callbacks_keep_world c reply ui w)
           end);
      cbn [handle];
      unfold _on_mountain_detail, _on_groups, _on_refresh_fetched, ClimbersPage_on_fetched,
        GroupsPage_on_fetched, AscentsPage_on_fetched, StatsPage_on_fetched,
        _on_combo_loaded;
      rewrite Herr; reflexivity. }
  cbv zeta.
  destruct cb;
    try (match goal with
         | |- world (handle py ?c _ _ _) = _ =>
             exact (silent_callbacks_keep_world c reply ui w)
         end);
    cbn [handle].
  - destruct (parse_reply_json py reply) as [| | | | | |d] eqn:Hdata.
    7: { rewrite (_on_mountain_detail_dict py reply d w Herr Hdata). reflexivity. }
    all: unfold _on_mountain_detail; rewrite Herr, Hdata; reflexivity.
  - destruct (parse_reply_json py reply) as [| | | | |l|] eqn:Hdata.
    6: { rewrite (_on_groups_list reply l w Herr Hdata). reflexivity. }
    all: rewrite (_on_groups_not_list reply w Herr) by (rewrite Hdata; reflexivity);
      reflexivity.
  - destruct (parse_reply_json py reply) as [| | | | |[|first rest]|] eqn:Hdata.
    7: { apply (_on_refresh_fetched_keeps_world reply first rest w Herr Hdata). }
    all: unfold _on_refresh_fetched; rewrite Herr, Hdata; reflexivity.
  - destruct (parse_reply_json py reply) as [| | | | |l|] eqn:Hdata.
    6: { rewrite (ClimbersPage_on_fetched_list reply l w Herr Hdata). reflexivity. }
    all: unfold ClimbersPage_on_fetched; rewrite Herr, Hdata; reflexivity.
  - destruct (parse_reply_json py reply) as [| | | | |l|] eqn:Hdata.
    6: { rewrite (GroupsPage_on_fetched_list reply l w Herr Hdata). reflexivity. }
    all: unfold GroupsPage_on_fetched; rewrite Herr, Hdata; reflexivity.
  - destruct (parse_reply_json py reply) as [| | | | |l|] eqn:Hdata.
    6: { rewrite (AscentsPage_on_fetched_list reply l w Herr Hdata). reflexivity. }
    all: unfold AscentsPage_on_fetched; rewrite Herr, Hdata; reflexivity.
  - unfold StatsPage_on_fetched. rewrite Herr.
    destruct (parse_reply_json py reply) as [| | | | |l|]; try reflexivity.
    destruct (traverse (stats_line py) l); reflexivity.
  - destruct (parse_reply_json py reply) as [| | | | |[|m rest]|] eqn:Hdata.
    7: { destruct (all_some (combo_entry py) (m :: rest)) eqn:Hall.
         - destruct (all_some_head_dict m rest Hall) as [d [-> Hrest]].
           rewrite (_on_combo_loaded_list reply d rest w Herr Hdata Hall). cbv zeta.
           destruct (qstring _); reflexivity.
         - rewrite (_on_combo_loaded_raises reply (m :: rest) w Herr Hdata Hall).
           reflexivity. }
    all: rewrite (_on_combo_loaded_empty reply w Herr) by (rewrite Hdata; exact I);
      reflexivity.
Qed.

(** X5: a callback writes only its own widgets, whatever the reply and the
    user's answers: the detail callback the detail half of the Mountains
    page, the groups callback the group list, the standalone refresh the
    Mountains page, each list page its list, the stats page its text box, the
    selector's callback the selector and the title, and the callbacks of the
    edit check, the members list, the group form and the three writes
    nothing at all. *)
Theorem callback_writes_only_its_view
  (cb : callback) (reply : QNetworkReply) (ui : UserInput) (w : World) :
  outside_view cb (world (handle py cb reply ui w)) = outside_view cb w.
Proof.
  rewrite world_handle. unfold update.
  destruct (error reply); [reflexivity|]. cbv zeta.
  destruct cb; try reflexivity.
  - destruct (parse_reply_json py reply) as [| | | | | |d]; try reflexivity.
    unfold show_detail. destruct (qstring _); reflexivity.
  - destruct (match parse_reply_json py reply with PyList l => l | _ => [] end);
      reflexivity.
  - destruct (parse_reply_json py reply) as [| | | | |l|]; try reflexivity.
    destruct (traverse (stats_line py) l); reflexivity.
  - destruct (all_some _ _); [|reflexivity].
    destruct (match parse_reply_json py reply with PyList l => l | _ => [] end)
      as [|[] ?]; try reflexivity.
    destruct (qstring _); [reflexivity|].
    rewrite on_combo_change_outcome. cbv zeta. destruct (slot_acts _); reflexivity.
Qed.

(** X6: delivering the same reply to a callback a second time changes no
    widget: what the first delivery wrote is written again. *)
Theorem callback_is_idempotent
  (cb : callback) (reply : QNetworkReply) (ui ui' : UserInput) (w : World) :
  world (handle py cb reply ui' (world (handle py cb reply ui w)))
  = world (handle py cb reply ui w).
Proof.
  rewrite !world_handle. unfold update.
  destruct (error reply); [reflexivity|]. cbv zeta.
  destruct cb; try reflexivity.
  - destruct (parse_reply_json py reply) as [| | | | | |d]; try reflexivity.
    unfold show_detail. destruct (qstring _); reflexivity.
  - destruct (match parse_reply_json py reply with PyList l => l | _ => [] end);
      reflexivity.
  - destruct (parse_reply_json py reply) as [| | | | |l|]; try reflexivity.
    destruct (traverse (stats_line py) l); reflexivity.
  - destruct (all_some _ _); [|reflexivity].
    destruct (match parse_reply_json py reply with PyList l => l | _ => [] end)
      as [|[] ?]; try reflexivity.
    destruct (qstring _); [reflexivity|].
    rewrite !on_combo_change_outcome. cbv zeta.
    cbn [mountain_combo set_combo].
    destruct (slot_acts _) eqn:Hslot; cbn [world mountain_combo set_combo title_label];
      rewrite ?Hslot; reflexivity.
Qed.

(** X7: [current_mountain] only ever holds [None] or a dict: if it does
    before a callback runs, it does afterwards, whatever the payload is. *)
Theorem current_mountain_stays_none_or_dict
  (cb : callback) (reply : QNetworkReply) (ui : UserInput) (w : World) :
  none_or_dict (current_mountain (page_mountains w)) = true ->
  none_or_dict (current_mountain (page_mountains (world (handle py cb reply ui w)))) = true.
Proof.
  intros Hw. rewrite world_handle. unfold update.
  destruct (error reply); [exact Hw|]. cbv zeta.
  destruct cb; try exact Hw.
  - destruct (parse_reply_json py reply) as [| | | | | |d]; try exact Hw.
    unfold show_detail. destruct (qstring _); reflexivity.
  - destruct (match parse_reply_json py reply with PyList l => l | _ => [] end);
      [reflexivity|exact Hw].
  - destruct (parse_reply_json py reply) as [| | | | |l|]; try exact Hw.
    destruct (traverse (stats_line py) l); exact Hw.
  - destruct (all_some _ _); [|exact Hw].
    destruct (match parse_reply_json py reply with PyList l => l | _ => [] end)
      as [|[] ?]; try exact Hw.
    destruct (qstring _); [exact Hw|].
    rewrite on_combo_change_outcome. cbv zeta. destruct (slot_acts _); exact Hw.
Qed.

(** X8: after a fetch without transport error, a list widget shows the
    reply and nothing of what it showed before: two windows that differ only
    in that list are the same window afterwards. *)
Theorem list_is_replaced_wholesale
  (cb : callback) (reply : QNetworkReply) (ui : UserInput) (w w' : World) :
  fills_a_list cb = true ->
  error reply = None ->
  outside_view cb w = outside_view cb w' ->
  world (handle py cb reply ui w) = world (handle py cb reply ui w').
Proof.
  intros Hcb Herr Hout. rewrite !world_handle. unfold update. rewrite Herr. cbv zeta.
  destruct cb; try discriminate Hcb; cbn [outside_view] in Hout.
  - change (with_page (set_groups_list ?l) w)
      with (with_page (set_groups_list l) (with_page (set_groups_list []) w)).
    rewrite Hout. reflexivity.
  - change (world (set_climbers_list ?l w))
      with (world (set_climbers_list l (world (set_climbers_list [] w)))).
    rewrite Hout. reflexivity.
  - change (world (set_groups_page_list ?l w))
      with (world (set_groups_page_list l (world (set_groups_page_list [] w)))).
    rewrite Hout. reflexivity.
  - change (world (set_ascents_list ?l w))
      with (world (set_ascents_list l (world (set_ascents_list [] w)))).
    rewrite Hout. reflexivity.
Qed.

(** ** The stats box *)

Lemma traverse_stats_line (l : list value) :
  (forallb isinstance_dict l = true ->
   exists lines, traverse (stats_line py) l = Some lines
                 /\ List.length lines = List.length l)
  /\ (forallb isinstance_dict l = false -> traverse (stats_line py) l = None).
Proof.
  induction l as [|m l [IHt IHf]]; simpl.
  - split; [intros _; exists []; split; reflexivity|discriminate].
  - destruct m; simpl; try (split; [discriminate|reflexivity]).
    split.
    + intros H. destruct (IHt H) as [lines [E Hlen]]. rewrite E.
      eexists. split; [reflexivity|]. simpl. f_equal. exact Hlen.
    + intros H. rewrite (IHf H). reflexivity.
Qed.

(** X9: the stats box is written in one piece or not at all: when every
    element of the list is a record the handler returns and the box holds one
    line per record; when some element is not, the handler raises and the
    box keeps what it showed (no partial text). *)
Theorem stats_text_is_all_or_nothing (r : QNetworkReply) (l : list value) (w : World) :
  error r = None ->
  parse_reply_json py r = PyList l ->
  (forallb isinstance_dict l = true ->
   exists lines,
     List.length lines = List.length l
     /\ StatsPage_on_fetched py r w
        = Out (world (set_stats_text (join [10%N] lines) w)) [] (Returned tt))
  /\ (forallb isinstance_dict l = false ->
      StatsPage_on_fetched py r w = Out w [] Raised).
Proof.
  intros Herr Hdata. unfold StatsPage_on_fetched. rewrite Herr, Hdata.
  destruct (traverse_stats_line l) as [Ht Hf]. split; intros H.
  - destruct (Ht H) as [lines [E Hlen]]. exists lines. rewrite E. split; [exact Hlen|].
    reflexivity.
  - rewrite (Hf H). reflexivity.
Qed.

(** ** The mountain selector *)


Lemma all_some_combo_entry_bad (l : list value) :
  forallb isinstance_dict l = false -> all_some (combo_entry py) l = false.
Proof.
  induction l as [|m l IH]; simpl; [discriminate|].
  destruct m as [| | | | | |d]; try reflexivity. simpl. intros H.
  rewrite (IH H). apply andb_false_r.
Qed.


(** X11: when the list of a successful selector fetch holds something that
    is not a record, the handler raises inside its loop with the signals of
    the selector still blocked: the entries added so far stay, the title is
    not touched, nothing is requested, and from then on changing the
    selection no longer calls the slot. *)
Theorem selector_stays_blocked_after_bad_record
  (reply : QNetworkReply) (l : list value) (w : World) :
  error reply = None ->
  parse_reply_json py reply = PyList l ->
  forallb isinstance_dict l = false ->
  let out := _on_combo_loaded py reply w in
  status out = Raised
  /\ events out = []
  /\ signalsBlocked (mountain_combo (world out)) = true
  /\ title_label (world out) = title_label w
  /\ (forall i, events (setCurrentIndex py i (world out)) = []
                /\ title_label (world (setCurrentIndex py i (world out))) = title_label w).
Proof.
  intros Herr Hdata Hbad. cbv zeta.
  apply all_some_combo_entry_bad in Hbad.
  rewrite (_on_combo_loaded_raises reply l w Herr Hdata Hbad).
  cbn [status events world]. repeat split.
  all: unfold setCurrentIndex; rewrite bind_get_world;
    cbn [mountain_combo set_combo filled_combo currentIndex signalsBlocked];
    match goal with
    | |- context [if ?c =? 0 then _ else _] => destruct (c =? 0); [reflexivity|]
    end;
    rewrite bind_modify_combo; reflexivity.
Qed.

(** ** Payloads of the wrong shape on a standalone refresh *)

(** X12: on a successful standalone refresh, a payload that is not a list
    resets the page like an empty list, and a list holding something that is
    not a record raises before anything is touched or requested. *)
Theorem refresh_on_payloads_of_the_wrong_shape
  (reply : QNetworkReply) (w : World) :
  error reply = None ->
  (isinstance_list (parse_reply_json py reply) = false ->
   _on_refresh_fetched py reply w
   = Out (with_page (fun _ => blank_page) w) [] (Returned tt))
  /\ (forall l, parse_reply_json py reply = PyList l ->
                forallb isinstance_dict l = false ->
                _on_refresh_fetched py reply w = Out w [] Raised).
Proof.
  intros Herr. unfold _on_refresh_fetched. rewrite Herr. split.
  - intros Hl. destruct (parse_reply_json py reply); try discriminate Hl; reflexivity.
  - intros l Hdata Hbad. rewrite Hdata.
    destruct l as [|first rest]; [discriminate Hbad|].
    rewrite bind_get_world.
    assert (E : traverse (fun m => get m "id") (first :: rest) = None).
    { clear Hdata. revert Hbad. generalize (first :: rest). intros l0.
      induction l0 as [|m l0 IH]; simpl; [discriminate|].
      destruct m; simpl; try reflexivity.
      intros H. rewrite (IH H). reflexivity. }
    rewrite E. reflexivity.
Qed.

(** ** What the group form may send *)

(** [_prep_add] once the reply carries no transport error. *)
Lemma _prep_add_outcome (r : QNetworkReply) (ui : UserInput) (w : World) :
  error r = None ->
  _prep_add py r ui w
  = match group_form_selector py (py_or (parse_reply_json py r) (PyList [])) with
    | None => Out w [] Raised
    | Some mc =>
        Out w
          (Exec (AddGroupDialog mc)
           :: match group_form ui with
              | Rejected => []
              | Accepted f =>
                  let mid := itemData mc (gform_mountain f) in
                  if py_eq mid (PyInt (-1))
                  then [Information (lit "Info") (lit "Select mountain")]
                  else [Request POST (qurl (API_PREFIX ++ lit "/groups/"))
                                (Some (group_payload f mid)) Cb_group_created]
              end)
          (Returned tt)
    end.
Proof.
  intros Herr. unfold _prep_add. rewrite Herr.
  destruct (group_form_selector py _) as [mc|]; [|reflexivity].
  rewrite bind_lift_some. destruct (group_form ui) as [|f]; [reflexivity|].
  cbn. destruct (py_eq _ _); reflexivity.
Qed.

(** X13: whatever the reply and the user's answers, the group form sends at
    most one POST, only when the form was accepted, always to [/groups/], and
    the [mountain_id] it carries is the data of the selected entry and never
    equals the sentinel [-1]. *)
Theorem group_post_never_carries_the_sentinel
  (r : QNetworkReply) (ui : UserInput) (w : World) :
  (List.length (filter is_post (events (_prep_add py r ui w))) <= 1)%nat
  /\ forall m url payload cb,
       In (Request m url payload cb) (events (_prep_add py r ui w)) ->
       exists f mc,
         group_form ui = Accepted f
         /\ group_form_selector py (py_or (parse_reply_json py r) (PyList [])) = Some mc
         /\ py_eq (itemData mc (gform_mountain f)) (PyInt (-1)) = false
         /\ m = POST
         /\ url = qurl (API_PREFIX ++ lit "/groups/")
         /\ payload = Some (group_payload f (itemData mc (gform_mountain f)))
         /\ cb = Cb_group_created.
Proof.
  destruct (error r) as [msg|] eqn:Herr.
  { unfold _prep_add. rewrite Herr. cbn. split; [lia|].
    intros m url payload cb [H|[]]. discriminate H. }
  rewrite (_prep_add_outcome r ui w Herr).
  destruct (group_form_selector py _) as [mc|]; [|cbn; split; [lia|intros ? ? ? ? []]].
  destruct (group_form ui) as [|f].
  { cbn. split; [lia|]. intros m url payload cb [H|[]]. discriminate H. }
  cbv zeta. destruct (py_eq (itemData mc (gform_mountain f)) (PyInt (-1))) eqn:Hsel.
  - cbn. split; [lia|]. intros m url payload cb [H|[H|[]]]; discriminate H.
  - cbn. split; [lia|]. intros m url payload cb [H|[H|[]]]; [discriminate H|].
    injection H as <- <- <- <-. exists f, mc. repeat split. exact Hsel.
Qed.



(** ** When the edit check sends a PUT *)

Lemma edit_fields_dec (m : list (pystr * value)) :
  (exists name height country region description,
      edit_fields py m name height country region description)
  \/ (forall name height country region description,
         ~ edit_fields py m name height country region description).
Proof.
  unfold edit_fields.
  destruct (qstring (dict_get_or m "name" (PyStr []))) as [n|];
    [|right; intros ? ? ? ? ? (H & _); discriminate H].
  destruct (qt_int py (py_or (dict_get m "height") (PyInt 0))) as [h|];
    [|right; intros ? ? ? ? ? (_ & H & _); discriminate H].
  destruct (qstring (dict_get_or m "country" (PyStr []))) as [c|];
    [|right; intros ? ? ? ? ? (_ & _ & H & _); discriminate H].
  destruct (qstring (dict_get_or m "region" (PyStr []))) as [r|];
    [|right; intros ? ? ? ? ? (_ & _ & _ & H & _); discriminate H].
  destruct (qstring (dict_get_or m "description" (PyStr []))) as [d|];
    [|right; intros ? ? ? ? ? (_ & _ & _ & _ & H); discriminate H].
  left. exists n, h, c, r, d. repeat split.
Qed.

(** X15: the edit check sends a PUT exactly when the reply carries no
    transport error, its payload is not a non-empty list, a record is
    selected whose fields the widgets of the form take, and the user
    accepted the dialog; the handler sends at most one request, and every
    request it sends is the PUT to the selected mountain with the five
    fields of the form. *)
Theorem put_is_sent_exactly_when_edit_is_accepted
  (reply : QNetworkReply) (ui : UserInput) (w : World) :
  let out := _on_check_groups_before_edit py reply ui w in
  ((exists url payload cb, In (Request PUT url payload cb) (events out))
   <-> (error reply = None
        /\ isinstance_list (parse_reply_json py reply) && truthy (parse_reply_json py reply)
           = false
        /\ (exists m name height country region description,
               current_mountain (page_mountains w) = PyDict m
               /\ edit_fields py m name height country region description)
        /\ exists f, mountain_form ui = Accepted f))
  /\ (forall m f e,
        current_mountain (page_mountains w) = PyDict m ->
        mountain_form ui = Accepted f ->
        In e (events out) -> is_request e = true ->
        e = Request PUT (qurl (API_PREFIX ++ lit "/mountains/" ++ fmt py (dict_get m "id")))
                    (Some (PyDict [(lit "name", PyStr (form_name f));
                                   (lit "height", PyInt (form_height f));
                                   (lit "country", PyStr (form_country f));
                                   (lit "region", PyStr (form_region f));
                                   (lit "description", PyStr (form_description f))]))
                    Cb_updated)
  /\ (forall e, In e (events out) -> is_request e = true ->
                exists m f, current_mountain (page_mountains w) = PyDict m
                            /\ mountain_form ui = Accepted f)
  /\ (List.length (filter is_request (events out)) <= 1)%nat.
Proof.
  cbv zeta.
  destruct (error reply) as [msg|] eqn:Herr.
  { unfold _on_check_groups_before_edit. rewrite Herr. cbn. split; [split|split; [|split]].
    - intros [url [payload [cb [H|[]]]]]. discriminate H.
    - intros [H _]. discriminate H.
    - intros m f e _ _ [<-|[]] H. discriminate H.
    - intros e [<-|[]] H. discriminate H.
    - lia. }
  destruct (isinstance_list (parse_reply_json py reply)
            && truthy (parse_reply_json py reply)) eqn:Hguard.
  { unfold _on_check_groups_before_edit. rewrite Herr, Hguard. cbn. split; [split|split; [|split]].
    - intros [url [payload [cb [H|[]]]]]. discriminate H.
    - intros [_ [H _]]. discriminate H.
    - intros m f e _ _ [<-|[]] H. discriminate H.
    - intros e [<-|[]] H. discriminate H.
    - lia. }
  assert (Hraise : forall m, (forall n h c r d, ~ edit_fields py m n h c r d) ->
                   current_mountain (page_mountains w) = PyDict m ->
                   _on_check_groups_before_edit py reply ui w = Out w [] Raised).
  { intros m Hno Hcur. apply (edit_check_raises py w reply ui m Herr Hguard Hcur Hno). }
  destruct (current_mountain (page_mountains w)) as [| | | | | |m] eqn:Hcur.
  7: { destruct (edit_fields_dec m) as [(n & h & c & r & d & Hf) | Hno].
       - rewrite (edit_check_opens py w reply ui m n h c r d Herr Hguard Hcur Hf).
         cbn [events]. destruct (mountain_form ui) as [|f] eqn:Hform.
         + split; [split|split; [|split]].
           * intros [url [payload [cb [H|[]]]]]. discriminate H.
           * intros (_ & _ & _ & f0 & H). discriminate H.
           * intros m0 f0 e _ H. discriminate H.
           * intros e [<-|[]] H. discriminate H.
           * cbn. lia.
         + split; [split|split; [|split]].
           * intros _. split; [reflexivity|]. split; [reflexivity|]. split.
             -- exists m, n, h, c, r, d. split; [reflexivity|exact Hf].
             -- exists f. reflexivity.
           * intros _. eexists _, _, _. right. left. reflexivity.
           * intros m0 f0 e Hm Hf0 [<-|[<-|[]]] H; [discriminate H|].
             injection Hm as <-. injection Hf0 as <-. reflexivity.
           * intros e _ _. exists m, f. split; reflexivity.
           * cbn. lia.
       - rewrite (Hraise m Hno eq_refl). cbn. split; [split|split; [|split]].
         + intros [url [payload [cb []]]].
         + intros (_ & _ & (m0 & n & h & c & r & d & Hm & Hf) & _).
           injection Hm as <-. destruct (Hno n h c r d Hf).
         + intros m0 f e _ _ [].
         + intros e [].
         + lia. }
  all: assert (E : _on_check_groups_before_edit py reply ui w = Out w [] Raised)
    by (unfold _on_check_groups_before_edit;
        rewrite Herr, Hguard, bind_get_world, Hcur; reflexivity);
    rewrite E; cbn; (split; [split|split; [|split]]);
    [intros [url [payload [cb []]]]
    |intros (_ & _ & (m0 & n & h & c & r & d & Hm & _) & _); discriminate Hm
    |intros m0 f0 e0 _ _ []
    |intros e0 []
    |lia].
Qed.

(** ** After a write *)

(** X16: after a mountain was created or updated the page shows one success
    message and fetches the mountain list again, through the main window's
    selector when it lives in one and on its own otherwise; after a failed
    create or update it shows one warning and fetches nothing. *)
Theorem mountain_write_refreshes_only_on_success
  (cb : callback) (reply : QNetworkReply) (ui : UserInput) (w : World) :
  cb = Cb_added \/ cb = Cb_updated ->
  match error reply with
  | None =>
      exists text,
        handle py cb reply ui w
        = Out w [Information (lit "Success") text;
                 Request GET (qurl (API_PREFIX ++ lit "/mountains/")) None
                   (if in_main_window w then Cb_combo_loaded else Cb_refresh_fetched)]
              (Returned tt)
  | Some msg =>
      exists text, handle py cb reply ui w = Out w [Warning (lit "Error") text] (Returned tt)
  end.
Proof.
  intros [-> | ->]; cbn [handle]; unfold _on_added, _on_updated;
    destruct (error reply); try (eexists; reflexivity);
    rewrite (bind_outcome _ _ _ _ _ _ (eq_refl : emit _ w = _)), on_refresh_outcome;
    eexists; reflexivity.
Qed.

(** X17: when the POST of a new group completes, the Groups list is fetched
    again whether the creation succeeded or failed, after exactly one message
    (a success message or the transport's error text). *)
Theorem group_write_always_refreshes (rr : QNetworkReply) (w : World) :
  exists notice,
    _on_group_created rr w
    = Out w [notice; Request GET (qurl (API_PREFIX ++ lit "/groups/")) None Cb_groups_fetched]
          (Returned tt)
    /\ notice = match error rr with
                | None => Information (lit "Success") (lit "Group created")
                | Some msg => Warning (lit "Error") msg
                end.
Proof.
  unfold _on_group_created. destruct (error rr); eexists; split; reflexivity.
Qed.

(** ** The members dialog *)

(** X18: the members fetch accepts both shapes of payload: a list of
    climbers, and a dict whose [members] entry is that list, open the same
    dialog. *)
Theorem members_dialog_accepts_both_shapes
  (bare wrapped : QNetworkReply) (l : list value) (d : list (pystr * value)) (w : World) :
  error bare = None -> error wrapped = None ->
  parse_reply_json py bare = PyList l ->
  parse_reply_json py wrapped = PyDict d ->
  lookup (lit "members") d = Some (PyList l) ->
  _on_members_fetched py wrapped w = _on_members_fetched py bare w.
Proof.
  intros Hb Hw Hl Hd Hm. unfold _on_members_fetched.
  rewrite Hb, Hw, Hl, Hd, Hm. reflexivity.
Qed.

(** ** From a card to its dialog *)

Lemma prefix_map_In {A B} (f : A -> option B) (l : list A) (y : B) :
  In y (prefix_map f l) -> exists x, In x l /\ f x = Some y.
Proof.
  induction l as [|a l IH]; simpl; [intros []|].
  destruct (f a) as [b|] eqn:E; [|intros []].
  intros [<- | H].
  - exists a. split; [left; reflexivity|exact E].
  - destruct (IH H) as [x [Hx Hf]]. exists x. split; [right; exact Hx|exact Hf].
Qed.

Lemma on_view_members_outcome (d : list (pystr * value)) (w : World) :
  let gid := py_or (dict_get d "group_id") (dict_get d "id") in
  on_view_members py (PyDict d) w
  = Out w [if truthy gid
           then Request GET
                  (qurl (API_PREFIX ++ lit "/groups/" ++ fmt py gid ++ lit "/members"))
                  None Cb_members_fetched
           else Information (lit "Info") (lit "Group id not available")]
        (Returned tt).
Proof.
  cbv zeta. unfold on_view_members. cbn [get lift]. rewrite !bind_ret.
  destruct (truthy _); reflexivity.
Qed.

(** The items of the group list are the items of records. *)
Lemma listed_item_rendered (reply : QNetworkReply) (w : World) (it : GroupItem) :
  error reply = None ->
  In it (groups_list (page_mountains (world (_on_groups py reply w)))) ->
  exists d, render_item py (PyDict d) = Some it.
Proof.
  intros Herr Hin.
  destruct (parse_reply_json py reply) as [| | | | |l|] eqn:Hdata.
  6: { rewrite (_on_groups_list reply l w Herr Hdata) in Hin. cbn in Hin.
       destruct (prefix_map_In _ _ _ Hin) as [g [_ Hg]].
       destruct g as [| | | | | |d]; try discriminate Hg. exists d. exact Hg. }
  all: rewrite (_on_groups_not_list reply w Herr) in Hin
         by (rewrite Hdata; reflexivity);
    destruct Hin.
Qed.

(** X19: clicking an item the groups callback put in the list opens its
    dialog exactly when the description of its record is a string, null or
    absent: a description that is falsy but none of these (0, false, an
    empty list) was drawn on the card as the empty string, but the text box
    of the dialog refuses it and the click raises.  When the dialog opens it
    is on the item's record, with the title of its card and that
    description, and its "View members" button either fetches the members
    of the record's [group_id] (its [id] when that is missing) or, when the
    record has neither, says so. *)
Theorem rendered_group_opens_its_dialog
  (reply : QNetworkReply) (w w' : World) (it : GroupItem) :
  error reply = None ->
  In it (groups_list (page_mountains (world (_on_groups py reply w)))) ->
  exists d,
    item_data it = PyDict d
    /\ (on_group_click py it <> None
        <-> exists text, qstring (dict_get_or d "description" (PyStr [])) = Some text)
    /\ forall dlg,
         on_group_click py it = Some dlg ->
         dialog_group dlg = PyDict d
         /\ dialog_title dlg = card_title (item_widget it)
         /\ (exists text, qstring (dict_get_or d "description" (PyStr [])) = Some text
                          /\ dialog_desc dlg = PyStr text)
         /\ on_view_members py (dialog_group dlg) w'
            = Out w' [let gid := py_or (dict_get d "group_id") (dict_get d "id") in
                      if truthy gid
                      then Request GET
                             (qurl (API_PREFIX ++ lit "/groups/" ++ fmt py gid
                                    ++ lit "/members"))
                             None Cb_members_fetched
                      else Information (lit "Info") (lit "Group id not available")]
                  (Returned tt).
Proof.
  intros Herr Hin.
  destruct (listed_item_rendered reply w it Herr Hin) as [d Hg].
  destruct (render_item_inv d it Hg) as (t & s & Ht & _ & _ & Hdata & Htitle & _).
  exists d. split; [exact Hdata|].
  unfold on_group_click, GroupDialog. rewrite Hdata.
  assert (Hself : py_or (PyDict d) (PyDict []) = PyDict d) by (destruct d; reflexivity).
  rewrite Hself. fold (group_title d). rewrite Ht. cbn [qstring].
  destruct (qstring (dict_get_or d "description" (PyStr []))) as [text|].
  - split.
    + split; [intros _; exists text; reflexivity|discriminate].
    + intros dlg E. injection E as <-. cbn [dialog_group dialog_title dialog_desc].
      split; [reflexivity|]. split; [symmetry; exact Htitle|].
      split; [exists text; split; reflexivity|]. apply on_view_members_outcome.
  - split.
    + split; [intros H; contradiction H; reflexivity|intros [text H]; discriminate H].
    + intros dlg E. discriminate E.
Qed.

(** ** The display name *)

(** X20: the display name is never blank: whenever the function returns, the
    result is truthy.  It raises exactly when the argument is not a dict or
    one of the three name fields holds a truthy value that is not a string. *)
Theorem human_name_is_never_blank_and_raises_on_bad_parts (c : value) :
  (forall v, human_name_from_climber c = Some v -> truthy v = true)
  /\ (human_name_from_climber c = None
      <-> match c with
          | PyDict d => ~ (joinable (dict_get d "first_name")
                           /\ joinable (dict_get d "middle_name")
                           /\ joinable (dict_get d "last_name"))
          | _ => True
          end).
Proof.
  split.
  - intros v. unfold human_name_from_climber. destruct c; try discriminate.
    destruct (traverse _ _); [|discriminate].
    intros E. injection E as <-. apply truthy_py_or_r. reflexivity.
  - destruct c as [| | | | | |d]; try (split; [intros _; exact I|reflexivity]).
    assert (Hj : forall v, joinable v \/ (truthy v = true /\ as_str v = None
                                           /\ py_or v (PyStr []) = v)).
    { intros v. destruct v as [| b | z | f | s | l | kv]; cbn.
      - left. right. reflexivity.
      - destruct b; [right; repeat split|left; right; reflexivity].
      - destruct (z =? 0) eqn:E; [left; right; cbn; rewrite E; reflexivity|].
        right. unfold py_or. cbn. rewrite E. repeat split.
      - destruct (PrimFloat.eqb f 0) eqn:E; [left; right; cbn; rewrite E; reflexivity|].
        right. unfold py_or. cbn. rewrite E. repeat split.
      - left. left. eexists. reflexivity.
      - destruct l; [left; right; reflexivity|right; repeat split].
      - destruct kv; [left; right; reflexivity|right; repeat split]. }
    split.
    + intros Hnone [H1 [H2 H3]].
      rewrite (human_name_from_name_parts d H1 H2 H3) in Hnone. discriminate Hnone.
    + intros Hbad. unfold human_name_from_climber.
      destruct (Hj (dict_get d "first_name")) as [H1 | [T1 [S1 O1]]].
      2: { rewrite O1. cbn [filter]. rewrite T1. cbn [traverse]. rewrite S1. reflexivity. }
      destruct (Hj (dict_get d "middle_name")) as [H2 | [T2 [S2 O2]]].
      2: { rewrite O2, (py_or_joinable _ H1). cbn [filter truthy]. rewrite T2.
           destruct (str_or_empty _); cbn [traverse as_str]; rewrite S2; reflexivity. }
      destruct (Hj (dict_get d "last_name")) as [H3 | [T3 [S3 O3]]].
      2: { rewrite O3, (py_or_joinable _ H1), (py_or_joinable _ H2). cbn [filter truthy].
           rewrite T3.
           destruct (str_or_empty (dict_get d "first_name")),
                    (str_or_empty (dict_get d "middle_name"));
             cbn [traverse as_str]; rewrite S3; reflexivity. }
      exfalso. apply Hbad. repeat split; assumption.
Qed.

(** ** The title after a selection *)

Lemma before_char_no_paren (name rest : pystr) :
  no_paren name = true ->
  before_char 40%N (name ++ 40%N :: rest) = name.
Proof.
  induction name as [|c name IH]; simpl; [reflexivity|].
  intros H. apply andb_prop in H. destruct H as [Hc Hn].
  destruct (N.eqb c 40); [discriminate Hc|]. f_equal. apply IH. exact Hn.
Qed.

Lemma lstrip_length (s : pystr) : (List.length (lstrip s) <= List.length s)%nat.
Proof.
  induction s as [|c s IH]; simpl; [lia|].
  destruct (is_whitespace c); simpl; lia.
Qed.

Lemma strip_trailing_space (name : pystr) :
  lstrip name = name -> rstrip name = name -> strip (name ++ [32%N]) = name.
Proof.
  intros Hl Hr. unfold strip.
  assert (E : lstrip (name ++ [32%N]) = name ++ [32%N] \/ name = []).
  { destruct name as [|c name]; [right; reflexivity|left].
    simpl in Hl |- *. destruct (is_whitespace c); [|reflexivity].
    exfalso. pose proof (lstrip_length name) as H. rewrite Hl in H. simpl in H. lia. }
  destruct E as [E | ->]; [|reflexivity].
  rewrite E. unfold rstrip. rewrite rev_app_distr. simpl.
  exact Hr.
Qed.

(** X21: selecting the entry of a mountain shows the mountain's name in the
    title, provided the name is a string without ['('] and without
    whitespace at its ends; the slot reads the name back from the entry's
    text, up to the first ['(']. *)
Theorem selection_shows_the_mountain_name
  (w : World) (n : nat) (d : list (pystr * value)) (name : pystr) (entry : pystr * value) :
  currentIndex (mountain_combo w) = Z.of_nat n ->
  nth_error (combo_items (mountain_combo w)) n = Some entry ->
  combo_entry py (PyDict d) = Some entry ->
  dict_get d "name" = PyStr name ->
  no_paren name = true -> lstrip name = name -> rstrip name = name ->
  slot_acts (dict_get d "id") = true ->
  let out := on_combo_change py w in
  title_label (world out) = PyStr name
  /\ events out
     = (if truthy (dict_get d "id") then mountain_requests py (dict_get d "id") else []).
Proof.
  intros Hidx Hnth Hentry Hname Hp Hl Hr Hacts. cbv zeta.
  cbn [combo_entry] in Hentry.
  destruct (qt_variant py (dict_get d "id")); [|discriminate Hentry].
  rewrite on_combo_change_outcome. cbv zeta.
  assert (Hdata : currentData (mountain_combo w) = dict_get d "id").
  { unfold currentData, itemData. rewrite Hidx.
    destruct (Z.ltb_spec (Z.of_nat n) 0) as [H|_]; [lia|].
    rewrite Nat2Z.id, Hnth. cbn in Hentry. injection Hentry as <-. reflexivity. }
  assert (Htext : currentText (mountain_combo w)
                  = name ++ lit " (" ++ fmt py (dict_get d "country") ++ lit ")").
  { unfold currentText. rewrite Hidx.
    destruct (Z.ltb_spec (Z.of_nat n) 0) as [H|_]; [lia|].
    rewrite Nat2Z.id, Hnth. cbn in Hentry. injection Hentry as <-.
    rewrite Hname. reflexivity. }
  rewrite Hdata, Hacts, Htext. cbn [world events title_label set_combo].
  split; [|reflexivity]. f_equal.
  change (name ++ lit " (" ++ fmt py (dict_get d "country") ++ lit ")")
    with (name ++ 32%N :: 40%N :: fmt py (dict_get d "country") ++ lit ")").
  replace (name ++ 32%N :: 40%N :: fmt py (dict_get d "country") ++ lit ")")
    with ((name ++ [32%N]) ++ 40%N :: fmt py (dict_get d "country") ++ lit ")")
    by (rewrite <- app_assoc; reflexivity).
  rewrite before_char_no_paren.
  - apply strip_trailing_space; assumption.
  - unfold no_paren. rewrite forallb_app. fold (no_paren name). rewrite Hp. reflexivity.
Qed.

(** ** The navigation shell *)

Lemma mapping_get_range (key : pystr) : 0 <= mapping_get key mapping 0 <= 4.
Proof.
  unfold mapping. cbn [mapping_get].
  repeat match goal with
         | |- context [if ?c then _ else _] => destruct c
         end; lia.
Qed.

(** X22: [switch] shows exactly one page, one of the five; it highlights the
    nav button whose key is the argument and no other, so none when the key
    names no page, in which case the Mountains page is shown; and it starts a
    fetch only when the page shown has a [refresh] method, which the
    Mountains and the Ascents page have not. *)
Theorem switch_shows_one_page (key : pystr) (sh : Shell) (w : World) :
  let sh' := fst (switch key sh) in
  let refresh := snd (switch key sh) in
  0 <= stack_index sh' <= 4
  /\ (forallb (fun m => negb (str_eqb key (fst m))) mapping = true -> stack_index sh' = 0)
  /\ map fst (nav_buttons sh') = map fst (nav_buttons sh)
  /\ Forall (fun kb => styleSheet (snd kb)
                       = if str_eqb (fst kb) key then active_style else idle_style)
            (nav_buttons sh')
  /\ refresh w
     = Out w (match currentWidget (stack_index sh') with
              | page_climbers_w =>
                  [Request GET (qurl (API_PREFIX ++ lit "/climbers/")) None
                     Cb_climbers_fetched]
              | page_groups_w =>
                  [Request GET (qurl (API_PREFIX ++ lit "/groups/")) None Cb_groups_fetched]
              | page_stats_w =>
                  [Request GET (qurl (API_PREFIX ++ lit "/mountains/stats")) None
                     Cb_stats_fetched]
              | page_mountains_w | page_ascents_w => []
              end)
           (Returned tt).
Proof.
  cbv zeta. unfold switch. cbn [fst snd stack_index nav_buttons].
  split; [apply mapping_get_range|]. split; [|split; [|split]].
  - unfold mapping. cbn [forallb mapping_get fst].
    intros H.
    repeat match goal with
           | |- context [if str_eqb key ?k then _ else _] =>
               destruct (str_eqb key k); [cbn in H; discriminate H|]
           end.
    reflexivity.
  - rewrite map_map. reflexivity.
  - apply Forall_forall. intros kb Hin. apply in_map_iff in Hin.
    destruct Hin as [kb0 [<- _]]. reflexivity.
  - destruct (currentWidget (mapping_get key mapping 0)); reflexivity.
Qed.

(** X23: toggling the sidebar flips the flag and leaves the shell
    consistent whatever it was: every nav label is visible exactly when the
    sidebar is expanded, and the button shows the sign for the new state; the
    width animation runs from the width of the old state to that of the new
    one, and toggling a consistent shell twice restores its flag, its sign
    and its buttons. *)
Theorem toggle_sidebar_keeps_shell_consistent (sh : Shell) :
  sidebar_expanded (toggle_sidebar sh) = negb (sidebar_expanded sh)
  /\ shell_consistent (toggle_sidebar sh)
  /\ _sidebar_anim (toggle_sidebar sh)
     = Some (sidebar_width (sidebar_expanded sh),
             sidebar_width (sidebar_expanded (toggle_sidebar sh)))
  /\ stack_index (toggle_sidebar sh) = stack_index sh
  /\ (shell_consistent sh ->
      sidebar_expanded (toggle_sidebar (toggle_sidebar sh)) = sidebar_expanded sh
      /\ toggle_btn (toggle_sidebar (toggle_sidebar sh)) = toggle_btn sh
      /\ nav_buttons (toggle_sidebar (toggle_sidebar sh)) = nav_buttons sh).
Proof.
  split; [reflexivity|]. split; [|split; [|split; [reflexivity|]]].
  - unfold shell_consistent, toggle_sidebar. cbn. split.
    + apply Forall_forall. intros kb Hin. apply in_map_iff in Hin.
      destruct Hin as [kb0 [<- _]]. reflexivity.
    + destruct (sidebar_expanded sh); reflexivity.
  - unfold toggle_sidebar, sidebar_width. cbn. destruct (sidebar_expanded sh); reflexivity.
  - intros [Hlabels Hsign]. unfold toggle_sidebar. cbn. repeat split.
    + apply negb_involutive.
    + rewrite Hsign. destruct (sidebar_expanded sh); reflexivity.
    + rewrite map_map. cbn.
      induction (nav_buttons sh) as [|[k b] l IH]; [reflexivity|].
      inversion Hlabels as [|? ? Hb Hl]; subst. simpl. rewrite (IH Hl). f_equal.
      destruct b as [visible style]. unfold set_collapsed. cbn in Hb |- *.
      rewrite negb_involutive, Hb. reflexivity.
Qed.

(** ** How many rows a list shows *)

Lemma prefix_map_length_le {A B} (f : A -> option B) (l : list A) :
  (List.length (prefix_map f l) <= List.length l)%nat.
Proof.
  induction l as [|x l IH]; simpl; [lia|]. destruct (f x); simpl; lia.
Qed.

Lemma prefix_map_full {A B} (f : A -> option B) (l : list A) :
  all_some f l = true <-> List.length (prefix_map f l) = List.length l.
Proof.
  induction l as [|x l IH]; simpl; [split; reflexivity|].
  destruct (f x); simpl.
  - rewrite IH. split; [intros H; f_equal; exact H|intros H; injection H as H; exact H].
  - split; discriminate.
Qed.

Lemma loop_status_returned {A B} (f : A -> option B) (l : list A) :
  loop_status f l = Returned tt <-> all_some f l = true.
Proof.
  unfold loop_status. destruct (all_some f l); split; try reflexivity; discriminate.
Qed.

(** X24: a list callback shows one row per element of the list payload until
    the first element it cannot show: it never shows more rows than the
    payload has elements, it returns exactly when it has shown them all, and
    it emits nothing on the way. *)
Theorem list_shows_rows_until_first_bad_record
  (cb : callback) (reply : QNetworkReply) (ui : UserInput) (l : list value) (w : World) :
  fills_a_list cb = true ->
  error reply = None ->
  parse_reply_json py reply = PyList l ->
  let out := handle py cb reply ui w in
  (rows_shown cb (world out) <= List.length l)%nat
  /\ (status out = Returned tt <-> rows_shown cb (world out) = List.length l)
  /\ events out = [].
Proof.
  intros Hcb Herr Hdata. cbv zeta.
  destruct cb; try discriminate Hcb; cbn [handle].
  - rewrite (_on_groups_list reply l w Herr Hdata). cbn.
    rewrite (Permutation_length (data_sorted_permutation l)).
    repeat split; try apply prefix_map_length_le.
    + intros H. apply prefix_map_full. apply loop_status_returned. exact H.
    + intros H. apply loop_status_returned. apply prefix_map_full. exact H.
  - rewrite (ClimbersPage_on_fetched_list reply l w Herr Hdata). cbn.
    repeat split; try apply prefix_map_length_le.
    + intros H. apply prefix_map_full. apply loop_status_returned. exact H.
    + intros H. apply loop_status_returned. apply prefix_map_full. exact H.
  - rewrite (GroupsPage_on_fetched_list reply l w Herr Hdata). cbn.
    repeat split; try apply prefix_map_length_le.
    + intros H. apply prefix_map_full. apply loop_status_returned. exact H.
    + intros H. apply loop_status_returned. apply prefix_map_full. exact H.
  - rewrite (AscentsPage_on_fetched_list reply l w Herr Hdata). cbn.
    repeat split; try apply prefix_map_length_le.
    + intros H. apply prefix_map_full. apply loop_status_returned. exact H.
    + intros H. apply loop_status_returned. apply prefix_map_full. exact H.
Qed.

(** ** Where requests go *)

Lemma qurl_api (endpoint : pystr) :
  qurl (API_PREFIX ++ endpoint) = BASE_URL ++ API_PREFIX ++ endpoint.
Proof. reflexivity. Qed.

Lemma api_request_qurl (m : method) (endpoint : pystr) (payload : option value)
  (cb : callback) :
  api_request (Request m (qurl (API_PREFIX ++ endpoint)) payload cb).
Proof. exists endpoint. apply qurl_api. Qed.

Lemma mountain_requests_api (mountain_id : value) (b : bool) :
  Forall api_request (if b then mountain_requests py mountain_id else []).
Proof.
  destruct b; [|constructor].
  unfold mountain_requests. repeat constructor; apply api_request_qurl.
Qed.

(** Close a goal about the listed events of a handler. *)
Ltac api_events :=
  cbn [events emit ret raise];
  repeat (first [apply Forall_nil | apply Forall_cons]);
  first [exact I | apply api_request_qurl].

(** X25: every request a callback makes, of any method, goes to the base
    URL followed by the API prefix and an endpoint; so do the requests of
    [load_mountain], of the edit button and of the members button. *)
Theorem every_request_goes_to_the_api
  (cb : callback) (reply : QNetworkReply) (ui : UserInput) (w : World) :
  Forall api_request (events (handle py cb reply ui w))
  /\ (forall mountain_id, Forall api_request (events (load_mountain py mountain_id w)))
  /\ Forall api_request (events (on_edit py w))
  /\ (forall group, Forall api_request (events (on_view_members py group w))).
Proof.
  split; [|split; [|split]].
  - destruct (error reply) as [msg|] eqn:Herr.
    { destruct cb; cbn [handle];
        unfold _on_mountain_detail, _on_groups, _on_refresh_fetched, _on_added,
          _on_check_groups_before_edit, _on_updated, _on_members_fetched,
          ClimbersPage_on_fetched, GroupsPage_on_fetched, _prep_add, _on_group_created,
          AscentsPage_on_fetched, StatsPage_on_fetched, _on_combo_loaded;
        rewrite Herr; api_events. }
    destruct cb; cbn [handle].
    + destruct (parse_reply_json py reply) as [| | | | | |d] eqn:Hdata.
      7: { rewrite (_on_mountain_detail_dict py reply d w Herr Hdata). api_events. }
      all: unfold _on_mountain_detail; rewrite Herr, Hdata; api_events.
    + destruct (parse_reply_json py reply) as [| | | | |l|] eqn:Hdata.
      6: { rewrite (_on_groups_list reply l w Herr Hdata). api_events. }
      all: rewrite (_on_groups_not_list reply w Herr) by (rewrite Hdata; reflexivity);
        api_events.
    + unfold _on_refresh_fetched. rewrite Herr.
      destruct (match parse_reply_json py reply with PyList l => l | _ => [] end)
        as [|first rest]; [api_events|].
      rewrite bind_get_world.
      destruct (traverse _ _) as [ids|]; [|api_events].
      rewrite bind_lift_some. destruct (truthy _ && py_in _ ids).
      * rewrite load_mountain_outcome. apply mountain_requests_api.
      * destruct (get first "id") as [mid|]; [|api_events].
        rewrite bind_lift_some. destruct (truthy mid) eqn:Ht; [|api_events].
        rewrite load_mountain_outcome, Ht. apply (mountain_requests_api mid true).
    + unfold _on_added. rewrite Herr.
      rewrite (bind_outcome _ _ _ _ _ _ (eq_refl : emit _ w = _)), on_refresh_outcome.
      api_events.
    + destruct (isinstance_list (parse_reply_json py reply)
                && truthy (parse_reply_json py reply)) eqn:Hguard.
      { unfold _on_check_groups_before_edit. rewrite Herr, Hguard. api_events. }
      destruct (current_mountain (page_mountains w)) as [| | | | | |m] eqn:Hcur.
      7: { destruct (edit_fields_dec m) as [(n & h & c & r & d & Hf) | Hno].
           - rewrite (edit_check_opens py w reply ui m n h c r d Herr Hguard Hcur Hf).
             destruct (mountain_form ui); api_events.
           - rewrite (edit_check_raises py w reply ui m Herr Hguard Hcur Hno).
             api_events. }
      all: unfold _on_check_groups_before_edit;
        rewrite Herr, Hguard, bind_get_world, Hcur; api_events.
    + unfold _on_updated. rewrite Herr.
      rewrite (bind_outcome _ _ _ _ _ _ (eq_refl : emit _ w = _)), on_refresh_outcome.
      api_events.
    + unfold _on_members_fetched. rewrite Herr.
      match goal with
      | |- context [lift ?o] => destruct o; api_events
      end.
    + destruct (parse_reply_json py reply) as [| | | | |l|] eqn:Hdata.
      6: { rewrite (ClimbersPage_on_fetched_list reply l w Herr Hdata). api_events. }
      all: unfold ClimbersPage_on_fetched; rewrite Herr, Hdata; api_events.
    + destruct (parse_reply_json py reply) as [| | | | |l|] eqn:Hdata.
      6: { rewrite (GroupsPage_on_fetched_list reply l w Herr Hdata). api_events. }
      all: unfold GroupsPage_on_fetched; rewrite Herr, Hdata; api_events.
    + rewrite (_prep_add_outcome reply ui w Herr).
      destruct (group_form_selector py _); [|api_events].
      destruct (group_form ui); [api_events|]. cbv zeta.
      destruct (py_eq _ _); api_events.
    + unfold _on_group_created. rewrite Herr. api_events.
    + destruct (parse_reply_json py reply) as [| | | | |l|] eqn:Hdata.
      6: { rewrite (AscentsPage_on_fetched_list reply l w Herr Hdata). api_events. }
      all: unfold AscentsPage_on_fetched; rewrite Herr, Hdata; api_events.
    + unfold StatsPage_on_fetched. rewrite Herr.
      destruct (parse_reply_json py reply) as [| | | | |l|]; try api_events.
      destruct (traverse (stats_line py) l); api_events.
    + destruct (parse_reply_json py reply) as [| | | | |[|m rest]|] eqn:Hdata.
      7: { destruct (all_some (combo_entry py) (m :: rest)) eqn:Hall.
           - destruct (all_some_head_dict m rest Hall) as [d [-> Hrest]].
             rewrite (_on_combo_loaded_list reply d rest w Herr Hdata Hall). cbv zeta.
             destruct (qstring _).
             + cbn [events]. unfold first_load_requests. apply Forall_app. split;
                 apply mountain_requests_api.
             + cbn [events]. rewrite on_combo_change_outcome. cbv zeta.
               destruct (slot_acts _); [apply mountain_requests_api|api_events].
           - rewrite (_on_combo_loaded_raises reply (m :: rest) w Herr Hdata Hall).
             api_events. }
      all: rewrite (_on_combo_loaded_empty reply w Herr) by (rewrite Hdata; exact I);
        api_events.
  - intros mountain_id. rewrite load_mountain_outcome. apply mountain_requests_api.
  - unfold on_edit. rewrite bind_get_world.
    destruct (negb (truthy _)); [api_events|].
    destruct (get _ "id"); api_events.
  - intros group. unfold on_view_members.
    destruct group; try api_events.
    cbn [get lift]. rewrite !bind_ret. destruct (negb (truthy _)); api_events.
Qed.

End Coverage.

(** * The properties on concrete runs *)

Lemma edit_refused_when_groups_exist_witness :
  _on_check_groups_before_edit demo (ok "[{'name': 'Everest'}]") no_input everest_world
  = Out everest_world
        [Information (lit "Info")
           (lit "Cannot edit mountain: ascents exist for this mountain")]
        (Returned tt)
  /\ filter is_put (events (_on_check_groups_before_edit demo (ok "[{'name': 'Everest'}]")
                              no_input everest_world)) = [].
Proof.
  apply (edit_refused_when_groups_exist demo everest_world (ok "[{'name': 'Everest'}]")
           no_input (PyDict [(lit "name", PyStr (lit "Everest"))]) []);
    reflexivity.
Defined.

Example undated_group_is_shown_first :
  rendered_groups (world (_on_groups demo (ok two_groups) everest_world))
  = [PyDict [(lit "name", PyStr (lit "A"))];
     PyDict [(lit "name", PyStr (lit "B"));
             (lit "ascent_start_date", PyStr (lit "2024-05-01"))]].
Proof. reflexivity. Qed.

Lemma two_groups_are_records : Forall group_record [group_b; group_a].
Proof.
  repeat constructor.
  - eexists. split; [reflexivity|]. right. eexists. reflexivity.
  - eexists. split; [reflexivity|]. left. reflexivity.
Qed.

Lemma two_groups_are_displayable : Forall (displayable demo) [group_b; group_a].
Proof.
  repeat constructor;
    (eexists; split; [reflexivity|]; split; [eexists; reflexivity|];
     split; [left; reflexivity|reflexivity]).
Qed.

Lemma groups_rendered_in_start_date_order_witness :
  let out := _on_groups demo (ok two_groups) everest_world in
  Sorted date_le (rendered_groups (world out))
  /\ StronglySorted date_le (rendered_groups (world out))
  /\ status out = Returned tt
  /\ Permutation [group_b; group_a] (rendered_groups (world out)).
Proof.
  destruct (groups_rendered_in_start_date_order demo everest_world (ok two_groups)
              [group_b; group_a] eq_refl eq_refl two_groups_are_records)
    as (Hsorted & Hstrongly & _ & Hshown).
  destruct (Hshown two_groups_are_displayable) as (Hreturned & Hall).
  intros out. repeat split; assumption.
Defined.

Lemma display_name_is_not_the_plain_join :
  human_name_from_climber (PyDict ann) = Some (PyStr (lit "Ann Lee"))
  /\ display_name_spec ann = PyStr (lit " Ann Lee")
  /\ human_name_from_climber (PyDict ann) <> Some (display_name_spec ann).
Proof. repeat split. discriminate. Qed.

Lemma human_name_is_stripped_join_or_email_or_unknown_witness :
  human_name_from_climber (PyDict ann) = Some (PyStr (lit "Ann Lee")).
Proof.
  apply (human_name_is_stripped_join_or_email_or_unknown ann).
  - left. eexists. reflexivity.
  - right. reflexivity.
  - left. eexists. reflexivity.
  - discriminate.
Defined.

Lemma selector_fetch_error_is_silent :
  List.length (filter is_warning
                 (events (handle demo Cb_combo_loaded (failed "Connection refused")
                            no_input (fresh_world true)))) <> 1%nat.
Proof. discriminate. Qed.

Lemma transport_error_leaves_view_witness :
  let out := handle demo Cb_groups (failed "Connection refused") no_input everest_world in
  world out = everest_world
  /\ status out = Returned tt
  /\ exists text, events out = [Warning (lit "Error") text].
Proof.
  destruct (transport_error_leaves_view demo Cb_groups (failed "Connection refused")
              no_input everest_world (lit "Connection refused") eq_refl eq_refl)
    as [Hworld [Hstatus Hevents]].
  intros out. split; [exact Hworld|]. split; [exact Hstatus|].
  apply Hevents. discriminate.
Defined.

Lemma truncated_is_malformed : malformed demo truncated.
Proof. right. eexists. split; reflexivity. Qed.

Lemma malformed_detail_keeps_previous_values :
  malformed demo truncated
  /\ error truncated = None
  /\ name_lbl (page_mountains (world (handle demo Cb_mountain_detail truncated no_input
                                        everest_world)))
     = lit "Name: Everest"
  /\ detail_half (page_mountains (world (handle demo Cb_mountain_detail truncated no_input
                                           everest_world)))
     <> detail_half blank_page.
Proof.
  split; [exact truncated_is_malformed|]. repeat split. discriminate.
Qed.

Lemma everest_fills_the_edit_form :
  edit_fields demo everest (lit "Everest") 8849 [] [] [].
Proof. repeat split. Qed.

Lemma malformed_body_is_null_payload_witness :
  parse_reply_json demo truncated = PyNone
  /\ (let out := handle demo Cb_stats_fetched truncated no_input everest_world in
      status out = Returned tt /\ events out = []
      /\ empty_view Cb_stats_fetched (world out))
  /\ handle demo Cb_check_groups_before_edit truncated no_input everest_world
     = Out everest_world [Exec (EditMountainDialog (lit "Everest") 8849 [] [] [])]
           (Returned tt).
Proof.
  destruct (malformed_body_is_null_payload demo Cb_stats_fetched truncated no_input
              everest_world eq_refl eq_refl truncated_is_malformed)
    as [Hnull Hstats].
  split; [exact Hnull|]. split; [exact Hstats|].
  exact (proj2 (malformed_body_is_null_payload demo Cb_check_groups_before_edit truncated
                  no_input everest_world eq_refl eq_refl truncated_is_malformed)
           everest (lit "Everest") 8849 [] [] [] eq_refl everest_fills_the_edit_form).
Defined.

Lemma group_creation_refused_at_sentinel_witness :
  _prep_add demo (ok one_mountain) unselected everest_world
  = Out everest_world
        [Exec (AddGroupDialog [(lit "Select", PyInt (-1));
                               (lit "Everest (Nepal)", PyInt 1)]);
         Information (lit "Info") (lit "Select mountain")]
        (Returned tt)
  /\ filter is_post (events (_prep_add demo (ok one_mountain) unselected everest_world)) = [].
Proof.
  eapply (group_creation_refused_at_sentinel demo everest_world (ok one_mountain) unselected);
    reflexivity.
Defined.

Lemma refresh_loads_nothing_without_first_id :
  parse_reply_json demo (ok "[{'name': 'Everest'}]")
  = PyList [PyDict [(lit "name", PyStr (lit "Everest"))]]
  /\ _on_refresh_fetched demo (ok "[{'name': 'Everest'}]") (fresh_world false)
     = Out (fresh_world false) [] (Returned tt)
  /\ ~ exists mountain_id,
         events (_on_refresh_fetched demo (ok "[{'name': 'Everest'}]") (fresh_world false))
         = mountain_requests demo mountain_id.
Proof.
  repeat split. intros [mountain_id H]. discriminate H.
Qed.

Lemma refresh_reloads_current_or_first_witness :
  _on_refresh_fetched demo (ok "[{'id': 3, 'name': 'Elbrus'}]") everest_world
  = Out everest_world (mountain_requests demo (PyInt 3)) (Returned tt).
Proof.
  apply (refresh_reloads_current_or_first demo everest_world
           (ok "[{'id': 3, 'name': 'Elbrus'}]")
           [PyDict [(lit "id", PyInt 3); (lit "name", PyStr (lit "Elbrus"))]]
           [PyInt 3]); reflexivity.
Defined.

(** Selecting the mountain with id 0 in the selector calls [load_mountain]
    with 0: the title changes and no request goes out. *)
Lemma load_mountain_zero_fires_nothing :
  load_mountain demo (PyInt 0) everest_world = Out everest_world [] (Returned tt)
  /\ events (load_mountain demo (PyInt 0) everest_world)
     <> mountain_requests demo (PyInt 0)
  /\ title_label (world (setCurrentIndex demo 1 zero_id_world)) = PyStr (lit "Base camp")
  /\ events (setCurrentIndex demo 1 zero_id_world) = [].
Proof. repeat split. discriminate. Qed.

Lemma load_mountain_fires_both_halves_independent_witness :
  load_mountain demo (PyInt 1) everest_world
  = Out everest_world
        [Request GET (lit "http://localhost:8180/api/v1/mountains/1") None Cb_mountain_detail;
         Request GET (lit "http://localhost:8180/api/v1/mountains/1/groups") None Cb_groups]
        (Returned tt).
Proof.
  apply (load_mountain_fires_both_halves_independent demo (PyInt 1) everest_world).
  reflexivity.
Defined.


(** The same check with a height that arrived as text: the spin box refuses
    it and the handler raises before the dialog opens. *)
Example edit_of_a_text_height_raises :
  let texted := with_page (show_labels demo [(lit "id", PyInt 1);
                                             (lit "height", PyStr (lit "8849"))])
                          (fresh_world false) in
  _on_check_groups_before_edit demo truncated new_height texted = Out texted [] Raised.
Proof. reflexivity. Qed.

Lemma non_list_groups_clears_non_dict_detail_keeps_witness :
  (_on_groups demo (ok "null") everest_world
   = Out (with_page groups_list_clear everest_world) [] (Returned tt)
   /\ groups_list (page_mountains (world (_on_groups demo (ok "null") everest_world))) = []
   /\ detail_half (page_mountains (world (_on_groups demo (ok "null") everest_world)))
      = detail_half (page_mountains everest_world))
  /\ _on_mountain_detail demo (ok "[]") everest_world = Out everest_world [] (Returned tt).
Proof.
  apply (non_list_groups_clears_non_dict_detail_keeps demo everest_world (ok "null") (ok "[]"));
    reflexivity.
Defined.

(** ** Further properties on concrete runs *)

Lemma groups_all_shown_witness :
  let out := _on_groups demo (ok two_groups) (fresh_world false) in
  status out = Returned tt
  /\ events out = []
  /\ sorted_by_start_date [group_b; group_a] = Some (rendered_groups (world out))
  /\ Permutation [group_b; group_a] (rendered_groups (world out))
  /\ Forall (fun it => render_item demo (item_data it) = Some it)
            (groups_list (page_mountains (world out))).
Proof.
  apply (groups_all_shown demo (fresh_world false) (ok two_groups) [group_b; group_a]).
  - reflexivity.
  - reflexivity.
  - exact two_groups_are_records.
  - exact two_groups_are_displayable.
Defined.

(** What the group list does not show: a record whose description is a
    list, whose name is a number, or whose id has more than 64 bits makes
    its turn of the loop raise. *)
Example records_that_are_not_drawn :
  render_item demo (PyDict [(lit "name", PyStr (lit "A"));
                            (lit "description", PyList [PyStr (lit "steep")])]) = None
  /\ render_item demo (PyDict [(lit "name", PyInt 7)]) = None
  /\ render_item demo (PyDict [(lit "name", PyStr (lit "A")); (lit "id", PyInt (2 ^ 70))])
     = None.
Proof. repeat split. Qed.

Lemma group_cards_are_bounded_witness :
  Forall card_ok
    (groups_list (page_mountains (world (_on_groups demo (ok two_groups)
                                           (fresh_world false))))).
Proof.
  apply (group_cards_are_bounded demo (fresh_world false) (ok two_groups)). reflexivity.
Defined.

Lemma sorted_by_start_date_is_stable_witness :
  exists r, sorted_by_start_date [group_c; group_b; group_a] = Some r
            /\ filter (starts_on []) r = [group_c; group_a].
Proof.
  apply (sorted_by_start_date_is_stable [group_c; group_b; group_a] []).
  repeat constructor; eexists; (split; [reflexivity|]);
    first [left; reflexivity | right; eexists; reflexivity].
Defined.

Lemma current_mountain_stays_none_or_dict_witness :
  none_or_dict
    (current_mountain
       (page_mountains (world (handle demo_more Cb_mountain_detail (ok members_wrapped)
                                 no_input everest_world)))) = true.
Proof.
  apply (current_mountain_stays_none_or_dict demo_more Cb_mountain_detail
           (ok members_wrapped) no_input everest_world).
  reflexivity.
Defined.

Lemma list_is_replaced_wholesale_witness :
  world (handle demo Cb_groups (ok "[]") no_input everest_world)
  = world (handle demo Cb_groups (ok "[]") no_input
             (world (handle demo Cb_groups (ok two_groups) no_input everest_world))).
Proof.
  apply (list_is_replaced_wholesale demo Cb_groups (ok "[]") no_input everest_world
           (world (handle demo Cb_groups (ok two_groups) no_input everest_world)));
    reflexivity.
Defined.

Lemma stats_text_is_all_or_nothing_witness :
  exists lines,
    List.length lines = 1%nat
    /\ StatsPage_on_fetched demo (ok one_mountain) (fresh_world false)
       = Out (world (set_stats_text (join [10%N] lines) (fresh_world false))) []
             (Returned tt).
Proof.
  apply (proj1 (stats_text_is_all_or_nothing demo (ok one_mountain) [PyDict everest_record]
                  (fresh_world false) eq_refl eq_refl)).
  reflexivity.
Defined.


(** An id the selector cannot store stops the loop like a bad record; a
    name that is not a string stops the handler after the slot has set the
    title from the entry's text and requested the mountain once. *)
Example selector_refuses_huge_id_and_number_as_name :
  (let out := _on_combo_loaded demo_more (ok huge_id) (fresh_world true) in
   status out = Raised /\ events out = []
   /\ combo_items (mountain_combo (world out)) = [(lit "Select mountain", PyInt (-1))]
   /\ signalsBlocked (mountain_combo (world out)) = true)
  /\ (let out := _on_combo_loaded demo_more (ok number_as_name) (fresh_world true) in
      status out = Raised /\ events out = mountain_requests demo_more (PyInt 1)
      /\ title_label (world out) = PyStr (lit "7")).
Proof. repeat split. Qed.

Lemma selector_stays_blocked_after_bad_record_witness :
  let out := _on_combo_loaded demo_more (ok mountain_then_number) (fresh_world true) in
  status out = Raised
  /\ events out = []
  /\ signalsBlocked (mountain_combo (world out)) = true
  /\ title_label (world out) = PyStr em_dash
  /\ (forall i, events (setCurrentIndex demo_more i (world out)) = []
                /\ title_label (world (setCurrentIndex demo_more i (world out)))
                   = PyStr em_dash).
Proof.
  apply (selector_stays_blocked_after_bad_record demo_more (ok mountain_then_number)
           [PyDict everest_record; PyInt 7] (fresh_world true));
    reflexivity.
Defined.

Lemma refresh_on_payloads_of_the_wrong_shape_witness :
  _on_refresh_fetched demo (ok "null") everest_world
  = Out (with_page (fun _ => blank_page) everest_world) [] (Returned tt)
  /\ _on_refresh_fetched demo_more (ok mountain_then_number) everest_world
     = Out everest_world [] Raised.
Proof.
  split.
  - apply (proj1 (refresh_on_payloads_of_the_wrong_shape demo (ok "null") everest_world
                    eq_refl)).
    reflexivity.
  - apply (proj2 (refresh_on_payloads_of_the_wrong_shape demo_more (ok mountain_then_number)
                    everest_world eq_refl)
             [PyDict everest_record; PyInt 7]);
      reflexivity.
Defined.


Lemma mountain_write_refreshes_only_on_success_witness :
  (exists text,
      handle demo Cb_added (ok "null") no_input (fresh_world true)
      = Out (fresh_world true)
            [Information (lit "Success") text;
             Request GET (qurl (API_PREFIX ++ lit "/mountains/")) None Cb_combo_loaded]
            (Returned tt))
  /\ (exists text,
         handle demo Cb_updated (failed "Server error") no_input everest_world
         = Out everest_world [Warning (lit "Error") text] (Returned tt)).
Proof.
  split.
  - exact (mountain_write_refreshes_only_on_success demo Cb_added (ok "null") no_input
             (fresh_world true) (or_introl eq_refl)).
  - exact (mountain_write_refreshes_only_on_success demo Cb_updated (failed "Server error")
             no_input everest_world (or_intror eq_refl)).
Defined.

Lemma members_dialog_accepts_both_shapes_witness :
  _on_members_fetched demo_more (ok members_wrapped) everest_world
  = _on_members_fetched demo_more (ok members_bare) everest_world.
Proof.
  apply (members_dialog_accepts_both_shapes demo_more (ok members_bare) (ok members_wrapped)
           [ann_by_email] [(lit "members", PyList [ann_by_email])] everest_world);
    reflexivity.
Defined.

Lemma listed_group_a_is_listed :
  In listed_group_a
     (groups_list (page_mountains (world (_on_groups demo (ok two_groups)
                                            (fresh_world false))))).
Proof. left. reflexivity. Qed.

Lemma rendered_group_opens_its_dialog_witness :
  exists dlg,
    on_group_click demo listed_group_a = Some dlg
    /\ dialog_group dlg = group_a
    /\ dialog_title dlg = PyStr (lit "A")
    /\ dialog_desc dlg = PyStr []
    /\ on_view_members demo (dialog_group dlg) everest_world
       = Out everest_world [Information (lit "Info") (lit "Group id not available")]
             (Returned tt).
Proof.
  destruct (rendered_group_opens_its_dialog demo (ok two_groups) (fresh_world false)
              everest_world listed_group_a eq_refl listed_group_a_is_listed)
    as (d & Hdata & Hopens & Hdialog).
  injection Hdata as <-.
  destruct (on_group_click demo listed_group_a) as [dlg|].
  - exists dlg.
    destruct (Hdialog dlg eq_refl) as (Hgroup & Htitle & (text & Htext & Hdesc) & Hview).
    injection Htext as <-.
    split; [reflexivity|]. split; [exact Hgroup|]. split; [exact Htitle|].
    split; [exact Hdesc|exact Hview].
  - exfalso. apply (proj2 Hopens); [|reflexivity]. exists []. reflexivity.
Defined.

(** A record whose description is the number 0 is drawn, with an empty
    description, but clicking its item raises: the text box of the dialog
    refuses the number. *)
Example zero_description_is_drawn_but_not_opened :
  let g := PyDict [(lit "name", PyStr (lit "A")); (lit "description", PyInt 0)] in
  exists it,
    render_item demo g = Some it
    /\ card_desc (item_widget it) = PyStr []
    /\ on_group_click demo it = None.
Proof. eexists. repeat split. Qed.

Lemma selection_shows_the_mountain_name_witness :
  let out := on_combo_change demo base_camp_world in
  title_label (world out) = PyStr (lit "Base camp") /\ events out = [].
Proof.
  apply (selection_shows_the_mountain_name demo base_camp_world 1 base_camp (lit "Base camp")
           (lit "Base camp (Nepal)", PyInt 0));
    reflexivity.
Defined.

Lemma list_shows_rows_until_first_bad_record_witness :
  let out := handle demo_more Cb_climbers_fetched (ok mountain_then_number) no_input
               (fresh_world false) in
  (rows_shown Cb_climbers_fetched (world out) <= 2)%nat
  /\ (status out = Returned tt <-> rows_shown Cb_climbers_fetched (world out) = 2%nat)
  /\ events out = [].
Proof.
  apply (list_shows_rows_until_first_bad_record demo_more Cb_climbers_fetched
           (ok mountain_then_number) no_input [PyDict everest_record; PyInt 7]
           (fresh_world false));
    reflexivity.
Defined.
